(** * GSMT Ver 7.0 frontend (frontend/js/app.js)

    A shallow embedding of the [GSMTApp] class: the symbol selection, the
    analysis run with its synthetic fallback, the chart option builder and
    the persisted settings, followed by the properties the specification
    states about them.

    Conventions of the embedding.
    - A JavaScript [Set] and a [Map] keep insertion order: they are lists,
      with the operations written so that keys stay unique.
    - A plain object used as a table ([periodMap], the [data] object of
      [generateDemoAnalysis]) is a list of own properties; property reads
      go through [Object.prototype] as in the language, and
      [Object.entries] lists array-index keys first.
    - Prices are IEEE binary64 numbers ([PrimFloat]); counters, day counts
      and millisecond timestamps are integers well inside the exact range
      of a binary64 and are kept as [nat] and [Z].
    - [Math.random], [Date.now], [Math.pow], [Math.floor] and
      [Date.prototype.toISOString] are supplied by the host: they are the
      fields of an environment record, the first two as the stream of the
      values returned by successive calls.
    - Calls into the DOM, the chart library and the network are recorded in
      an effect log carried by the state. *)

From Stdlib Require Import List String Ascii Bool Arith ZArith NArith Lia.
From Stdlib Require Import PrimFloat Sorted Permutation.
From Stdlib Require Import Decimal DecimalString DecimalNat DecimalZ.
Import ListNotations.

#[local] Set Warnings "-inexact-float".

Local Open Scope string_scope.
Local Open Scope list_scope.

(* ================================================================== *)
(** ** JavaScript collections *)

(** [Set] of strings, in insertion order. *)
Module JsSet.

Definition t := list string.

Definition empty : t := [].

Definition has (s : t) (x : string) : bool := existsb (String.eqb x) s.

(** [Set.prototype.add]: a value already present keeps its place. *)
Definition add (s : t) (x : string) : t := if has s x then s else s ++ [x].

Definition delete (s : t) (x : string) : t :=
  filter (fun y => negb (String.eqb x y)) s.

Definition size (s : t) : nat := List.length s.

(** [Array.from(set)] *)
Definition to_array (s : t) : list string := s.

End JsSet.

(** [Map] from strings, in insertion order. *)
Module JsMap.
Section WithValue.
Context {V : Type}.

Definition t := list (string * V).

Definition empty : t := [].

Definition keys (m : t) : list string := map fst m.

Definition has (m : t) (k : string) : bool := existsb (String.eqb k) (keys m).

Fixpoint get (m : t) (k : string) : option V :=
  match m with
  | [] => None
  | (k', v) :: m' => if String.eqb k k' then Some v else get m' k
  end.

(** [Map.prototype.set]: an existing key keeps its place and takes the
    new value, a new key goes last. *)
Fixpoint set (m : t) (k : string) (v : V) : t :=
  match m with
  | [] => [(k, v)]
  | (k', v') :: m' =>
      if String.eqb k k' then (k, v) :: m' else (k', v') :: set m' k v
  end.

Definition delete (m : t) (k : string) : t :=
  filter (fun e => negb (String.eqb k (fst e))) m.

Definition size (m : t) : nat := List.length m.

(** [map.entries()] *)
Definition entries (m : t) : list (string * V) := m.

End WithValue.
Arguments t : clear implicits.
End JsMap.

(** Plain objects: the own enumerable string-keyed properties, in creation
    order, under the prototype [Object.prototype]. *)
Module JsObject.

(** The property names of [Object.prototype] in a browser. A read [o[k]]
    of a name that is not an own property of [o] finds these. *)
Definition prototype_names : list string :=
  [ "constructor"; "hasOwnProperty"; "isPrototypeOf"; "propertyIsEnumerable";
    "toLocaleString"; "toString"; "valueOf"; "__proto__";
    "__defineGetter__"; "__defineSetter__"; "__lookupGetter__";
    "__lookupSetter__" ].

Definition inherited (k : string) : bool :=
  existsb (String.eqb k) prototype_names.

(** What a property read evaluates to. *)
Inductive lookup (V : Type) : Type :=
| Own (v : V)      (* the value of an own property *)
| Inherited        (* a function or an object found on the prototype *)
| Undefined.
Arguments Own {V} v.
Arguments Inherited {V}.
Arguments Undefined {V}.

Section WithValue.
Context {V : Type}.

Definition t := list (string * V).

Definition empty : t := [].

(** [o[k]] *)
Definition get (o : t) (k : string) : lookup V :=
  match JsMap.get o k with
  | Some v => Own v
  | None => if inherited k then Inherited else Undefined
  end.

(** [o[k] = v] with [v] an object. Every property of [Object.prototype]
    is a writable data property, shadowed by the assignment, except the
    accessor [__proto__]: assigning an object to it replaces the
    prototype of [o] and creates no own property. *)
Definition assign (o : t) (k : string) (v : V) : t :=
  if String.eqb k "__proto__" then o else JsMap.set o k v.

(** An array index is the canonical decimal form of an integer below
    [2^32 - 1]. *)
Definition digit_of (c : ascii) : option N :=
  let n := N_of_ascii c in
  if (48 <=? n)%N && (n <=? 57)%N then Some (n - 48)%N else None.

Fixpoint parse_digits (s : string) (acc : N) : option N :=
  match s with
  | EmptyString => Some acc
  | String c r =>
      match digit_of c with
      | Some d => parse_digits r (10 * acc + d)%N
      | None => None
      end
  end.

Definition array_index (k : string) : option N :=
  match k with
  | EmptyString => None
  | String c r =>
      if Ascii.eqb c "0"%char
      then match r with EmptyString => Some 0%N | _ => None end
      else match parse_digits k 0 with
           | Some n => if (n <? 2 ^ 32 - 1)%N then Some n else None
           | None => None
           end
  end.

Fixpoint insert_by_index (e : N * (string * V)) (l : list (N * (string * V)))
  : list (N * (string * V)) :=
  match l with
  | [] => [e]
  | e' :: l' =>
      if (fst e <=? fst e')%N then e :: l else e' :: insert_by_index e l'
  end.

Fixpoint index_props (o : t) : list (N * (string * V)) :=
  match o with
  | [] => []
  | (k, v) :: o' =>
      match array_index k with
      | Some n => insert_by_index (n, (k, v)) (index_props o')
      | None => index_props o'
      end
  end.

Definition named_props (o : t) : list (string * V) :=
  filter (fun e => match array_index (fst e) with Some _ => false | None => true end) o.

(** [Object.entries(o)]: array-index keys in ascending order, then the
    other keys in creation order. *)
Definition entries (o : t) : list (string * V) :=
  map snd (index_props o) ++ named_props o.

(** [Object.keys(o)] *)
Definition keys (o : t) : list string := map fst (entries o).

End WithValue.
Arguments t : clear implicits.
End JsObject.

(* ================================================================== *)
(** ** Numbers, the host environment and the series points *)

(** A JavaScript value as far as [getPeriodDays] can return one: a number
    of the table, or an object (a function) inherited from
    [Object.prototype]. *)
Inductive JsValue : Type :=
| VNumber (n : Z)
| VObject.

(** [ToNumber]: an object that is not a number converts to NaN, which is
    [None] here. *)
Definition ToNumber (v : JsValue) : option Z :=
  match v with
  | VNumber n => Some n
  | VObject => None
  end.

(** [a || b] on a number and a default: zero is falsy. *)
Definition or_default (v : JsObject.lookup Z) (d : Z) : JsValue :=
  match v with
  | JsObject.Own n => if (n =? 0)%Z then VNumber d else VNumber n
  | JsObject.Inherited => VObject
  | JsObject.Undefined => VNumber d
  end.

(** A small integer as a binary64 (exact below 2^53). *)
Fixpoint float_of_nat (n : nat) : float :=
  match n with
  | O => 0%float
  | S k => (float_of_nat k + 1)%float
  end.

(** What the browser supplies. [Math_random k] and [Date_now k] are the
    results of the call number [k] (from 0) of [Math.random()] and of
    [Date.now()]; a reading of the clock is a time in milliseconds that a
    [Date] holds, also two years earlier. *)
Record Host : Type := {
  Math_random : nat -> float;
  Date_now : nat -> Z;
  Math_pow : float -> float -> float;
  Math_floor : float -> float;
  toISOString : Z -> string
}.

(** How many calls of each stream have been made. *)
Record World : Type := {
  random_calls : nat;
  clock_reads : nat
}.

Definition World0 : World := {| random_calls := 0; clock_reads := 0 |}.

Record SeriesPoint : Type := {
  timestamp : string;
  timestamp_ms : Z;
  open : float;
  high : float;
  low : float;
  close : float;
  volume : float;
  percentage_change : float
}.

(** Milliseconds in a day: [24 * 60 * 60 * 1000]. *)
Definition DAY_MS : Z := 24 * 60 * 60 * 1000.

(** [getPeriodDays]: the table of the source, read as an object. *)
Definition periodMap : JsObject.t Z :=
  [ ("24h", 1%Z); ("3d", 3%Z); ("1w", 7%Z); ("2w", 14%Z);
    ("1M", 30%Z); ("3M", 90%Z); ("6M", 180%Z); ("1Y", 365%Z); ("2Y", 730%Z) ].

Definition getPeriodDays (period : string) : JsValue :=
  or_default (JsObject.get periodMap period) 1.

Section Generation.
Variable host : Host.

(** [Math.random()] and [Date.now()] as steps of the world. *)
Definition random (w : World) : float * World :=
  (Math_random host (random_calls w),
   {| random_calls := S (random_calls w); clock_reads := clock_reads w |}).

Definition now (w : World) : Z * World :=
  (Date_now host (clock_reads w),
   {| random_calls := random_calls w; clock_reads := S (clock_reads w) |}).

(** One turn of the inner loop of [generateDemoAnalysis], at index [i]
    with [days] a number: the new base price, the point pushed and the
    world after the calls. *)
Definition demo_point (days : Z) (i : nat) (basePrice : float) (w : World)
  : float * SeriesPoint * World :=
  let '(t, w1) := now w in
  let timestamp := (t - (days - Z.of_nat i) * DAY_MS)%Z in
  let '(r, w2) := random w1 in
  let change := ((r - 0.5) * 0.04)%float in
  let basePrice := (basePrice * (1 + change))%float in
  let start := (basePrice / Math_pow host (1 + change) (float_of_nat (i + 1)))%float in
  let percentageChange := ((basePrice - start) / start * 100)%float in
  let '(v, w3) := random w2 in
  (basePrice,
   {| timestamp := toISOString host timestamp;
      timestamp_ms := timestamp;
      open := (basePrice * 0.99)%float;
      high := (basePrice * 1.02)%float;
      low := (basePrice * 0.98)%float;
      close := basePrice;
      volume := Math_floor host (v * 10000000)%float;
      percentage_change := percentageChange |},
   w3).

(** [for (let i = 0; i < Math.min(50, days); i++) { ... }]. With [days]
    NaN the comparison is false and the body never runs. The bound is at
    most 50, so 50 units of fuel always reach the exit test (lemma
    [points_loop_fuel]). *)
Fixpoint points_loop (fuel : nat) (days : option Z) (i : nat)
  (basePrice : float) (points : list SeriesPoint) (w : World)
  : list SeriesPoint * World :=
  match fuel with
  | O => (points, w)
  | S fuel' =>
      match days with
      | Some d =>
          if (Z.of_nat i <? Z.min 50 d)%Z then
            let '(basePrice', point, w') := demo_point d i basePrice w in
            points_loop fuel' days (S i) basePrice' (points ++ [point]) w'
          else (points, w)
      | None => (points, w)
      end
  end.

(** The callback of [symbols.forEach]: the [points] array of one symbol. *)
Definition demo_points (symbol : string) (days : JsValue) (w : World)
  : list SeriesPoint * World :=
  let '(r, w1) := random w in
  let basePrice :=
    if String.prefix "^" symbol
    then (r * 30000 + 5000)%float
    else (r * 400 + 50)%float in
  points_loop 50 (ToNumber days) 0 basePrice [] w1.

Fixpoint forEach_symbol (symbols : list string) (days : JsValue)
  (data : JsObject.t (list SeriesPoint)) (w : World)
  : JsObject.t (list SeriesPoint) * World :=
  match symbols with
  | [] => (data, w)
  | symbol :: rest =>
      let '(points, w') := demo_points symbol days w in
      forEach_symbol rest days (JsObject.assign data symbol points) w'
  end.

Record AnalysisData : Type := {
  data : JsObject.t (list SeriesPoint);
  success : bool
}.

Definition generateDemoAnalysis (symbols : list string) (period : string)
  (w : World) : AnalysisData * World :=
  let days := getPeriodDays period in
  let '(data, w') := forEach_symbol symbols days JsObject.empty w in
  ({| data := data; success := true |}, w').

End Generation.

(* ================================================================== *)
(** ** JSON text of the settings object *)

(** The settings object holds a flag and a number. [JSON.stringify] and
    [JSON.parse] are modelled on the fragment such objects live in: flat
    objects whose keys need no escape and whose values are [null], a
    boolean or an integer written in decimal. [Number n] stands for a
    safe integer (at most 2^53 - 1 in magnitude), which a binary64 holds
    exactly and prints without exponent; [NaN] is what [parseInt] returns
    on a field without digits. *)
Module JSON.

Inductive Value : Type :=
| Null
| Bool (b : bool)
| Number (n : Z)
| NaN.

Definition Object := JsObject.t Value.

Definition quote : ascii := "034"%char.
Definition backslash : ascii := "092"%char.

(** [JSON.stringify] of a value: NaN is written [null]. *)
Definition stringify_value (v : Value) : string :=
  match v with
  | Null => "null"
  | Bool true => "true"
  | Bool false => "false"
  | Number n => NilEmpty.string_of_int (Z.to_int n)
  | NaN => "null"
  end.

Definition stringify_member (e : string * Value) : string :=
  String quote (fst e ++ String quote (String ":" (stringify_value (snd e)))).

Fixpoint stringify_members (l : list (string * Value)) : string :=
  match l with
  | [] => ""
  | [e] => stringify_member e
  | e :: l' => stringify_member e ++ String "," (stringify_members l')
  end.

(** [JSON.stringify(o)] for an object of the fragment. *)
Definition stringify (o : Object) : string :=
  String "{" (stringify_members (JsObject.entries o) ++ "}").

(** What [JSON.parse] did with a text. [Beyond] is a text this fragment
    does not cover: the model says nothing about it. *)
Inductive Parse : Type :=
| Parsed (v : Value)
| ParsedObject (o : Object)
| SyntaxError
| Beyond.

Definition is_ws (c : ascii) : bool :=
  Ascii.eqb c " "%char || Ascii.eqb c "009"%char
  || Ascii.eqb c "010"%char || Ascii.eqb c "013"%char.

Fixpoint skip_ws (s : string) : string :=
  match s with
  | String c r => if is_ws c then skip_ws r else s
  | EmptyString => s
  end.

Definition digit (c : ascii) : option (uint -> uint) :=
  match c with
  | "0" => Some D0 | "1" => Some D1 | "2" => Some D2 | "3" => Some D3
  | "4" => Some D4 | "5" => Some D5 | "6" => Some D6 | "7" => Some D7
  | "8" => Some D8 | "9" => Some D9
  | _ => None
  end%char.

(** The longest run of digits at the head of [s], and what follows. *)
Fixpoint read_digits (s : string) : uint * string :=
  match s with
  | String c r =>
      match digit c with
      | Some d => let '(u, rest) := read_digits r in (d u, rest)
      | None => (Nil, s)
      end
  | EmptyString => (Nil, s)
  end.

(** A JSON integer has one digit at least and no leading zero. *)
Definition canonical (u : uint) : bool :=
  match u with
  | Nil => false
  | D0 Nil => true
  | D0 _ => false
  | _ => true
  end.

(** A fraction or an exponent continues the number: not an integer. *)
Definition continues_number (s : string) : bool :=
  match s with
  | String c _ => Ascii.eqb c "."%char || Ascii.eqb c "e"%char || Ascii.eqb c "E"%char
  | EmptyString => false
  end.

(** The largest integer below which every integer is a binary64:
    [Number.MAX_SAFE_INTEGER]. *)
Definition MAX_SAFE_INTEGER : Z := 2 ^ 53 - 1.

(** An integer literal is read when it is canonical, stands for a safe
    integer and is not the negative zero. *)
Definition parse_number (s : string) : option (Value * string) :=
  let '(neg, body) :=
    match s with
    | String "-"%char r => (true, r)
    | _ => (false, s)
    end in
  let '(u, rest) := read_digits body in
  let n := Z.of_int (if neg then Neg u else Pos u) in
  if canonical u && negb (continues_number rest)
     && negb (neg && (n =? 0)%Z) && (Z.abs n <=? MAX_SAFE_INTEGER)%Z
  then Some (Number n, rest)
  else None.

(** What follows the prefix [p] in [s], when [s] starts with it. *)
Fixpoint strip (p s : string) : option string :=
  match p with
  | EmptyString => Some s
  | String c p' =>
      match s with
      | String d s' => if Ascii.eqb c d then strip p' s' else None
      | EmptyString => None
      end
  end.

Definition parse_value (s : string) : option (Value * string) :=
  match strip "null" s with
  | Some r => Some (Null, r)
  | None =>
  match strip "true" s with
  | Some r => Some (Bool true, r)
  | None =>
  match strip "false" s with
  | Some r => Some (Bool false, r)
  | None => parse_number s
  end end end.

(** The characters of a key up to its closing quote; a backslash or a
    control character leaves the fragment. *)
Fixpoint read_key (s : string) : option (string * string) :=
  match s with
  | EmptyString => None
  | String c r =>
      if Ascii.eqb c quote then Some ("", r)
      else if Ascii.eqb c backslash || (N_of_ascii c <? 32)%N then None
      else match read_key r with
           | Some (k, rest) => Some (String c k, rest)
           | None => None
           end
  end.

(** [quote key quote : value], then a comma and more, or the closing
    brace. A repeated key keeps its first place and takes the last value. *)
Fixpoint parse_members (fuel : nat) (s : string) (acc : Object)
  : option (Object * string) :=
  match fuel with
  | O => None
  | S fuel' =>
      match skip_ws s with
      | String c r =>
          if Ascii.eqb c quote then
            match read_key r with
            | Some (k, r1) =>
                match skip_ws r1 with
                | String ":"%char r2 =>
                    match parse_value (skip_ws r2) with
                    | Some (v, r3) =>
                        match skip_ws r3 with
                        | String ","%char r4 => parse_members fuel' r4 (JsMap.set acc k v)
                        | String "}"%char r4 => Some (JsMap.set acc k v, r4)
                        | _ => None
                        end
                    | None => None
                    end
                | _ => None
                end
            | None => None
            end
          else None
      | EmptyString => None
      end
  end.

Definition parse_object (s : string) : option (Object * string) :=
  match s with
  | String "{"%char r =>
      match skip_ws r with
      | String "}"%char r' => Some (JsObject.empty, r')
      | _ => parse_members (String.length r) r JsObject.empty
      end
  | _ => None
  end.

(** No JSON text starts with anything but these. *)
Definition may_start_value (c : ascii) : bool :=
  existsb (Ascii.eqb c)
    [ "{"; "["; quote; "-"; "t"; "f"; "n";
      "0"; "1"; "2"; "3"; "4"; "5"; "6"; "7"; "8"; "9" ]%char.

(** [JSON.parse(text)] *)
Definition parse (text : string) : Parse :=
  let s := skip_ws text in
  match s with
  | EmptyString => SyntaxError
  | String c _ =>
      if negb (may_start_value c) then SyntaxError
      else
        match parse_object s with
        | Some (o, rest) =>
            match skip_ws rest with EmptyString => ParsedObject o | _ => Beyond end
        | None =>
            match parse_value s with
            | Some (v, rest) =>
                match skip_ws rest with EmptyString => Parsed v | _ => Beyond end
            | None => Beyond
            end
        end
  end.

End JSON.

(* ================================================================== *)
(** ** Chart options *)

(** The option objects handed to the chart library. The constant styling
    of tooltip, legend, grid margins and axis lines is left out; what
    varies with the data and the chart type is kept. *)
Record Title : Type := {
  text : string;
  left : string;
  top : option string;
  fontSize : nat;
  fontWeight : option string;
  title_color : string
}.

Record Series : Type := {
  name : string;
  type : string;
  points : list (Z * float);      (* the [data] property: [x, y] pairs *)
  smooth : bool;
  symbol : string;
  lineStyle_width : nat;
  color : string
}.

Record ChartOption : Type := {
  title : Title;
  axes : option (string * string * string);   (* xAxis.type, yAxis.type, label formatter;
                                                 [None]: grid and axes are [{ show: false }] *)
  series : option (list Series);               (* [None]: no [series] property *)
  animation : option (bool * nat)
}.

Definition colors : list string :=
  [ "#3b82f6"; "#10b981"; "#f59e0b"; "#ef4444";
    "#8b5cf6"; "#f97316"; "#06b6d4"; "#84cc16" ].

Definition line_series (symbol : string) (colorIndex : nat) (pts : list (Z * float))
  : Series :=
  {| name := symbol;
     type := "line";
     points := pts;
     smooth := true;
     symbol := "none";
     lineStyle_width := 2;
     color := nth (colorIndex mod List.length colors) colors "" |}.

(** The loop of [generateChartOption] over [chartData.entries()]: a series
    is pushed for the chart types [percentage] and [price] only, and the
    colour index advances in every turn. *)
Fixpoint chart_series (chartType : string) (entries : list (string * list SeriesPoint))
  (colorIndex : nat) (series : list Series) : list Series :=
  match entries with
  | [] => series
  | (symbol, data) :: rest =>
      let series' :=
        if String.eqb chartType "percentage" then
          series ++ [line_series symbol colorIndex
                       (map (fun point => (timestamp_ms point, percentage_change point)) data)]
        else if String.eqb chartType "price" then
          series ++ [line_series symbol colorIndex
                       (map (fun point => (timestamp_ms point, close point)) data)]
        else series in
      chart_series chartType rest (S colorIndex) series'
  end.

Definition generateChartOption (chartData : JsMap.t (list SeriesPoint))
  (chartType : string) : ChartOption :=
  let series := chart_series chartType (JsMap.entries chartData) 0 [] in
  {| title :=
       {| text := if String.eqb chartType "percentage"
                  then "Percentage Change Analysis" else "Price Analysis";
          left := "center";
          top := None;
          fontSize := 16;
          fontWeight := Some "bold";
          title_color := "#374151" |};
     axes := Some ("time", "value",
                   if String.eqb chartType "percentage" then "{value}%" else "${value}");
     series := Some series;
     animation := Some (true, 1000) |}.

Definition getEmptyChartOption : ChartOption :=
  {| title :=
       {| text := "Select symbols to begin analysis";
          left := "center";
          top := Some "middle";
          fontSize := 16;
          fontWeight := None;
          title_color := "#9ca3af" |};
     axes := None;
     series := None;
     animation := None |}.

(** The option [updateChart] computes from the chart data and the value of
    the chart-type control, with the [notMerge] flag it passes along. *)
Definition chart_option (chartData : JsMap.t (list SeriesPoint)) (chartType : string)
  : ChartOption * bool :=
  if Nat.eqb (JsMap.size chartData) 0
  then (getEmptyChartOption, false)
  else (generateChartOption chartData chartType, true).

(* ================================================================== *)
(** ** Application state *)

Inductive ToastType : Type :=
| ToastSuccess
| ToastError
| ToastWarning
| ToastInfo.

(** Calls that leave the class: notifications, DOM updates, the chart
    library, the network and timers. *)
Inductive Effect : Type :=
| ShowToast (message : string) (kind : ToastType)
| ShowChips (symbols : list string)
| HideChips
| SetOption (option : ChartOption) (notMerge : bool)
| ShowSummary (cards : list (string * float))
| HideSummary
| Loading (on : bool)
| FetchAnalyze (url : string) (symbols : list string) (period chartType : string)
| CheckConnection (url : string)
| SetInterval (refreshInterval : JsObject.lookup JSON.Value)
| ClearInterval
| HideSettings.

Record State : Type := {
  apiBaseUrl : option string;                 (* [None] is null *)
  selectedSymbols : JsSet.t;
  chartData : JsMap.t (list SeriesPoint);
  chartInstance : bool;                       (* the chart has been created *)
  settings : JSON.Object;
  isLoading : bool;
  refreshTimer : bool;                        (* a timer id is held *)
  time_period : string;                       (* value of the period control *)
  chart_type : string;                        (* value of the chart-type control *)
  localStorage : JsMap.t string;
  world : World;
  effects : list Effect
}.

Definition with_apiBaseUrl (v : option string) (s : State) : State :=
  {| apiBaseUrl := v; selectedSymbols := selectedSymbols s; chartData := chartData s;
     chartInstance := chartInstance s; settings := settings s; isLoading := isLoading s;
     refreshTimer := refreshTimer s; time_period := time_period s;
     chart_type := chart_type s; localStorage := localStorage s; world := world s;
     effects := effects s |}.

Definition with_selectedSymbols (v : JsSet.t) (s : State) : State :=
  {| apiBaseUrl := apiBaseUrl s; selectedSymbols := v; chartData := chartData s;
     chartInstance := chartInstance s; settings := settings s; isLoading := isLoading s;
     refreshTimer := refreshTimer s; time_period := time_period s;
     chart_type := chart_type s; localStorage := localStorage s; world := world s;
     effects := effects s |}.

Definition with_chartData (v : JsMap.t (list SeriesPoint)) (s : State) : State :=
  {| apiBaseUrl := apiBaseUrl s; selectedSymbols := selectedSymbols s; chartData := v;
     chartInstance := chartInstance s; settings := settings s; isLoading := isLoading s;
     refreshTimer := refreshTimer s; time_period := time_period s;
     chart_type := chart_type s; localStorage := localStorage s; world := world s;
     effects := effects s |}.

Definition with_settings (v : JSON.Object) (s : State) : State :=
  {| apiBaseUrl := apiBaseUrl s; selectedSymbols := selectedSymbols s;
     chartData := chartData s; chartInstance := chartInstance s; settings := v;
     isLoading := isLoading s; refreshTimer := refreshTimer s;
     time_period := time_period s; chart_type := chart_type s;
     localStorage := localStorage s; world := world s; effects := effects s |}.

Definition with_isLoading (v : bool) (s : State) : State :=
  {| apiBaseUrl := apiBaseUrl s; selectedSymbols := selectedSymbols s;
     chartData := chartData s; chartInstance := chartInstance s; settings := settings s;
     isLoading := v; refreshTimer := refreshTimer s; time_period := time_period s;
     chart_type := chart_type s; localStorage := localStorage s; world := world s;
     effects := effects s |}.

Definition with_refreshTimer (v : bool) (s : State) : State :=
  {| apiBaseUrl := apiBaseUrl s; selectedSymbols := selectedSymbols s;
     chartData := chartData s; chartInstance := chartInstance s; settings := settings s;
     isLoading := isLoading s; refreshTimer := v; time_period := time_period s;
     chart_type := chart_type s; localStorage := localStorage s; world := world s;
     effects := effects s |}.

Definition with_time_period (v : string) (s : State) : State :=
  {| apiBaseUrl := apiBaseUrl s; selectedSymbols := selectedSymbols s;
     chartData := chartData s; chartInstance := chartInstance s; settings := settings s;
     isLoading := isLoading s; refreshTimer := refreshTimer s; time_period := v;
     chart_type := chart_type s; localStorage := localStorage s; world := world s;
     effects := effects s |}.

Definition with_chart_type (v : string) (s : State) : State :=
  {| apiBaseUrl := apiBaseUrl s; selectedSymbols := selectedSymbols s;
     chartData := chartData s; chartInstance := chartInstance s; settings := settings s;
     isLoading := isLoading s; refreshTimer := refreshTimer s;
     time_period := time_period s; chart_type := v; localStorage := localStorage s;
     world := world s; effects := effects s |}.

Definition with_localStorage (v : JsMap.t string) (s : State) : State :=
  {| apiBaseUrl := apiBaseUrl s; selectedSymbols := selectedSymbols s;
     chartData := chartData s; chartInstance := chartInstance s; settings := settings s;
     isLoading := isLoading s; refreshTimer := refreshTimer s;
     time_period := time_period s; chart_type := chart_type s; localStorage := v;
     world := world s; effects := effects s |}.

Definition with_world (v : World) (s : State) : State :=
  {| apiBaseUrl := apiBaseUrl s; selectedSymbols := selectedSymbols s;
     chartData := chartData s; chartInstance := chartInstance s; settings := settings s;
     isLoading := isLoading s; refreshTimer := refreshTimer s;
     time_period := time_period s; chart_type := chart_type s;
     localStorage := localStorage s; world := v; effects := effects s |}.

(** Record one call that leaves the class. *)
Definition emit (e : Effect) (s : State) : State :=
  {| apiBaseUrl := apiBaseUrl s; selectedSymbols := selectedSymbols s;
     chartData := chartData s; chartInstance := chartInstance s; settings := settings s;
     isLoading := isLoading s; refreshTimer := refreshTimer s;
     time_period := time_period s; chart_type := chart_type s;
     localStorage := localStorage s; world := world s;
     effects := effects s ++ [e] |}.

(** A string is truthy when it is not empty; null is falsy. *)
Definition truthy_string (s : option string) : bool :=
  match s with
  | Some EmptyString => false
  | Some _ => true
  | None => false
  end.

Definition truthy (v : JsObject.lookup JSON.Value) : bool :=
  match v with
  | JsObject.Own (JSON.Bool b) => b
  | JsObject.Own (JSON.Number n) => negb (n =? 0)%Z
  | JsObject.Own JSON.Null => false
  | JsObject.Own JSON.NaN => false
  | JsObject.Inherited => true
  | JsObject.Undefined => false
  end.

Definition string_of_nat (n : nat) : string := NilEmpty.string_of_uint (Nat.to_uint n).

(** The URL as a template literal prints it. *)
Definition api_url (s : option string) : string :=
  match s with
  | Some url => url
  | None => "null"
  end.

(** [s.includes(sub)] *)
Fixpoint includes (s sub : string) : bool :=
  String.prefix sub s ||
  match s with
  | String _ r => includes r sub
  | EmptyString => false
  end.

(* ================================================================== *)
(** ** Settings store *)

Definition SETTINGS_KEY : string := "gsmt-settings".
Definition API_URL_KEY : string := "gsmt-api-url".

Definition defaultSettings : JSON.Object :=
  [ ("autoRefresh", JSON.Bool false); ("refreshInterval", JSON.Number 300) ].

(** [{ ...a, ...b }]: the own properties of [b] are defined over [a]. *)
Definition spread (a b : JSON.Object) : JSON.Object :=
  fold_left (fun acc e => JsMap.set acc (fst e) (snd e)) (JsObject.entries b) a.

(** [loadSettings]. A missing or empty item, and a text that does not
    parse, give the defaults; a parsed null, boolean or number spreads to
    nothing. [None]: the stored text is outside the JSON fragment. *)
Definition loadSettings (storage : JsMap.t string) : option JSON.Object :=
  match JsMap.get storage SETTINGS_KEY with
  | None => Some defaultSettings
  | Some saved =>
      if truthy_string (Some saved) then
        match JSON.parse saved with
        | JSON.ParsedObject o => Some (spread defaultSettings o)
        | JSON.Parsed _ => Some defaultSettings
        | JSON.SyntaxError => Some defaultSettings
        | JSON.Beyond => None
        end
      else Some defaultSettings
  end.

(** [detectApiUrl], from the stored URL and [window.location]. *)
Definition detectApiUrl (storage : JsMap.t string) (hostname origin : string)
  : option string :=
  let saved := JsMap.get storage API_URL_KEY in
  if truthy_string saved then saved
  else if String.eqb hostname "localhost" || String.eqb hostname "127.0.0.1"
  then Some "http://localhost:8000"
  else if includes hostname "netlify" then None
  else Some origin.

(* ================================================================== *)
(** ** The methods of [GSMTApp] *)

Section App.
Variable host : Host.

(** [showToast]: the notification shown. The id the method gives the
    element, a reading of the clock, is used only to find the element
    again for its removal and is left out: a toast does not advance
    [clock_reads]. *)
Definition showToast (message : string) (kind : ToastType) (s : State) : State :=
  emit (ShowToast message kind) s.

Definition updateSelectedSymbolsDisplay (s : State) : State :=
  if Nat.eqb (JsSet.size (selectedSymbols s)) 0
  then emit HideChips s
  else emit (ShowChips (JsSet.to_array (selectedSymbols s))) s.

Definition updateChart (s : State) : State :=
  if negb (chartInstance s) then s
  else
    let '(option, notMerge) := chart_option (chartData s) (chart_type s) in
    emit (SetOption option notMerge) s.

(** [latestPoint?.percentage_change || 0]: zero and NaN are falsy. *)
Definition latest_change (data : list SeriesPoint) : float :=
  match List.last (map Some data) None with
  | Some latestPoint =>
      let c := percentage_change latestPoint in
      if PrimFloat.is_nan c || PrimFloat.is_zero c then 0%float else c
  | None => 0%float
  end.

Definition updatePerformanceSummary (s : State) : State :=
  if Nat.eqb (JsMap.size (chartData s)) 0
  then emit HideSummary s
  else emit (ShowSummary (map (fun e => (fst e, latest_change (snd e)))
                            (JsMap.entries (chartData s)))) s.

Definition addSymbol (symbol : string) (s : State) : State :=
  if JsSet.has (selectedSymbols s) symbol then
    showToast (symbol ++ " is already selected") ToastWarning s
  else if Nat.leb 10 (JsSet.size (selectedSymbols s)) then
    showToast "Maximum 10 symbols allowed" ToastWarning s
  else
    let s := with_selectedSymbols (JsSet.add (selectedSymbols s) symbol) s in
    let s := updateSelectedSymbolsDisplay s in
    showToast ("Added " ++ symbol ++ " to analysis") ToastSuccess s.

Definition removeSymbol (symbol : string) (s : State) : State :=
  let s := with_selectedSymbols (JsSet.delete (selectedSymbols s) symbol) s in
  let s := with_chartData (JsMap.delete (chartData s) symbol) s in
  let s := updateSelectedSymbolsDisplay s in
  let s := updateChart s in
  showToast ("Removed " ++ symbol ++ " from analysis") ToastInfo s.

Definition handleClear (s : State) : State :=
  let s := with_selectedSymbols JsSet.empty s in
  let s := with_chartData JsMap.empty s in
  let s := updateSelectedSymbolsDisplay s in
  let s := updateChart s in
  let s := emit HideSummary s in
  showToast "Analysis cleared" ToastInfo s.

Definition setLoading (loading : bool) (s : State) : State :=
  emit (Loading loading) (with_isLoading loading s).

(** [chartData.clear()] and one [chartData.set] for each entry of the
    data object. *)
Definition store_chart_data (data : JsObject.t (list SeriesPoint)) (s : State) : State :=
  with_chartData
    (fold_left (fun m e => JsMap.set m (fst e) (snd e)) (JsObject.entries data) JsMap.empty)
    s.

(** How the awaited request of [handleAnalyze] ended: a response whose
    body decodes to an object with the [data] given, or anything that
    throws into the [catch] block (a rejected fetch, a status that is not
    ok, a body that is not such a JSON text). *)
Inductive Outcome : Type :=
| Responded (data : JsObject.t (list SeriesPoint))
| Threw.

(** What a suspended method waits for. [AwaitAnalyze symbols] is
    [handleAnalyze] at its [await fetch], holding the array it took from
    the selection. *)
Inductive Pending : Type :=
| AwaitAnalyze (symbols : list string)
| AwaitSettings
| AwaitInit.

(** The demo data for the present selection and period, stored and shown:
    the common part of the branch without API URL and of the [catch]
    block. *)
Definition demo_run (symbols : list string) (period : string) (s : State) : State :=
  let '(demoData, w) := generateDemoAnalysis host symbols period (world s) in
  let s := with_world w s in
  let s := store_chart_data (data demoData) s in
  let s := updateChart s in
  updatePerformanceSummary s.

(** [handleAnalyze] up to its first suspension. Without API URL nothing
    is awaited and the method runs to its end. *)
Definition handleAnalyze (s : State) : State * option Pending :=
  if Nat.eqb (JsSet.size (selectedSymbols s)) 0 then
    (showToast "Please select at least one symbol" ToastWarning s, None)
  else
    let s := setLoading true s in
    let symbols := JsSet.to_array (selectedSymbols s) in
    let period := time_period s in
    let chartType := chart_type s in
    if truthy_string (apiBaseUrl s) then
      (emit (FetchAnalyze (api_url (apiBaseUrl s) ++ "/analyze") symbols period chartType) s,
       Some (AwaitAnalyze symbols))
    else
      let s := demo_run symbols period s in
      let s := showToast ("Analysis complete: " ++ string_of_nat (List.length symbols)
                          ++ " symbols processed") ToastSuccess s in
      (setLoading false s, None).

(** The rest of [handleAnalyze] once the request has ended. The [catch]
    block reads the selection and the period again. *)
Definition handleAnalyze_resume (symbols : list string) (r : Outcome) (s : State) : State :=
  match r with
  | Responded data =>
      let s := store_chart_data data s in
      let s := updateChart s in
      let s := updatePerformanceSummary s in
      let s := showToast ("Analysis complete: " ++ string_of_nat (List.length symbols)
                          ++ " symbols processed") ToastSuccess s in
      setLoading false s
  | Threw =>
      let s := showToast "Analysis failed. Using demo data." ToastError s in
      let symbols := JsSet.to_array (selectedSymbols s) in
      let period := time_period s in
      let s := demo_run symbols period s in
      setLoading false s
  end.

Definition handleChartTypeChange (s : State) : State :=
  if Nat.ltb 0 (JsMap.size (chartData s)) then updateChart s else s.

Definition applySettings (s : State) : State :=
  let s := if refreshTimer s
           then with_refreshTimer false (emit ClearInterval s)
           else s in
  if truthy (JsObject.get (settings s) "autoRefresh")
     && Nat.ltb 0 (JsSet.size (selectedSymbols s))
  then with_refreshTimer true
         (emit (SetInterval (JsObject.get (settings s) "refreshInterval")) s)
  else s.

(** The end of [saveSettings], after the connection check when one is
    awaited. *)
Definition saveSettings_finish (s : State) : State :=
  let s := applySettings s in
  let s := emit HideSettings s in
  showToast "Settings saved successfully" ToastSuccess s.

(** [saveSettings] with the values of the form: the trimmed URL, the
    checkbox, and the result of [parseInt] on the interval field
    ([None] is NaN). *)
Definition saveSettings (apiUrl : string) (autoRefresh : bool)
  (refreshInterval : option Z) (s : State) : State * option Pending :=
  let s := with_apiBaseUrl (Some apiUrl) s in
  let s := with_settings
             (JsObject.assign (settings s) "autoRefresh" (JSON.Bool autoRefresh)) s in
  let s := with_settings
             (JsObject.assign (settings s) "refreshInterval"
                (match refreshInterval with
                 | Some n => JSON.Number n
                 | None => JSON.NaN
                 end)) s in
  let s := with_localStorage (JsMap.set (localStorage s) API_URL_KEY apiUrl) s in
  let s := with_localStorage
             (JsMap.set (localStorage s) SETTINGS_KEY (JSON.stringify (settings s))) s in
  if truthy_string (Some apiUrl)
  then (emit (CheckConnection (apiUrl ++ "/health")) s, Some AwaitSettings)
  else (saveSettings_finish s, None).

(** The end of [init]. *)
Definition init_finish (s : State) : State :=
  let s := applySettings s in
  showToast "GSMT Ver 7.0 initialized successfully" ToastSuccess s.

End App.

(* ================================================================== *)
(** ** The event loop *)

(** The page between two events: the application state and the methods
    suspended at an [await], oldest first. *)
Record Runtime : Type := {
  app : State;
  pending : list Pending
}.

Inductive Event : Type :=
| SelectSuggestion (symbol : string)    (* a suggestion is clicked: [addSymbol] *)
| RemoveChip (symbol : string)          (* the button of a chip: [removeSymbol] *)
| ClickClear
| ClickAnalyze                          (* the button, when it is not disabled *)
| TimerTick                             (* the auto-refresh interval fires *)
| Settle (k : nat) (r : Outcome)        (* the request of the pending method number [k] ends *)
| SaveSettings (apiUrl : string) (autoRefresh : bool) (refreshInterval : option Z)
| ChangeChartType (value : string)
| ChangePeriod (value : string).

Section Loop.
Variable host : Host.

Definition suspend (r : State * option Pending) (waiting : list Pending) : Runtime :=
  match snd r with
  | Some p => {| app := fst r; pending := waiting ++ [p] |}
  | None => {| app := fst r; pending := waiting |}
  end.

Fixpoint remove_nth {A : Type} (k : nat) (l : list A) : list A :=
  match k, l with
  | _, [] => []
  | O, _ :: l' => l'
  | S k', x :: l' => x :: remove_nth k' l'
  end.

Definition resume (p : Pending) (r : Outcome) (s : State) : State :=
  match p with
  | AwaitAnalyze symbols => handleAnalyze_resume host symbols r s
  | AwaitSettings => saveSettings_finish s
  | AwaitInit => init_finish s
  end.

(** One event. An event that cannot happen in the state (the disabled
    button, a timer that is not running, a request that is not pending)
    changes nothing. *)
Definition step (rt : Runtime) (ev : Event) : Runtime :=
  let s := app rt in
  match ev with
  | SelectSuggestion symbol => {| app := addSymbol symbol s; pending := pending rt |}
  | RemoveChip symbol => {| app := removeSymbol symbol s; pending := pending rt |}
  | ClickClear => {| app := handleClear s; pending := pending rt |}
  | ClickAnalyze =>
      if isLoading s then rt else suspend (handleAnalyze host s) (pending rt)
  | TimerTick =>
      if refreshTimer s then suspend (handleAnalyze host s) (pending rt) else rt
  | Settle k r =>
      match nth_error (pending rt) k with
      | Some p => {| app := resume p r s; pending := remove_nth k (pending rt) |}
      | None => rt
      end
  | SaveSettings apiUrl autoRefresh refreshInterval =>
      suspend (saveSettings apiUrl autoRefresh refreshInterval s) (pending rt)
  | ChangeChartType value =>
      {| app := handleChartTypeChange (with_chart_type value s); pending := pending rt |}
  | ChangePeriod value =>
      {| app := with_time_period value s; pending := pending rt |}
  end.

Definition run (rt : Runtime) (evs : list Event) : Runtime := fold_left step evs rt.

(** [new GSMTApp()]: the constructor and [init] up to its first
    suspension, given the stored items, [window.location] and the initial
    values of the two controls. [initializeChart] creates the chart and
    shows the placeholder. *)
Definition boot (storage : JsMap.t string) (hostname origin : string)
  (period chartType : string) : option Runtime :=
  match loadSettings storage with
  | Some loaded =>
      let s := {| apiBaseUrl := detectApiUrl storage hostname origin;
                  selectedSymbols := JsSet.empty;
                  chartData := JsMap.empty;
                  chartInstance := false;
                  settings := loaded;
                  isLoading := false;
                  refreshTimer := false;
                  time_period := period;
                  chart_type := chartType;
                  localStorage := storage;
                  world := World0;
                  effects := [] |} in
      let s := {| apiBaseUrl := apiBaseUrl s; selectedSymbols := selectedSymbols s;
                  chartData := chartData s; chartInstance := true;
                  settings := settings s; isLoading := isLoading s;
                  refreshTimer := refreshTimer s; time_period := time_period s;
                  chart_type := chart_type s; localStorage := localStorage s;
                  world := world s; effects := effects s |} in
      let s := updateChart s in
      if truthy_string (apiBaseUrl s)
      then Some {| app := emit (CheckConnection (api_url (apiBaseUrl s) ++ "/health")) s;
                   pending := [AwaitInit] |}
      else Some {| app := init_finish s; pending := [] |}
  | None => None
  end.

End Loop.

(* ================================================================== *)
(** ** Symbol catalogue and search *)

(** [state.symbolsDatabase]: a [Map] from the symbol to its description.
    The objects of the remote lists carry a symbol, a name and a market;
    the category is the key of the list they stand in. *)
Module Catalog.

Record SymbolInfo : Type := {
  symbol : string;
  name : string;
  market : string;
  category : string
}.

Definition t := JsMap.t SymbolInfo.

Definition fallbackSymbols : list SymbolInfo :=
  [ {| symbol := "^GSPC"; name := "S&P 500"; market := "US"; category := "Index" |};
    {| symbol := "^IXIC"; name := "NASDAQ"; market := "US"; category := "Index" |};
    {| symbol := "^AXJO"; name := "ASX 200"; market := "Australia"; category := "Index" |};
    {| symbol := "AAPL"; name := "Apple Inc."; market := "US"; category := "Technology" |};
    {| symbol := "GOOGL"; name := "Alphabet Inc."; market := "US"; category := "Technology" |};
    {| symbol := "CBA.AX"; name := "Commonwealth Bank"; market := "Australia";
       category := "Finance" |} ].

(** [loadFallbackSymbols]: one [set] per sample, keyed by its symbol. *)
Definition loadFallbackSymbols (db : t) : t :=
  fold_left (fun m info => JsMap.set m (symbol info) info) fallbackSymbols db.

(** [{ ...symbol, category: category }] *)
Definition with_category (c : string) (info : SymbolInfo) : SymbolInfo :=
  {| symbol := symbol info; name := name info; market := market info; category := c |}.

(** The inner [symbols.forEach] of [loadSymbolsDatabase] for one category. *)
Definition load_category (db : t) (e : string * list SymbolInfo) : t :=
  fold_left (fun m info => JsMap.set m (symbol info) (with_category (fst e) info))
    (snd e) db.

(** How the request for the symbol lists ended: a response with status ok
    whose body decodes to the categories given, or a failure that throws
    into the [catch] block before any entry is stored (a rejected
    request, a status that is not ok, a body that is not JSON). *)
Inductive Outcome : Type :=
| Responded (categories : JsObject.t (list SymbolInfo))
| Threw.

(** [loadSymbolsDatabase]: without API URL no request is made and the
    outcome is not looked at. *)
Definition loadSymbolsDatabase (apiBaseUrl : option string) (r : Outcome) (db : t) : t :=
  if truthy_string apiBaseUrl then
    match r with
    | Responded categories => fold_left load_category (JsObject.entries categories) db
    | Threw => loadFallbackSymbols db
    end
  else loadFallbackSymbols db.

(** How the search request ended: a response with its [ok] flag and the
    [results] of its body, or a throw into the [catch] block. *)
Inductive SearchOutcome : Type :=
| SearchResponded (ok : bool) (results : list SymbolInfo)
| SearchThrew.

Section Search.
(** [String.prototype.toLowerCase], supplied by the language. *)
Variable toLowerCase : string -> string.

(** The test of the loop of [searchSymbolsLocally] on one entry. *)
Definition matches (queryLower : string) (e : string * SymbolInfo) : bool :=
  includes (toLowerCase (fst e)) queryLower
  || includes (toLowerCase (name (snd e))) queryLower.

(** The object pushed for an entry: the key and the fields of the value. *)
Definition suggestion (e : string * SymbolInfo) : SymbolInfo :=
  {| symbol := fst e; name := name (snd e); market := market (snd e);
     category := category (snd e) |}.

(** The loop over [symbolsDatabase.entries()], with its [break] once
    eight results are held. *)
Fixpoint search_loop (entries : list (string * SymbolInfo)) (queryLower : string)
  (results : list SymbolInfo) : list SymbolInfo :=
  match entries with
  | [] => results
  | e :: rest =>
      if matches queryLower e then
        let results := results ++ [suggestion e] in
        if Nat.leb 8 (List.length results) then results
        else search_loop rest queryLower results
      else search_loop rest queryLower results
  end.

Definition searchSymbolsLocally (query : string) (db : t) : list SymbolInfo :=
  search_loop (JsMap.entries db) (toLowerCase query) [].

(** [handleSymbolSearch] on the trimmed value of the field: [None] hides
    the suggestion box, [Some l] is what [displaySuggestions] receives.
    The outcome of the request is looked at only when an API URL is
    set. *)
Definition handleSymbolSearch (query : string) (apiBaseUrl : option string)
  (r : SearchOutcome) (db : t) : option (list SymbolInfo) :=
  if Nat.ltb (String.length query) 1 then None
  else
    let suggestions :=
      if truthy_string apiBaseUrl then
        match r with
        | SearchResponded true results => firstn 8 results
        | SearchResponded false _ => []
        | SearchThrew => []
        end
      else [] in
    if Nat.eqb (List.length suggestions) 0
    then Some (searchSymbolsLocally query db)
    else Some suggestions.

End Search.
End Catalog.

(* ================================================================== *)
(** ** Debounce *)

(** [debounce(func, wait)]: the closure holds the variable [timeout]; the
    browser holds the timers that are set and have not fired or been
    cleared, each with the arguments its callback [later] closes over.
    Time enters only as the event that a timer fires. *)
Module Debounce.
Section WithArgs.
Context {A : Type}.

Record State : Type := {
  timeout : option nat;            (* the variable [timeout]; [None] is undefined *)
  timers : list (nat * A);         (* live timers: id and captured arguments *)
  next_id : nat;                   (* the id the next [setTimeout] returns *)
  invoked : list A                 (* calls of [func] made so far, oldest first *)
}.

Definition initial : State :=
  {| timeout := None; timers := []; next_id := 1; invoked := [] |}.

(** [clearTimeout(id)]: an id that is undefined or not live clears
    nothing. *)
Definition clearTimeout (id : option nat) (ts : list (nat * A)) : list (nat * A) :=
  match id with
  | Some i => filter (fun e => negb (Nat.eqb (fst e) i)) ts
  | None => ts
  end.

(** [executedFunction(...args)] *)
Definition executedFunction (args : A) (s : State) : State :=
  let ts := clearTimeout (timeout s) (timers s) in
  {| timeout := Some (next_id s);
     timers := ts ++ [(next_id s, args)];
     next_id := S (next_id s);
     invoked := invoked s |}.

(** The timer [id] fires, when it is live: it leaves the table and its
    callback [later] runs. *)
Definition fire (id : nat) (s : State) : State :=
  match find (fun e => Nat.eqb (fst e) id) (timers s) with
  | Some (_, args) =>
      let ts := filter (fun e => negb (Nat.eqb (fst e) id)) (timers s) in
      {| timeout := timeout s;
         timers := clearTimeout (timeout s) ts;
         next_id := next_id s;
         invoked := invoked s ++ [args] |}
  | None => s
  end.

Inductive Event : Type :=
| Call (args : A)
| Fire (id : nat).

Definition step (s : State) (ev : Event) : State :=
  match ev with
  | Call args => executedFunction args s
  | Fire id => fire id s
  end.

Definition run (s : State) (evs : list Event) : State := fold_left step evs s.

End WithArgs.
Arguments State : clear implicits.
Arguments Event : clear implicits.
End Debounce.

(* ================================================================== *)
(** * Vocabulary of the properties *)

(** The predicates, the specification-side functions and the concrete
    hosts, states and traces that the statements below use. *)

(** The two properties of the selection. *)
Definition selection_ok (s : State) : Prop :=
  JsSet.size (selectedSymbols s) <= 10 /\ NoDup (selectedSymbols s).

(** An [add] or a [remove] call. *)
Inductive SelectionCall : Type :=
| CallAdd (symbol : string)
| CallRemove (symbol : string).

Definition call (s : State) (c : SelectionCall) : State :=
  match c with
  | CallAdd symbol => addSymbol symbol s
  | CallRemove symbol => removeSymbol symbol s
  end.

(** A host whose random source always answers 0.5, so that every change
    is 0, and whose clock stands at [t]. *)
Definition still_host (t : Z) : Host :=
  {| Math_random := fun _ => 0.5%float;
     Date_now := fun _ => t;
     Math_pow := fun base _ => base;
     Math_floor := fun x => x;
     toISOString := fun _ => "" |}.

(** A host whose clock advances by 3 ms from one reading to the next. *)
Definition ticking_host (t : Z) : Host :=
  {| Math_random := fun _ => 0.5%float;
     Date_now := fun k => (t + 3 * Z.of_nat k)%Z;
     Math_pow := fun base _ => base;
     Math_floor := fun x => x;
     toISOString := fun _ => "" |}.

(** The state a page served from a Netlify host starts in, with empty
    storage: no API URL, the default settings, the placeholder chart. *)
Definition fresh_state : State :=
  {| apiBaseUrl := None;
     selectedSymbols := JsSet.empty;
     chartData := JsMap.empty;
     chartInstance := true;
     settings := defaultSettings;
     isLoading := false;
     refreshTimer := false;
     time_period := "1w";
     chart_type := "percentage";
     localStorage := JsMap.empty;
     world := World0;
     effects := [ SetOption getEmptyChartOption false;
                  ShowToast "GSMT Ver 7.0 initialized successfully" ToastSuccess ] |}.

Definition eleven_symbols : list string :=
  [ "AAPL"; "GOOGL"; "MSFT"; "AMZN"; "TSLA"; "^GSPC"; "^IXIC"; "^AXJO"; "CBA.AX";
    "BHP.AX"; "NVDA" ].

(** A request the user can make that the class validates. *)
Inductive Request : Type :=
| RequestAdd (symbol : string)
| RequestAnalyze.

(** The three validation failures: a duplicate symbol, a selection at
    capacity, an empty selection. *)
Inductive ValidationFailure (s : State) : Request -> Prop :=
| DuplicateSymbol symbol :
    In symbol (selectedSymbols s) -> ValidationFailure s (RequestAdd symbol)
| AtCapacity symbol :
    ~ In symbol (selectedSymbols s) -> 10 <= JsSet.size (selectedSymbols s) ->
    ValidationFailure s (RequestAdd symbol)
| EmptySelection :
    JsSet.size (selectedSymbols s) = 0 -> ValidationFailure s RequestAnalyze.

Definition perform (host : Host) (r : Request) (s : State) : State * option Pending :=
  match r with
  | RequestAdd symbol => (addSymbol symbol s, None)
  | RequestAnalyze => handleAnalyze host s
  end.

(** What the claims read off a series: its name and its [x, y] pairs. *)
Definition series_row (s : Series) : string * list (Z * float) := (name s, points s).

Definition price_row (e : string * list SeriesPoint) : string * list (Z * float) :=
  (fst e, map (fun point => (timestamp_ms point, close point)) (snd e)).

Definition percentage_row (e : string * list SeriesPoint) : string * list (Z * float) :=
  (fst e, map (fun point => (timestamp_ms point, percentage_change point)) (snd e)).

(** The day count of a period token as the specification lists it. *)
Definition spec_dayCount (period : string) : Z :=
  if String.eqb period "24h" then 1
  else if String.eqb period "3d" then 3
  else if String.eqb period "1w" then 7
  else if String.eqb period "2w" then 14
  else if String.eqb period "1M" then 30
  else if String.eqb period "3M" then 90
  else if String.eqb period "6M" then 180
  else if String.eqb period "1Y" then 365
  else if String.eqb period "2Y" then 730
  else 1.

(** The number of turns of the loop for a number of days. *)
Definition turns (d : Z) : nat := Z.to_nat (Z.min 50 d).



(** The map [handleAnalyze] leaves after storing a data object. *)
Definition stored (data : JsObject.t (list SeriesPoint)) : JsMap.t (list SeriesPoint) :=
  fold_left (fun m e => JsMap.set m (fst e) (snd e)) (JsObject.entries data) JsMap.empty.

(** The key set of the chart data lies within the selection. *)
Definition chart_within_selection (s : State) : Prop :=
  forall k, In k (JsMap.keys (chartData s)) -> In k (selectedSymbols s).

(** The keys of a remote response are selected when it is stored. Every
    other event meets the condition. *)
Definition response_selected (rt : Runtime) (ev : Event) : Prop :=
  match ev with
  | Settle k (Responded d) =>
      match nth_error (pending rt) k with
      | Some (AwaitAnalyze _) =>
          forall key, In key (JsObject.keys d) -> In key (selectedSymbols (app rt))
      | _ => True
      end
  | _ => True
  end.

Section Responses.
Variable host : Host.

Fixpoint responses_selected (rt : Runtime) (evs : list Event) : Prop :=
  match evs with
  | [] => True
  | ev :: evs' => response_selected rt ev /\ responses_selected (step host rt ev) evs'
  end.

End Responses.

Definition api_example : string := "https://api.example".

(** The page after the constructor when an API URL is stored: [init]
    waits for the connection check. *)
Definition online_runtime : Runtime :=
  {| app :=
       {| apiBaseUrl := Some api_example;
          selectedSymbols := JsSet.empty;
          chartData := JsMap.empty;
          chartInstance := true;
          settings := defaultSettings;
          isLoading := false;
          refreshTimer := false;
          time_period := "1w";
          chart_type := "percentage";
          localStorage := [(API_URL_KEY, api_example)];
          world := World0;
          effects := [ SetOption getEmptyChartOption false;
                       CheckConnection "https://api.example/health" ] |};
     pending := [AwaitInit] |}.

Definition sample_point (ms : Z) (price change : float) : SeriesPoint :=
  {| timestamp := "";
     timestamp_ms := ms;
     open := price;
     high := price;
     low := price;
     close := price;
     volume := 1000%float;
     percentage_change := change |}.

Definition response_two_symbols : JsObject.t (list SeriesPoint) :=
  [ ("AAPL", [sample_point 1700000000000 190 1]);
    ("MSFT", [sample_point 1700000000000 370 2]) ].

(** Two symbols are selected and analysed; the response names both. *)
Definition analysed_trace : list Event :=
  [ Settle 0 Threw;                       (* [init] ends *)
    SelectSuggestion "AAPL";
    SelectSuggestion "MSFT";
    ClickAnalyze;
    Settle 0 (Responded response_two_symbols);
    RemoveChip "MSFT" ].

(** The same, with the chip of MSFT removed while the request is out. *)
Definition removed_while_pending_trace : list Event :=
  [ Settle 0 Threw;
    SelectSuggestion "AAPL";
    SelectSuggestion "MSFT";
    ClickAnalyze;
    RemoveChip "MSFT";
    Settle 0 (Responded response_two_symbols) ].

(** The state with AAPL and MSFT selected and charted. *)
Definition analysed_state : State :=
  app (run (still_host 0) online_runtime
         [ Settle 0 Threw; SelectSuggestion "AAPL"; SelectSuggestion "MSFT";
           ClickAnalyze; Settle 0 (Responded response_two_symbols) ]).

(** With auto-refresh saved and one symbol selected the timer runs; the
    button starts a run and the timer starts another while the first is
    waiting. *)
Definition overlap_trace : list Event :=
  [ Settle 0 Threw;                       (* [init] ends *)
    SelectSuggestion "AAPL";
    SaveSettings api_example true (Some 300%Z);
    Settle 0 Threw;                       (* [saveSettings] ends: the timer starts *)
    ClickAnalyze;                         (* first request *)
    TimerTick ].                          (* second request *)

Definition first_response : JsObject.t (list SeriesPoint) :=
  [ ("AAPL", [sample_point 1700000000000 190 1]) ].

Definition second_response : JsObject.t (list SeriesPoint) :=
  [ ("AAPL", [sample_point 1700000060000 191 2]) ].

(** The decimal text of an integer. *)
Definition decimal (n : Z) : string := NilEmpty.string_of_int (Z.to_int n).

(** An integer a binary64 holds exactly. *)
Definition safe_integer (n : Z) : Prop := (Z.abs n <= JSON.MAX_SAFE_INTEGER)%Z.

(** The settings object with the two fields of the persisted schema. *)
Definition settings_object (autoRefresh : bool) (refreshInterval : Z) : JSON.Object :=
  [ ("autoRefresh", JSON.Bool autoRefresh); ("refreshInterval", JSON.Number refreshInterval) ].

(** A settings value of the persisted schema: the flag and an interval
    that is a safe integer. *)
Definition well_formed_settings (o : JSON.Object) : Prop :=
  exists b n, o = settings_object b n /\ safe_integer n.

(** *** Vocabulary of the further properties *)

(** The intervals that are running, read off the calls made: each
    [setInterval] starts one, each [clearInterval] of the held id stops
    one. *)
Definition count_timer (n : nat) (e : Effect) : nat :=
  match e with
  | SetInterval _ => S n
  | ClearInterval => Nat.pred n
  | _ => n
  end.

Definition live_timers (l : list Effect) : nat := fold_left count_timer l 0.

(** The flag [refreshTimer] tells how many intervals run: one or none. *)
Definition timer_ok (s : State) : Prop :=
  live_timers (effects s) = if refreshTimer s then 1 else 0.

(** The events that call [addSymbol], [removeSymbol] or [handleClear]. *)
Definition edits_selection (ev : Event) : bool :=
  match ev with
  | SelectSuggestion _ | RemoveChip _ | ClickClear => true
  | _ => false
  end.


(** The stamps of a series of [n] points that starts [d] days before [t]
    and steps by one day. *)
Definition daily_stamps (t d : Z) (n : nat) : list Z :=
  map (fun i => (t - (d - Z.of_nat i) * DAY_MS)%Z) (seq 0 n).

(** ASCII lower case, an instance of [toLowerCase] for the examples. *)
Definition ascii_lower (c : ascii) : ascii :=
  let n := nat_of_ascii c in
  if Nat.leb 65 n && Nat.leb n 90 then ascii_of_nat (n + 32) else c.

Fixpoint ascii_toLowerCase (s : string) : string :=
  match s with
  | EmptyString => EmptyString
  | String c r => String (ascii_lower c) (ascii_toLowerCase r)
  end.

(** Two states with the same timer flag and the same running intervals. *)
Definition same_timers (s s' : State) : Prop :=
  refreshTimer s' = refreshTimer s
  /\ live_timers (effects s') = live_timers (effects s).

(** An effect that starts or stops an interval. *)
Definition timer_effect (e : Effect) : bool :=
  match e with
  | SetInterval _ | ClearInterval => true
  | _ => false
  end.

(** The colour of the series number [i]: the palette, cycled. *)
Definition palette_color (i : nat) : string := nth (i mod 8) colors "".

(** A stored settings text with the flag only. *)
Definition flag_only_text : string :=
  String "{" (String JSON.quote
    (String.append "autoRefresh" (String JSON.quote ":true}"))).


(** A catalogue of ten entries that all contain the letter a. *)
Definition ten_entries : Catalog.t :=
  map (fun k => (k, {| Catalog.symbol := k; Catalog.name := "Sample"; Catalog.market := "US";
                       Catalog.category := "Test" |}))
    [ "AA"; "AB"; "AC"; "AD"; "AE"; "AF"; "AG"; "AH"; "AI"; "AJ" ].


(** What the inner [forEach] of [loadSymbolsDatabase] stores for one
    category, as pairs of key and value. *)
Definition category_pairs (e : string * list Catalog.SymbolInfo)
  : list (string * Catalog.SymbolInfo) :=
  map (fun info => (Catalog.symbol info, Catalog.with_category (fst e) info)) (snd e).

(** A catalogue with one entry that is not among the samples. *)
Definition one_entry : Catalog.t :=
  [ ("MSFT", {| Catalog.symbol := "MSFT"; Catalog.name := "Microsoft";
                Catalog.market := "US"; Catalog.category := "Technology" |}) ].

(** A response that names AAPL in two lists. *)
Definition two_lists : JsObject.t (list Catalog.SymbolInfo) :=
  [ ("Technology",
     [ {| Catalog.symbol := "AAPL"; Catalog.name := "Apple Inc.";
          Catalog.market := "US"; Catalog.category := "" |} ]);
    ("Favourites",
     [ {| Catalog.symbol := "AAPL"; Catalog.name := "Apple";
          Catalog.market := "US"; Catalog.category := "" |} ]) ].


(** The arguments of the calls of the debounced function in a run,
    oldest first. *)
Definition calls {A : Type} (evs : list (Debounce.Event A)) : list A :=
  flat_map (fun ev => match ev with
                      | Debounce.Call args => [args]
                      | Debounce.Fire _ => []
                      end) evs.

(** [l] is [l'] with some elements left out. *)
Inductive subsequence {A : Type} : list A -> list A -> Prop :=
| subsequence_nil : subsequence [] []
| subsequence_skip x l l' : subsequence l l' -> subsequence l (x :: l')
| subsequence_take x l l' : subsequence l l' -> subsequence (x :: l) (x :: l').

(** The debounced function has no timer running, or one timer, whose id
    the variable [timeout] holds. *)
Definition one_timer {A : Type} (s : Debounce.State A) : Prop :=
  Debounce.timers s = []
  \/ exists id args, Debounce.timers s = [(id, args)] /\ Debounce.timeout s = Some id.

(** A save of the settings form. *)
Definition saves_settings (ev : Event) : bool :=
  match ev with
  | SaveSettings _ _ _ => true
  | _ => false
  end.

(* ================================================================== *)
(** * Properties *)

(** ** Sets and maps *)

Lemma JsSet_has_true (s : JsSet.t) (x : string) :
  JsSet.has s x = true <-> In x s.
Proof.
  unfold JsSet.has. rewrite existsb_exists. split.
  - intros (y & Hy & E). apply String.eqb_eq in E. now subst.
  - intros H. exists x. split; [assumption | apply String.eqb_refl].
Qed.

Lemma JsSet_has_false (s : JsSet.t) (x : string) :
  JsSet.has s x = false <-> ~ In x s.
Proof.
  rewrite <- JsSet_has_true. destruct (JsSet.has s x); split; congruence.
Qed.

Lemma JsSet_add_NoDup (s : JsSet.t) (x : string) :
  NoDup s -> NoDup (JsSet.add s x).
Proof.
  intros H. unfold JsSet.add. destruct (JsSet.has s x) eqn:E; [assumption|].
  apply JsSet_has_false in E.
  apply NoDup_app; [assumption | repeat constructor; intros [] | ].
  intros y Hy [<- | []]. contradiction.
Qed.

Lemma JsSet_delete_In (s : JsSet.t) (x y : string) :
  In y (JsSet.delete s x) <-> In y s /\ y <> x.
Proof.
  unfold JsSet.delete. rewrite filter_In, negb_true_iff, String.eqb_neq.
  intuition congruence.
Qed.

Lemma JsSet_delete_NoDup (s : JsSet.t) (x : string) :
  NoDup s -> NoDup (JsSet.delete s x).
Proof. apply NoDup_filter. Qed.

Lemma JsSet_delete_size (s : JsSet.t) (x : string) :
  JsSet.size (JsSet.delete s x) <= JsSet.size s.
Proof. apply filter_length_le. Qed.

Lemma JsSet_delete_absent (s : JsSet.t) (x : string) :
  ~ In x s -> JsSet.delete s x = s.
Proof.
  intros H. unfold JsSet.delete. induction s as [|y s IH]; simpl; [reflexivity|].
  destruct (String.eqb_spec x y) as [->|N]; simpl.
  - exfalso. apply H. now left.
  - f_equal. apply IH. intros Hx. apply H. now right.
Qed.

Section MapFacts.
Context {V : Type}.
Implicit Types (m : JsMap.t V) (k : string) (v : V).

Lemma JsMap_set_keys m k v :
  forall k', In k' (JsMap.keys (JsMap.set m k v)) <-> k' = k \/ In k' (JsMap.keys m).
Proof.
  induction m as [|[k0 v0] m IH]; intros k'; simpl.
  - intuition.
  - destruct (String.eqb_spec k k0) as [->|N]; simpl.
    + intuition.
    + rewrite IH. intuition.
Qed.

Lemma JsMap_set_NoDup m k v :
  NoDup (JsMap.keys m) -> NoDup (JsMap.keys (JsMap.set m k v)).
Proof.
  induction m as [|[k0 v0] m IH]; simpl; intros H.
  - repeat constructor. intros [].
  - inversion H as [|? ? Hn Hd]; subst.
    destruct (String.eqb_spec k k0) as [->|N]; simpl.
    + now constructor.
    + constructor; [|now apply IH].
      intros Hin. apply (JsMap_set_keys m k v) in Hin. destruct Hin; [congruence|contradiction].
Qed.

Lemma JsMap_delete_In m k :
  forall e, In e (JsMap.delete m k) <-> In e m /\ fst e <> k.
Proof.
  intros e. unfold JsMap.delete. rewrite filter_In, negb_true_iff, String.eqb_neq.
  intuition congruence.
Qed.

Lemma JsMap_delete_keys m k :
  forall k', In k' (JsMap.keys (JsMap.delete m k)) <-> In k' (JsMap.keys m) /\ k' <> k.
Proof.
  intros k'. unfold JsMap.keys. rewrite !in_map_iff. split.
  - intros (e & <- & He). apply JsMap_delete_In in He. destruct He. split; [|assumption].
    now exists e.
  - intros ((e & <- & He) & N). exists e. split; [reflexivity|].
    apply JsMap_delete_In. now split.
Qed.

Lemma JsMap_delete_absent m k :
  ~ In k (JsMap.keys m) -> JsMap.delete m k = m.
Proof.
  intros H. unfold JsMap.delete. induction m as [|[k0 v0] m IH]; simpl; [reflexivity|].
  destruct (String.eqb_spec k k0) as [->|N]; simpl.
  - exfalso. apply H. now left.
  - f_equal. apply IH. intros Hx. apply H. now right.
Qed.

Lemma JsMap_delete_get_other m k k' :
  k' <> k -> JsMap.get (JsMap.delete m k) k' = JsMap.get m k'.
Proof.
  intros N. unfold JsMap.delete. induction m as [|[k0 v0] m IH]; simpl; [reflexivity|].
  destruct (String.eqb_spec k k0) as [->|N0]; simpl.
  - destruct (String.eqb_spec k' k0); [contradiction|assumption].
  - now rewrite IH.
Qed.

Lemma JsMap_get_None m k :
  JsMap.get m k = None <-> ~ In k (JsMap.keys m).
Proof.
  induction m as [|[k0 v0] m IH]; simpl.
  - intuition.
  - destruct (String.eqb_spec k k0) as [->|N].
    + split; [discriminate | intros H; exfalso; apply H; now left].
    + rewrite IH. intuition congruence.
Qed.

(** The keys left by a run of [set] calls from a map. *)
Lemma JsMap_fold_set_keys (l : list (string * V)) m :
  forall k, In k (JsMap.keys (fold_left (fun a e => JsMap.set a (fst e) (snd e)) l m))
            <-> In k (map fst l) \/ In k (JsMap.keys m).
Proof.
  revert m. induction l as [|[k0 v0] l IH]; intros m k; simpl.
  - intuition.
  - rewrite IH, JsMap_set_keys. intuition.
Qed.

Lemma JsMap_fold_set_NoDup (l : list (string * V)) m :
  NoDup (JsMap.keys m) ->
  NoDup (JsMap.keys (fold_left (fun a e => JsMap.set a (fst e) (snd e)) l m)).
Proof.
  revert m. induction l as [|[k0 v0] l IH]; intros m H; simpl; [assumption|].
  apply IH. now apply JsMap_set_NoDup.
Qed.

End MapFacts.

(** ** Plain objects *)

Section ObjectFacts.
Context {V : Type}.
Implicit Types (o : JsObject.t V) (k : string) (v : V).

Lemma insert_by_index_In (e : N * (string * V)) l :
  forall x, In x (JsObject.insert_by_index e l) <-> x = e \/ In x l.
Proof.
  induction l as [|e' l IH]; intros x; simpl.
  - intuition.
  - destruct (fst e <=? fst e')%N; simpl; [intuition|].
    rewrite IH. intuition.
Qed.

Lemma index_props_In o :
  forall n k v, In (n, (k, v)) (JsObject.index_props o)
                <-> In (k, v) o /\ JsObject.array_index k = Some n.
Proof.
  induction o as [|[k0 v0] o IH]; intros n k v; simpl.
  - intuition.
  - destruct (JsObject.array_index k0) as [n0|] eqn:E.
    + rewrite insert_by_index_In, IH. split.
      * intros [H | [H1 H2]]; [inversion H; subst; auto | auto].
      * intros [[H | H] H2]; [inversion H; subst; left; congruence | right; auto].
    + rewrite IH. split.
      * intros [H1 H2]; auto.
      * intros [[H | H] H2]; [inversion H; subst; congruence | auto].
Qed.

(** [Object.entries] lists every own property once: it reorders only. *)
Lemma JsObject_entries_In o :
  forall e, In e (JsObject.entries o) <-> In e o.
Proof.
  intros [k v]. unfold JsObject.entries, JsObject.named_props.
  rewrite in_app_iff, in_map_iff, filter_In. simpl. split.
  - intros [([n [k' v']] & E & H) | [H _]]; [|assumption].
    simpl in E. inversion E; subst. now apply index_props_In in H.
  - intros H. destruct (JsObject.array_index k) as [n|] eqn:E.
    + left. exists (n, (k, v)). split; [reflexivity|]. now apply index_props_In.
    + right. now split.
Qed.

Lemma JsObject_keys_In o :
  forall k, In k (JsObject.keys o) <-> In k (map fst o).
Proof.
  intros k. unfold JsObject.keys. rewrite !in_map_iff.
  split; intros (e & E & H); exists e; (split; [assumption|]); now apply JsObject_entries_In.
Qed.

Lemma JsObject_assign_keys o k v :
  forall k', In k' (map fst (JsObject.assign o k v))
             <-> (k' = k /\ k <> "__proto__") \/ In k' (map fst o).
Proof.
  intros k'. unfold JsObject.assign.
  destruct (String.eqb_spec k "__proto__") as [E|N].
  - intuition.
  - change (map fst (JsMap.set o k v)) with (JsMap.keys (JsMap.set o k v)).
    rewrite JsMap_set_keys. unfold JsMap.keys. intuition.
Qed.

End ObjectFacts.

(** ** Selection *)

Section SelectionFacts.

Lemma selectedSymbols_emit e s : selectedSymbols (emit e s) = selectedSymbols s.
Proof. reflexivity. Qed.

Lemma chartData_emit e s : chartData (emit e s) = chartData s.
Proof. reflexivity. Qed.

Lemma selectedSymbols_updateChart s :
  selectedSymbols (updateChart s) = selectedSymbols s.
Proof.
  unfold updateChart. destruct (chartInstance s); simpl; [|reflexivity].
  destruct (chart_option (chartData s) (chart_type s)). reflexivity.
Qed.

Lemma chartData_updateChart s : chartData (updateChart s) = chartData s.
Proof.
  unfold updateChart. destruct (chartInstance s); simpl; [|reflexivity].
  destruct (chart_option (chartData s) (chart_type s)). reflexivity.
Qed.

Lemma selectedSymbols_updateDisplay s :
  selectedSymbols (updateSelectedSymbolsDisplay s) = selectedSymbols s.
Proof.
  unfold updateSelectedSymbolsDisplay.
  destruct (Nat.eqb (JsSet.size (selectedSymbols s)) 0); reflexivity.
Qed.

Lemma chartData_updateDisplay s :
  chartData (updateSelectedSymbolsDisplay s) = chartData s.
Proof.
  unfold updateSelectedSymbolsDisplay.
  destruct (Nat.eqb (JsSet.size (selectedSymbols s)) 0); reflexivity.
Qed.

Lemma selectedSymbols_updateSummary s :
  selectedSymbols (updatePerformanceSummary s) = selectedSymbols s.
Proof.
  unfold updatePerformanceSummary.
  destruct (Nat.eqb (JsMap.size (chartData s)) 0); reflexivity.
Qed.

Lemma chartData_updateSummary s :
  chartData (updatePerformanceSummary s) = chartData s.
Proof.
  unfold updatePerformanceSummary.
  destruct (Nat.eqb (JsMap.size (chartData s)) 0); reflexivity.
Qed.

Lemma selectedSymbols_addSymbol symbol s :
  selectedSymbols (addSymbol symbol s) =
  if JsSet.has (selectedSymbols s) symbol then selectedSymbols s
  else if Nat.leb 10 (JsSet.size (selectedSymbols s)) then selectedSymbols s
  else selectedSymbols s ++ [symbol].
Proof.
  unfold addSymbol.
  destruct (JsSet.has (selectedSymbols s) symbol) eqn:E; [reflexivity|].
  destruct (Nat.leb 10 (JsSet.size (selectedSymbols s))); [reflexivity|].
  unfold showToast. rewrite selectedSymbols_emit, selectedSymbols_updateDisplay. simpl.
  unfold JsSet.add. now rewrite E.
Qed.

Lemma chartData_addSymbol symbol s : chartData (addSymbol symbol s) = chartData s.
Proof.
  unfold addSymbol.
  destruct (JsSet.has (selectedSymbols s) symbol); [reflexivity|].
  destruct (Nat.leb 10 (JsSet.size (selectedSymbols s))); [reflexivity|].
  unfold showToast. now rewrite chartData_emit, chartData_updateDisplay.
Qed.

Lemma selectedSymbols_removeSymbol symbol s :
  selectedSymbols (removeSymbol symbol s) = JsSet.delete (selectedSymbols s) symbol.
Proof.
  unfold removeSymbol, showToast.
  now rewrite selectedSymbols_emit, selectedSymbols_updateChart, selectedSymbols_updateDisplay.
Qed.

Lemma chartData_removeSymbol symbol s :
  chartData (removeSymbol symbol s) = JsMap.delete (chartData s) symbol.
Proof.
  unfold removeSymbol, showToast.
  now rewrite chartData_emit, chartData_updateChart, chartData_updateDisplay.
Qed.

Lemma addSymbol_selection_ok symbol s :
  selection_ok s -> selection_ok (addSymbol symbol s).
Proof.
  unfold selection_ok. intros [Hsize Hnd]. rewrite selectedSymbols_addSymbol.
  destruct (JsSet.has (selectedSymbols s) symbol) eqn:E; [now split|].
  destruct (Nat.leb 10 (JsSet.size (selectedSymbols s))) eqn:L; [now split|].
  apply Nat.leb_gt in L. split.
  - unfold JsSet.size in *. rewrite length_app. simpl. lia.
  - generalize (JsSet_add_NoDup (selectedSymbols s) symbol Hnd).
    unfold JsSet.add. now rewrite E.
Qed.

Lemma removeSymbol_selection_ok symbol s :
  selection_ok s -> selection_ok (removeSymbol symbol s).
Proof.
  unfold selection_ok. intros [Hsize Hnd]. rewrite selectedSymbols_removeSymbol. split.
  - pose proof (JsSet_delete_size (selectedSymbols s) symbol). lia.
  - now apply JsSet_delete_NoDup.
Qed.

End SelectionFacts.

Lemma calls_selection_ok (calls : list SelectionCall) :
  forall s, selection_ok s -> selection_ok (fold_left call calls s).
Proof.
  induction calls as [|c calls IH]; intros s H; simpl; [assumption|].
  apply IH. destruct c; [now apply addSymbol_selection_ok | now apply removeSymbol_selection_ok].
Qed.

(** C1. Whatever sequence of add and remove calls is made from a state
    whose selection is empty, the selection holds at most 10 identifiers
    and holds none twice. *)
Theorem C1_selection_at_most_10_no_duplicates (s0 : State) (calls : list SelectionCall) :
  selectedSymbols s0 = JsSet.empty ->
  JsSet.size (selectedSymbols (fold_left call calls s0)) <= 10
  /\ NoDup (selectedSymbols (fold_left call calls s0)).
Proof.
  intros H. apply calls_selection_ok. unfold selection_ok. rewrite H. simpl.
  split; [lia | constructor].
Qed.

(** *** Examples *)

Example boot_fresh_state :
  boot JsMap.empty "gsmt.netlify.app" "https://gsmt.netlify.app" "1w" "percentage"
  = Some {| app := fresh_state; pending := [] |}.
Proof. reflexivity. Qed.

Lemma C1_witness :
  JsSet.size (selectedSymbols
                (fold_left call (map CallAdd eleven_symbols ++ [CallAdd "AAPL"; CallRemove "MSFT"])
                   fresh_state)) <= 10
  /\ NoDup (selectedSymbols
              (fold_left call (map CallAdd eleven_symbols ++ [CallAdd "AAPL"; CallRemove "MSFT"])
                 fresh_state)).
Proof.
  apply (C1_selection_at_most_10_no_duplicates fresh_state
           (map CallAdd eleven_symbols ++ [CallAdd "AAPL"; CallRemove "MSFT"])).
  reflexivity.
Defined.

Example eleven_adds_keep_ten :
  selectedSymbols (fold_left call (map CallAdd eleven_symbols) fresh_state)
  = [ "AAPL"; "GOOGL"; "MSFT"; "AMZN"; "TSLA"; "^GSPC"; "^IXIC"; "^AXJO"; "CBA.AX"; "BHP.AX" ].
Proof. reflexivity. Qed.

(** ** Validation failures *)

(** C7. A request that fails validation (a symbol already selected, an
    eleventh symbol, an analysis of an empty selection) adds one warning
    notification to the state and changes nothing else: the selection and
    the chart data are as before, and no request is left pending. *)
Theorem C7_validation_failure_only_warns (host : Host) (s : State) (r : Request) :
  ValidationFailure s r ->
  (exists message, perform host r s = (emit (ShowToast message ToastWarning) s, None))
  /\ selectedSymbols (fst (perform host r s)) = selectedSymbols s
  /\ chartData (fst (perform host r s)) = chartData s
  /\ effects (fst (perform host r s)) = effects s ++ [ShowToast
       match r with
       | RequestAdd symbol =>
           if JsSet.has (selectedSymbols s) symbol
           then symbol ++ " is already selected"
           else "Maximum 10 symbols allowed"
       | RequestAnalyze => "Please select at least one symbol"
       end ToastWarning].
Proof.
  intros [symbol H | symbol H L | H]; simpl.
  - apply JsSet_has_true in H. unfold addSymbol, showToast. rewrite H.
    repeat split; eauto.
  - apply JsSet_has_false in H. apply Nat.leb_le in L.
    unfold addSymbol, showToast. rewrite H, L.
    repeat split; eauto.
  - unfold handleAnalyze, showToast. rewrite H. simpl.
    repeat split; eauto.
Qed.

Lemma C7_witness :
  (exists message,
      perform (still_host 0) (RequestAdd "NVDA")
        (fold_left call (map CallAdd eleven_symbols) fresh_state)
      = (emit (ShowToast message ToastWarning)
           (fold_left call (map CallAdd eleven_symbols) fresh_state), None))
  /\ selectedSymbols (fst (perform (still_host 0) (RequestAdd "NVDA")
                             (fold_left call (map CallAdd eleven_symbols) fresh_state)))
     = selectedSymbols (fold_left call (map CallAdd eleven_symbols) fresh_state)
  /\ chartData (fst (perform (still_host 0) (RequestAdd "NVDA")
                       (fold_left call (map CallAdd eleven_symbols) fresh_state)))
     = chartData (fold_left call (map CallAdd eleven_symbols) fresh_state)
  /\ effects (fst (perform (still_host 0) (RequestAdd "NVDA")
                     (fold_left call (map CallAdd eleven_symbols) fresh_state)))
     = effects (fold_left call (map CallAdd eleven_symbols) fresh_state)
       ++ [ShowToast "Maximum 10 symbols allowed" ToastWarning].
Proof.
  apply (C7_validation_failure_only_warns (still_host 0)
           (fold_left call (map CallAdd eleven_symbols) fresh_state) (RequestAdd "NVDA")).
  apply AtCapacity.
  - apply JsSet_has_false. reflexivity.
  - apply Nat.leb_le. reflexivity.
Defined.

Example duplicate_symbol_warns :
  addSymbol "AAPL" (addSymbol "AAPL" fresh_state)
  = emit (ShowToast "AAPL is already selected" ToastWarning) (addSymbol "AAPL" fresh_state).
Proof. reflexivity. Qed.

Example empty_analysis_warns (host : Host) :
  handleAnalyze host fresh_state
  = (emit (ShowToast "Please select at least one symbol" ToastWarning) fresh_state, None).
Proof. reflexivity. Qed.

(** ** Removal *)

(** C8. [removeSymbol] takes the identifier out of the selection and out
    of the chart data, and leaves every other selected identifier and
    every other chart entry in place; when the chart data has no entry
    for the identifier it is left as it was. *)
Theorem C8_remove_deletes_selection_and_chart_entry (symbol : string) (s : State) :
  ~ In symbol (selectedSymbols (removeSymbol symbol s))
  /\ (forall x, x <> symbol ->
        (In x (selectedSymbols (removeSymbol symbol s)) <-> In x (selectedSymbols s)))
  /\ JsMap.get (chartData (removeSymbol symbol s)) symbol = None
  /\ (forall k, k <> symbol ->
        JsMap.get (chartData (removeSymbol symbol s)) k = JsMap.get (chartData s) k)
  /\ (JsMap.get (chartData s) symbol = None ->
        chartData (removeSymbol symbol s) = chartData s).
Proof.
  rewrite selectedSymbols_removeSymbol, chartData_removeSymbol.
  split; [|split; [|split; [|split]]].
  - rewrite JsSet_delete_In. tauto.
  - intros x N. rewrite JsSet_delete_In. tauto.
  - apply JsMap_get_None. rewrite JsMap_delete_keys. tauto.
  - intros k N. now apply JsMap_delete_get_other.
  - intros H. apply JsMap_delete_absent. now apply JsMap_get_None.
Qed.

Lemma C8_witness :
  ~ In "MSFT" (selectedSymbols (removeSymbol "MSFT" analysed_state))
  /\ JsMap.get (chartData (removeSymbol "MSFT" analysed_state)) "MSFT" = None
  /\ JsMap.get (chartData (removeSymbol "MSFT" analysed_state)) "AAPL"
     = JsMap.get (chartData analysed_state) "AAPL"
  /\ chartData (removeSymbol "TSLA" analysed_state) = chartData analysed_state.
Proof.
  destruct (C8_remove_deletes_selection_and_chart_entry "MSFT" analysed_state)
    as (H1 & _ & H3 & H4 & _).
  destruct (C8_remove_deletes_selection_and_chart_entry "TSLA" analysed_state)
    as (_ & _ & _ & _ & H5).
  split; [exact H1 | split; [exact H3 | split]].
  - apply H4. discriminate.
  - apply H5. reflexivity.
Defined.

Example remove_charted_symbol :
  JsMap.keys (chartData analysed_state) = ["AAPL"; "MSFT"]
  /\ JsMap.keys (chartData (removeSymbol "MSFT" analysed_state)) = ["AAPL"]
  /\ selectedSymbols (removeSymbol "MSFT" analysed_state) = ["AAPL"].
Proof. repeat split; reflexivity. Qed.

(** ** Chart options *)

Lemma chart_series_price entries :
  forall colorIndex acc,
    map series_row (chart_series "price" entries colorIndex acc)
    = map series_row acc ++ map price_row entries.
Proof.
  induction entries as [|[symbol data] entries IH]; intros colorIndex acc; simpl.
  - now rewrite app_nil_r.
  - rewrite IH, map_app, <- app_assoc. reflexivity.
Qed.

Lemma chart_series_percentage entries :
  forall colorIndex acc,
    map series_row (chart_series "percentage" entries colorIndex acc)
    = map series_row acc ++ map percentage_row entries.
Proof.
  induction entries as [|[symbol data] entries IH]; intros colorIndex acc; simpl.
  - now rewrite app_nil_r.
  - rewrite IH, map_app, <- app_assoc. reflexivity.
Qed.

(** For any other chart type the loop pushes nothing. *)
Lemma chart_series_other chartType entries :
  String.eqb chartType "percentage" = false ->
  String.eqb chartType "price" = false ->
  forall colorIndex acc, chart_series chartType entries colorIndex acc = acc.
Proof.
  intros H1 H2. induction entries as [|[symbol data] entries IH]; intros colorIndex acc; simpl.
  - reflexivity.
  - rewrite H1, H2. apply IH.
Qed.

(** [updateChart] hands the computed option to the chart. *)
Lemma updateChart_effects s :
  chartInstance s = true ->
  effects (updateChart s)
  = effects s ++ [SetOption (fst (chart_option (chartData s) (chart_type s)))
                            (snd (chart_option (chartData s) (chart_type s)))].
Proof.
  intros H. unfold updateChart. rewrite H. simpl.
  destruct (chart_option (chartData s) (chart_type s)). reflexivity.
Qed.

Lemma chart_option_cons e rest chartType :
  chart_option (e :: rest) chartType = (generateChartOption (e :: rest) chartType, true).
Proof. reflexivity. Qed.

(** C6. The option computed from an empty chart data map has no series
    and the placeholder title. From a map that is not empty, the option
    for the chart type [price] has one series per entry, in the order of
    the map, named by the key and plotting the close of each point
    against its timestamp; for the chart type [percentage] likewise with
    the percentage change. *)
Theorem C6_chart_option_series :
  (forall chartType,
      series (fst (chart_option JsMap.empty chartType)) = None
      /\ text (title (fst (chart_option JsMap.empty chartType)))
         = "Select symbols to begin analysis")
  /\ (forall e rest,
        option_map (map series_row) (series (fst (chart_option (e :: rest) "price")))
        = Some (map price_row (e :: rest))
        /\ option_map (map name) (series (fst (chart_option (e :: rest) "price")))
           = Some (JsMap.keys (e :: rest)))
  /\ (forall e rest,
        option_map (map series_row) (series (fst (chart_option (e :: rest) "percentage")))
        = Some (map percentage_row (e :: rest))
        /\ option_map (map name) (series (fst (chart_option (e :: rest) "percentage")))
           = Some (JsMap.keys (e :: rest))).
Proof.
  split; [|split].
  - intros chartType. split; reflexivity.
  - intros e rest. rewrite chart_option_cons. cbn [fst generateChartOption series option_map].
    unfold JsMap.entries. split.
    + f_equal. apply chart_series_price.
    + f_equal.
      transitivity (map fst (map series_row (chart_series "price" (e :: rest) 0 []))).
      * now rewrite map_map.
      * rewrite chart_series_price. unfold JsMap.keys. simpl. f_equal. now rewrite map_map.
  - intros e rest. rewrite chart_option_cons. cbn [fst generateChartOption series option_map].
    unfold JsMap.entries. split.
    + f_equal. apply chart_series_percentage.
    + f_equal.
      transitivity (map fst (map series_row (chart_series "percentage" (e :: rest) 0 []))).
      * now rewrite map_map.
      * rewrite chart_series_percentage. unfold JsMap.keys. simpl. f_equal. now rewrite map_map.
Qed.

(** ** Synthetic generation *)

Lemma turns_le_50 d : turns d <= 50.
Proof. unfold turns. lia. Qed.

Lemma spec_dayCount_positive period : (1 <= spec_dayCount period)%Z.
Proof.
  unfold spec_dayCount.
  repeat match goal with |- context [String.eqb ?a ?b] => destruct (String.eqb a b) end; lia.
Qed.

(** A token that is not a property name of [Object.prototype] reads the
    table or falls to the default. *)
Lemma getPeriodDays_spec period :
  JsObject.inherited period = false ->
  getPeriodDays period = VNumber (spec_dayCount period).
Proof.
  intros H. unfold getPeriodDays, JsObject.get, spec_dayCount, periodMap. simpl JsMap.get.
  repeat match goal with
         | |- context [String.eqb period ?b] =>
             destruct (String.eqb period b); [reflexivity|]
         end.
  rewrite H. reflexivity.
Qed.

(** A token that is such a name reads a function off the prototype. *)
Lemma getPeriodDays_inherited period :
  JsObject.inherited period = true -> getPeriodDays period = VObject.
Proof.
  intros H. unfold getPeriodDays, JsObject.get.
  destruct (JsMap.get periodMap period) as [n|] eqn:E.
  - exfalso. revert E H. unfold periodMap. simpl JsMap.get.
    repeat match goal with
           | |- context [String.eqb period ?b] =>
               destruct (String.eqb_spec period b);
               [subst; intros _; vm_compute; discriminate|]
           end.
    discriminate.
  - now rewrite H.
Qed.

Section GenerationFacts.
Variable host : Host.

Lemma demo_point_timestamp d i bp w :
  timestamp_ms (snd (fst (demo_point host d i bp w)))
  = (Date_now host (clock_reads w) - (d - Z.of_nat i) * DAY_MS)%Z.
Proof. reflexivity. Qed.

Lemma demo_point_world d i bp w :
  snd (demo_point host d i bp w)
  = {| random_calls := S (S (random_calls w)); clock_reads := S (clock_reads w) |}.
Proof. reflexivity. Qed.

(** The loop, unfolded by one turn. *)
Lemma points_loop_turn fuel d i bp pts w :
  i < turns d ->
  points_loop host (S fuel) (Some d) i bp pts w
  = points_loop host fuel (Some d) (S i)
      (fst (fst (demo_point host d i bp w)))
      (pts ++ [snd (fst (demo_point host d i bp w))])
      (snd (demo_point host d i bp w)).
Proof.
  intros H. cbn [points_loop].
  replace (Z.of_nat i <? Z.min 50 d)%Z with true
    by (symmetry; apply Z.ltb_lt; unfold turns in H; lia).
  destruct (demo_point host d i bp w) as [[bp' point] w']. reflexivity.
Qed.

Lemma points_loop_exit fuel d i bp pts w :
  turns d <= i -> points_loop host fuel (Some d) i bp pts w = (pts, w).
Proof.
  intros H. destruct fuel; cbn [points_loop]; [reflexivity|].
  replace (Z.of_nat i <? Z.min 50 d)%Z with false; [reflexivity|].
  symmetry. apply Z.ltb_ge. unfold turns in H. lia.
Qed.

(** Fuel that covers the turns left is enough: more changes nothing. *)
Lemma points_loop_fuel fuel fuel' d :
  forall i bp pts w,
    turns d - i <= fuel -> turns d - i <= fuel' ->
    points_loop host fuel (Some d) i bp pts w = points_loop host fuel' (Some d) i bp pts w.
Proof.
  revert fuel'. induction fuel as [|fuel IH]; intros fuel' i bp pts w H H'.
  - rewrite !points_loop_exit by lia. reflexivity.
  - destruct (Nat.lt_ge_cases i (turns d)) as [L|G].
    + destruct fuel' as [|fuel']; [lia|].
      rewrite !points_loop_turn by assumption. apply IH; lia.
    + rewrite !points_loop_exit by lia. reflexivity.
Qed.

(** What the loop appends: one point per turn left, the point of turn
    [i + j] stamped with the clock reading number [j] from the present one,
    less the days still to go. *)
Lemma points_loop_spec fuel d :
  forall i bp pts w,
    turns d - i <= fuel ->
    exists new,
      fst (points_loop host fuel (Some d) i bp pts w) = pts ++ new
      /\ List.length new = turns d - i
      /\ forall j, j < turns d - i ->
           nth_error (map timestamp_ms new) j
           = Some (Date_now host (clock_reads w + j)
                   - (d - Z.of_nat (i + j)) * DAY_MS)%Z.
Proof.
  induction fuel as [|fuel IH]; intros i bp pts w H.
  - exists []. rewrite points_loop_exit by lia. rewrite app_nil_r.
    repeat split; [simpl; lia | intros j Hj; lia].
  - destruct (Nat.lt_ge_cases i (turns d)) as [L|G].
    + rewrite points_loop_turn by assumption.
      destruct (IH (S i) (fst (fst (demo_point host d i bp w)))
                  (pts ++ [snd (fst (demo_point host d i bp w))])
                  (snd (demo_point host d i bp w))) as (new & E & Hlen & Hts); [lia|].
      exists (snd (fst (demo_point host d i bp w)) :: new).
      rewrite E, <- app_assoc. repeat split.
      * cbn [List.length]. lia.
      * intros [|j] Hj.
        -- cbn [map nth_error]. rewrite demo_point_timestamp, !Nat.add_0_r. reflexivity.
        -- cbn [map nth_error]. rewrite Hts by lia. rewrite demo_point_world.
           cbn [clock_reads].
           replace (S (clock_reads w) + j) with (clock_reads w + S j) by lia.
           replace (S i + j) with (i + S j) by lia. reflexivity.
    + exists []. rewrite points_loop_exit by lia. rewrite app_nil_r.
      repeat split; [simpl; lia | intros j Hj; lia].
Qed.

(** The points of one symbol when the day count is a number. *)
Lemma demo_points_number symbol d w :
  List.length (fst (demo_points host symbol (VNumber d) w)) = turns d
  /\ forall j, j < turns d ->
       nth_error (map timestamp_ms (fst (demo_points host symbol (VNumber d) w))) j
       = Some (Date_now host (clock_reads w + j) - (d - Z.of_nat j) * DAY_MS)%Z.
Proof.
  unfold demo_points. cbn [random ToNumber].
  match goal with
  | |- context [points_loop host 50 (Some d) 0 ?bp [] ?w1] =>
      destruct (points_loop_spec 50 d 0 bp [] w1) as (new & E & Hlen & Hts)
  end.
  - pose proof (turns_le_50 d). lia.
  - rewrite E. simpl app. rewrite Nat.sub_0_r in *. split; [assumption|].
    intros j Hj. rewrite Hts by assumption. reflexivity.
Qed.

(** With a day count that is not a number the loop body never runs. *)
Lemma demo_points_object symbol w :
  fst (demo_points host symbol VObject w) = [].
Proof. reflexivity. Qed.

End GenerationFacts.

Lemma JsMap_set_In {V : Type} (m : JsMap.t V) k v :
  forall e, In e (JsMap.set m k v) -> e = (k, v) \/ In e m.
Proof.
  induction m as [|[k0 v0] m IH]; intros e; simpl.
  - intuition.
  - destruct (String.eqb k k0); simpl.
    + intuition.
    + intros [H | H]; [auto | destruct (IH e H); auto].
Qed.

Lemma JsMap_get_In {V : Type} (m : JsMap.t V) k :
  In k (JsMap.keys m) -> exists v, JsMap.get m k = Some v /\ In (k, v) m.
Proof.
  induction m as [|[k0 v0] m IH]; simpl; [intros []|].
  destruct (String.eqb_spec k k0) as [->|N].
  - intros _. exists v0. auto.
  - intros [H | H]; [congruence|]. destruct (IH H) as (v & E & Hin). exists v. auto.
Qed.

Lemma StronglySorted_nth_error {A : Type} (R : A -> A -> Prop) (l : list A) :
  (forall i j a b, i < j -> nth_error l i = Some a -> nth_error l j = Some b -> R a b) ->
  StronglySorted R l.
Proof.
  induction l as [|x l IH]; intros H; constructor.
  - apply IH. intros i j a b L Ha Hb. apply (H (S i) (S j)); [lia | assumption | assumption].
  - apply Forall_forall. intros y Hy. apply In_nth_error in Hy. destruct Hy as [n Hn].
    apply (H 0 (S n)); [lia | reflexivity | assumption].
Qed.

Section AnalysisFacts.
Variable host : Host.

Lemma forEach_symbol_entries days symbols :
  forall data w e,
    In e (fst (forEach_symbol host symbols days data w)) ->
    In e data
    \/ (In (fst e) symbols /\ exists w', snd e = fst (demo_points host (fst e) days w')).
Proof.
  induction symbols as [|symbol symbols IH]; intros data w e; simpl; [auto|].
  destruct (demo_points host symbol days w) as [pts w'] eqn:E.
  intros H. apply IH in H. destruct H as [H | [H1 H2]]; [|auto].
  unfold JsObject.assign in H. destruct (String.eqb symbol "__proto__"); [auto|].
  apply JsMap_set_In in H. destruct H as [-> | H]; [|auto].
  right. simpl. split; [auto|]. exists w. now rewrite E.
Qed.

Lemma forEach_symbol_keys days symbols :
  forall data w k,
    In k (map fst (fst (forEach_symbol host symbols days data w)))
    <-> (In k symbols /\ k <> "__proto__") \/ In k (map fst data).
Proof.
  induction symbols as [|symbol symbols IH]; intros data w k; simpl.
  - intuition.
  - destruct (demo_points host symbol days w) as [pts w'].
    rewrite IH, JsObject_assign_keys. intuition (subst; auto).
Qed.

Lemma generateDemoAnalysis_data symbols period w :
  data (fst (generateDemoAnalysis host symbols period w))
  = fst (forEach_symbol host symbols (getPeriodDays period) JsObject.empty w).
Proof.
  unfold generateDemoAnalysis.
  destruct (forEach_symbol host symbols (getPeriodDays period) JsObject.empty w).
  reflexivity.
Qed.

(** The call always returns, with the success flag set. *)
Lemma generateDemoAnalysis_success symbols period w :
  success (fst (generateDemoAnalysis host symbols period w)) = true.
Proof.
  unfold generateDemoAnalysis.
  destruct (forEach_symbol host symbols (getPeriodDays period) JsObject.empty w).
  reflexivity.
Qed.

(** Every series of the result was built by the callback for its key. *)
Lemma generateDemoAnalysis_entries symbols period w k pts :
  In (k, pts) (JsObject.entries (data (fst (generateDemoAnalysis host symbols period w)))) ->
  In k symbols /\ exists w', pts = fst (demo_points host k (getPeriodDays period) w').
Proof.
  rewrite JsObject_entries_In, generateDemoAnalysis_data. intros H.
  apply forEach_symbol_entries in H. destruct H as [[] | H]. exact H.
Qed.

(** The keys of the result are the symbols, [__proto__] apart. *)
Lemma generateDemoAnalysis_keys symbols period w k :
  In k (JsObject.keys (data (fst (generateDemoAnalysis host symbols period w))))
  <-> In k symbols /\ k <> "__proto__".
Proof.
  rewrite JsObject_keys_In, generateDemoAnalysis_data, forEach_symbol_keys.
  simpl. intuition.
Qed.

Lemma turns_spec_dayCount period :
  turns (spec_dayCount period) = Nat.min 50 (Z.to_nat (spec_dayCount period)).
Proof.
  unfold turns. pose proof (spec_dayCount_positive period). lia.
Qed.

Lemma demo_points_length period symbol w :
  JsObject.inherited period = false ->
  List.length (fst (demo_points host symbol (getPeriodDays period) w))
  = Nat.min 50 (Z.to_nat (spec_dayCount period)).
Proof.
  intros H. rewrite (getPeriodDays_spec period H), <- turns_spec_dayCount.
  apply demo_points_number.
Qed.

Lemma generated_series_length period symbols w symbol pts :
  JsObject.inherited period = false ->
  In (symbol, pts)
     (JsObject.entries (data (fst (generateDemoAnalysis host symbols period w)))) ->
  List.length pts = Nat.min 50 (Z.to_nat (spec_dayCount period)).
Proof.
  intros H Hin. apply generateDemoAnalysis_entries in Hin.
  destruct Hin as (_ & w' & ->). now apply demo_points_length.
Qed.


End AnalysisFacts.


(** The token of two years gives 50 points, not 730. *)
Example two_years_fifty_points :
  map (fun e => (fst e, List.length (snd e)))
    (JsObject.entries
       (data (fst (generateDemoAnalysis (still_host 0) ["AAPL"; "^GSPC"] "2Y" World0))))
  = [("AAPL", 50); ("^GSPC", 50)]
  /\ Nat.min 50 (Z.to_nat (spec_dayCount "2Y")) = 50.
Proof. split; vm_compute; reflexivity. Qed.

(** C5. The code misses the default it aims at. The token [constructor]
    is in no row of the table, so the claim gives it the day count 1 and
    one point for each symbol, and [periodMap[period] || 1] is written to
    give 1 for a token outside the table. The read finds the function
    inherited from [Object.prototype], which is truthy and not a number:
    the bound of the loop is NaN, the loop never runs, and the series of
    AAPL has no point. *)
Lemma C5_inherited_token_misses_default :
  spec_dayCount "constructor" = 1%Z
  /\ getPeriodDays "constructor" = VObject
  /\ map (fun e => (fst e, List.length (snd e)))
       (JsObject.entries
          (data (fst (generateDemoAnalysis (still_host 0) ["AAPL"] "constructor" World0))))
     = [("AAPL", 0)]
  /\ 0 <> Nat.min 50 (Z.to_nat (spec_dayCount "constructor")).
Proof. repeat split; vm_compute; congruence. Qed.

(** ** The series of one week *)


Section OneWeek.
Variable host : Host.


(** With a clock that does not run backwards the stamps of a series
    increase strictly, whatever the day count. *)
Lemma timestamps_increase symbol d w :
  (forall a b, a <= b -> (Date_now host a <= Date_now host b)%Z) ->
  StronglySorted Z.lt (map timestamp_ms (fst (demo_points host symbol (VNumber d) w))).
Proof.
  intros Hclock. destruct (demo_points_number host symbol d w) as [Hlen Hts].
  apply StronglySorted_nth_error. intros i j a b L Ha Hb.
  assert (Hj : j < turns d).
  { rewrite <- Hlen, <- (length_map timestamp_ms). apply nth_error_Some. congruence. }
  rewrite Hts in Ha, Hb by lia. inversion Ha; inversion Hb; subst.
  pose proof (Hclock (clock_reads w + i) (clock_reads w + j)). unfold DAY_MS. lia.
Qed.


End OneWeek.



(** The same week with a clock that advances 3 ms per reading: still in
    increasing order, no longer exactly a day apart. *)
Example one_week_ticking_clock :
  map (fun e => (fst e, map timestamp_ms (snd e)))
    (JsObject.entries
       (data (fst (generateDemoAnalysis (ticking_host 1700000000000) ["AAPL"] "1w" World0))))
  = [("AAPL", [1699395200000; 1699481600003; 1699568000006; 1699654400009;
               1699740800012; 1699827200015; 1699913600018]%Z)].
Proof. vm_compute. reflexivity. Qed.

(** ** The result of synthetic generation *)

Section DemoResult.
Variable host : Host.

(** X30. For every list of symbols and every period token, synthetic
    generation returns a result whose success flag is true. When no
    symbol of the list is named [__proto__] and the period token is not
    the name of a property of [Object.prototype], the data of the result
    has exactly the symbols of the list as keys, each read giving a
    series that is not empty. *)
Theorem X30_demo_result_covers_symbols (symbols : list string) (period : string) (w : World) :
  success (fst (generateDemoAnalysis host symbols period w)) = true
  /\ (~ In "__proto__" symbols ->
      JsObject.inherited period = false ->
      (forall k, In k (JsObject.keys (data (fst (generateDemoAnalysis host symbols period w))))
                 <-> In k symbols)
      /\ (forall k, In k symbols ->
            exists pts,
              JsObject.get (data (fst (generateDemoAnalysis host symbols period w))) k
              = JsObject.Own pts /\ pts <> [])
      /\ (forall k pts,
            In (k, pts)
               (JsObject.entries (data (fst (generateDemoAnalysis host symbols period w)))) ->
            pts <> [])).
Proof.
  split; [apply generateDemoAnalysis_success|].
  intros Hproto Hperiod.
  assert (Hkeys : forall k,
             In k (JsObject.keys (data (fst (generateDemoAnalysis host symbols period w))))
             <-> In k symbols).
  { intros k. rewrite generateDemoAnalysis_keys. split; [tauto|].
    intros H. split; [assumption|]. intros ->. contradiction. }
  assert (Hne : forall k pts,
             In (k, pts)
                (JsObject.entries (data (fst (generateDemoAnalysis host symbols period w)))) ->
             pts <> []).
  { intros k pts Hin.
    pose proof (generated_series_length host period symbols w k pts Hperiod Hin) as Hlen.
    intros ->. cbn [List.length] in Hlen.
    pose proof (spec_dayCount_positive period). lia. }
  split; [assumption | split; [|assumption]].
  intros k Hk. apply (proj2 (Hkeys k)) in Hk. apply (proj1 (JsObject_keys_In _ k)) in Hk.
  apply (JsMap_get_In (data (fst (generateDemoAnalysis host symbols period w)))) in Hk.
  destruct Hk as (pts & E & Hin). exists pts. split.
  - unfold JsObject.get. now rewrite E.
  - apply (Hne k). now apply JsObject_entries_In.
Qed.

End DemoResult.

Lemma X30_witness :
  success (fst (generateDemoAnalysis (still_host 0) ["AAPL"; "^GSPC"] "3M" World0)) = true
  /\ (forall k,
        In k (JsObject.keys
                (data (fst (generateDemoAnalysis (still_host 0) ["AAPL"; "^GSPC"] "3M" World0))))
        <-> In k ["AAPL"; "^GSPC"])
  /\ (forall k, In k ["AAPL"; "^GSPC"] ->
        exists pts,
          JsObject.get
            (data (fst (generateDemoAnalysis (still_host 0) ["AAPL"; "^GSPC"] "3M" World0))) k
          = JsObject.Own pts /\ pts <> [])
  /\ (forall k pts,
        In (k, pts)
           (JsObject.entries
              (data (fst (generateDemoAnalysis (still_host 0) ["AAPL"; "^GSPC"] "3M" World0)))) ->
        pts <> []).
Proof.
  destruct (X30_demo_result_covers_symbols (still_host 0) ["AAPL"; "^GSPC"] "3M" World0)
    as [Hsuccess Hdata].
  split; [exact Hsuccess|]. apply Hdata.
  - intros [H | [H | []]]; discriminate.
  - reflexivity.
Defined.

(** C10. The code loses what the claim says on two inputs, each time
    while reporting success. [data] is a plain object used as a map from
    symbol to series: for a symbol named [__proto__] the assignment
    [data[symbol] = points] sets the prototype of [data] and creates no
    key, so the symbol is missing from the result. For a period token
    that names a property of [Object.prototype], here [toString], the
    day count misses its default of 1 and the series of AAPL is empty. *)
Lemma C10_proto_symbol_and_inherited_token :
  (JsObject.keys
     (data (fst (generateDemoAnalysis (still_host 0) ["AAPL"; "__proto__"] "1w" World0)))
   = ["AAPL"]
   /\ success (fst (generateDemoAnalysis (still_host 0) ["AAPL"; "__proto__"] "1w" World0))
      = true)
  /\ (JsObject.entries
        (data (fst (generateDemoAnalysis (still_host 0) ["AAPL"] "toString" World0)))
      = [("AAPL", [])]
      /\ success (fst (generateDemoAnalysis (still_host 0) ["AAPL"] "toString" World0))
         = true).
Proof. repeat split; vm_compute; reflexivity. Qed.

(** ** Chart data and selection across events *)

Lemma stored_keys data k : In k (JsMap.keys (stored data)) <-> In k (JsObject.keys data).
Proof.
  unfold stored. rewrite JsMap_fold_set_keys. unfold JsObject.keys. simpl. tauto.
Qed.

Section EventFacts.
Variable host : Host.

Lemma selectedSymbols_setLoading b s : selectedSymbols (setLoading b s) = selectedSymbols s.
Proof. reflexivity. Qed.

Lemma chartData_setLoading b s : chartData (setLoading b s) = chartData s.
Proof. reflexivity. Qed.

Lemma selectedSymbols_demo_run symbols period s :
  selectedSymbols (demo_run host symbols period s) = selectedSymbols s.
Proof.
  unfold demo_run. destruct (generateDemoAnalysis host symbols period (world s)) as [d w].
  now rewrite selectedSymbols_updateSummary, selectedSymbols_updateChart.
Qed.

Lemma chartData_demo_run symbols period s :
  chartData (demo_run host symbols period s)
  = stored (data (fst (generateDemoAnalysis host symbols period (world s)))).
Proof.
  unfold demo_run. destruct (generateDemoAnalysis host symbols period (world s)) as [d w].
  now rewrite chartData_updateSummary, chartData_updateChart.
Qed.

Lemma selectedSymbols_handleAnalyze s :
  selectedSymbols (fst (handleAnalyze host s)) = selectedSymbols s.
Proof.
  unfold handleAnalyze.
  destruct (Nat.eqb (JsSet.size (selectedSymbols s)) 0); [reflexivity|].
  destruct (truthy_string (apiBaseUrl (setLoading true s))); [reflexivity|].
  cbn [fst]. unfold showToast.
  now rewrite selectedSymbols_setLoading, selectedSymbols_emit, selectedSymbols_demo_run.
Qed.

(** [handleAnalyze] leaves the chart data alone when it only warns or
    sends a request, and stores synthetic data for the selection when no
    API URL is set. *)
Lemma chartData_handleAnalyze s :
  chartData (fst (handleAnalyze host s))
  = if Nat.eqb (JsSet.size (selectedSymbols s)) 0 then chartData s
    else if truthy_string (apiBaseUrl s) then chartData s
    else stored (data (fst (generateDemoAnalysis host (JsSet.to_array (selectedSymbols s))
                              (time_period s) (world s)))).
Proof.
  unfold handleAnalyze.
  destruct (Nat.eqb (JsSet.size (selectedSymbols s)) 0); [reflexivity|].
  change (apiBaseUrl (setLoading true s)) with (apiBaseUrl s).
  destruct (truthy_string (apiBaseUrl s)); [reflexivity|].
  cbn [fst]. unfold showToast.
  now rewrite chartData_setLoading, chartData_emit, chartData_demo_run.
Qed.

Lemma selectedSymbols_resume symbols r s :
  selectedSymbols (handleAnalyze_resume host symbols r s) = selectedSymbols s.
Proof.
  destruct r as [d|]; unfold handleAnalyze_resume, showToast.
  - now rewrite selectedSymbols_setLoading, selectedSymbols_emit,
      selectedSymbols_updateSummary, selectedSymbols_updateChart.
  - now rewrite selectedSymbols_setLoading, selectedSymbols_demo_run.
Qed.

(** Whatever request it answers, a response that arrives is stored. *)
Lemma chartData_resume_responded symbols d s :
  chartData (handleAnalyze_resume host symbols (Responded d) s) = stored d.
Proof.
  unfold handleAnalyze_resume, showToast.
  now rewrite chartData_setLoading, chartData_emit, chartData_updateSummary,
    chartData_updateChart.
Qed.

Lemma chartData_resume_threw symbols s :
  chartData (handleAnalyze_resume host symbols Threw s)
  = stored (data (fst (generateDemoAnalysis host (JsSet.to_array (selectedSymbols s))
                         (time_period s) (world s)))).
Proof.
  unfold handleAnalyze_resume, showToast.
  now rewrite chartData_setLoading, chartData_demo_run.
Qed.

Lemma selectedSymbols_applySettings s :
  selectedSymbols (applySettings s) = selectedSymbols s.
Proof.
  unfold applySettings. destruct (refreshTimer s);
    match goal with |- context [if ?c then _ else _] => destruct c end; reflexivity.
Qed.

Lemma chartData_applySettings s : chartData (applySettings s) = chartData s.
Proof.
  unfold applySettings. destruct (refreshTimer s);
    match goal with |- context [if ?c then _ else _] => destruct c end; reflexivity.
Qed.

Lemma selectedSymbols_saveSettings apiUrl autoRefresh refreshInterval s :
  selectedSymbols (fst (saveSettings apiUrl autoRefresh refreshInterval s))
  = selectedSymbols s.
Proof.
  unfold saveSettings. destruct (truthy_string (Some apiUrl)); [reflexivity|].
  cbn [fst]. unfold saveSettings_finish, showToast.
  now rewrite !selectedSymbols_emit, selectedSymbols_applySettings.
Qed.

Lemma chartData_saveSettings apiUrl autoRefresh refreshInterval s :
  chartData (fst (saveSettings apiUrl autoRefresh refreshInterval s)) = chartData s.
Proof.
  unfold saveSettings. destruct (truthy_string (Some apiUrl)); [reflexivity|].
  cbn [fst]. unfold saveSettings_finish, showToast.
  now rewrite !chartData_emit, chartData_applySettings.
Qed.

Lemma app_suspend r waiting : app (suspend r waiting) = fst r.
Proof. unfold suspend. destruct (snd r); reflexivity. Qed.

(** Synthetic data stored for the selection keeps the chart within it. *)
Lemma stored_demo_within_selection period w (sel : JsSet.t) k :
  In k (JsMap.keys (stored (data (fst (generateDemoAnalysis host (JsSet.to_array sel) period w))))) ->
  In k sel.
Proof.
  rewrite stored_keys, generateDemoAnalysis_keys. unfold JsSet.to_array. tauto.
Qed.

End EventFacts.

Section Invariant.
Variable host : Host.

Lemma step_chart_within_selection rt ev :
  chart_within_selection (app rt) ->
  response_selected rt ev ->
  chart_within_selection (app (step host rt ev)).
Proof.
  unfold chart_within_selection. intros Inv Hev.
  destruct ev as [symbol|symbol| | | |k r|apiUrl autoRefresh refreshInterval|value|value];
    cbn [step app].
  - intros k. rewrite chartData_addSymbol, selectedSymbols_addSymbol. intros H.
    apply Inv in H.
    destruct (JsSet.has (selectedSymbols (app rt)) symbol); [assumption|].
    destruct (Nat.leb 10 (JsSet.size (selectedSymbols (app rt)))); [assumption|].
    apply in_or_app. now left.
  - intros k. rewrite chartData_removeSymbol, selectedSymbols_removeSymbol.
    rewrite JsMap_delete_keys, JsSet_delete_In. intros [H N]. split; [now apply Inv | assumption].
  - intros k. unfold handleClear, showToast.
    rewrite !chartData_emit, chartData_updateChart, chartData_updateDisplay. intros [].
  - destruct (isLoading (app rt)); [assumption|].
    rewrite app_suspend. intros k.
    rewrite chartData_handleAnalyze, selectedSymbols_handleAnalyze.
    destruct (Nat.eqb (JsSet.size (selectedSymbols (app rt))) 0); [apply Inv|].
    destruct (truthy_string (apiBaseUrl (app rt))); [apply Inv|].
    apply stored_demo_within_selection.
  - destruct (refreshTimer (app rt)); [|assumption].
    rewrite app_suspend. intros k.
    rewrite chartData_handleAnalyze, selectedSymbols_handleAnalyze.
    destruct (Nat.eqb (JsSet.size (selectedSymbols (app rt))) 0); [apply Inv|].
    destruct (truthy_string (apiBaseUrl (app rt))); [apply Inv|].
    apply stored_demo_within_selection.
  - cbn [response_selected] in Hev.
    destruct (nth_error (pending rt) k) as [[symbols| |]|]; cbn [app resume]; [| | |assumption].
    + intros key. rewrite selectedSymbols_resume. destruct r as [d|].
      * rewrite chartData_resume_responded, stored_keys. apply Hev.
      * rewrite chartData_resume_threw. apply stored_demo_within_selection.
    + intros key. unfold saveSettings_finish, showToast.
      rewrite !chartData_emit, !selectedSymbols_emit, chartData_applySettings,
        selectedSymbols_applySettings. apply Inv.
    + intros key. unfold init_finish, showToast.
      rewrite !chartData_emit, !selectedSymbols_emit, chartData_applySettings,
        selectedSymbols_applySettings. apply Inv.
  - rewrite app_suspend. intros k.
    rewrite chartData_saveSettings, selectedSymbols_saveSettings. apply Inv.
  - intros k. unfold handleChartTypeChange.
    destruct (Nat.ltb 0 (JsMap.size (chartData (with_chart_type value (app rt))))).
    + rewrite chartData_updateChart, selectedSymbols_updateChart. apply Inv.
    + apply Inv.
  - assumption.
Qed.

(** The selection keeps its bound and its distinctness across every
    event, not only across add and remove calls. *)
Lemma step_selection_ok rt ev :
  selection_ok (app rt) -> selection_ok (app (step host rt ev)).
Proof.
  intros Inv.
  destruct ev as [symbol|symbol| | | |k r|apiUrl autoRefresh refreshInterval|value|value];
    cbn [step app].
  - now apply addSymbol_selection_ok.
  - now apply removeSymbol_selection_ok.
  - unfold selection_ok, handleClear, showToast.
    rewrite !selectedSymbols_emit, selectedSymbols_updateChart, selectedSymbols_updateDisplay.
    simpl. split; [lia | constructor].
  - destruct (isLoading (app rt)); [assumption|].
    rewrite app_suspend. unfold selection_ok. now rewrite selectedSymbols_handleAnalyze.
  - destruct (refreshTimer (app rt)); [|assumption].
    rewrite app_suspend. unfold selection_ok. now rewrite selectedSymbols_handleAnalyze.
  - destruct (nth_error (pending rt) k) as [[symbols| |]|]; cbn [app resume]; [| | |assumption].
    + unfold selection_ok. now rewrite selectedSymbols_resume.
    + unfold selection_ok, saveSettings_finish, showToast.
      now rewrite !selectedSymbols_emit, selectedSymbols_applySettings.
    + unfold selection_ok, init_finish, showToast.
      now rewrite !selectedSymbols_emit, selectedSymbols_applySettings.
  - rewrite app_suspend. unfold selection_ok. now rewrite selectedSymbols_saveSettings.
  - unfold selection_ok, handleChartTypeChange.
    destruct (Nat.ltb 0 (JsMap.size (chartData (with_chart_type value (app rt))))).
    + now rewrite selectedSymbols_updateChart.
    + assumption.
  - assumption.
Qed.

Lemma run_selection_ok (evs : list Event) :
  forall rt, selection_ok (app rt) -> selection_ok (app (run host rt evs)).
Proof.
  induction evs as [|ev evs IH]; intros rt Inv; simpl; [assumption|].
  apply IH. now apply step_selection_ok.
Qed.

Lemma run_chart_within_selection (evs : list Event) :
  forall rt,
    chart_within_selection (app rt) ->
    responses_selected host rt evs ->
    chart_within_selection (app (run host rt evs)).
Proof.
  induction evs as [|ev evs IH]; intros rt Inv H; simpl in *; [assumption|].
  destruct H as [H1 H2]. apply IH; [|assumption].
  now apply step_chart_within_selection.
Qed.

(** C2 (amended). From a state whose chart keys are selected, the key set
    of the chart data stays within the selection after every event (an
    add, a remove, a clear, an analysis run on synthetic data, a change of
    settings or of a control), provided that each remote response stored
    by an analysis run has only keys that are selected when it arrives.
    Remove deletes the chart entry of the symbol; a run on synthetic data
    replaces the map by one whose keys are selected at that moment; a run
    on a remote response replaces it by one whose keys are the keys of the
    response. *)
Theorem C2_chart_keys_within_selection (evs : list Event) (rt : Runtime) :
  chart_within_selection (app rt) ->
  responses_selected host rt evs ->
  chart_within_selection (app (run host rt evs))
  /\ (forall symbol s, JsMap.get (chartData (removeSymbol symbol s)) symbol = None)
  /\ (forall s k,
        In k (JsMap.keys (chartData (demo_run host (JsSet.to_array (selectedSymbols s))
                                       (time_period s) s))) ->
        In k (selectedSymbols s))
  /\ (forall symbols d s k,
        In k (JsMap.keys (chartData (handleAnalyze_resume host symbols (Responded d) s)))
        <-> In k (JsObject.keys d)).
Proof.
  intros Inv H. split; [now apply run_chart_within_selection | split; [|split]].
  - intros symbol s. rewrite chartData_removeSymbol.
    apply JsMap_get_None. rewrite JsMap_delete_keys. tauto.
  - intros s k. rewrite chartData_demo_run. apply stored_demo_within_selection.
  - intros symbols d s k. rewrite chartData_resume_responded. apply stored_keys.
Qed.

End Invariant.

(** ** Traces of a page connected to a remote service *)

Example boot_online_runtime :
  boot [(API_URL_KEY, api_example)] "gsmt.netlify.app" "https://gsmt.netlify.app"
    "1w" "percentage"
  = Some online_runtime.
Proof. reflexivity. Qed.

Lemma C2_witness :
  chart_within_selection (app (run (still_host 0) online_runtime analysed_trace))
  /\ (forall symbol s, JsMap.get (chartData (removeSymbol symbol s)) symbol = None)
  /\ (forall s k,
        In k (JsMap.keys (chartData (demo_run (still_host 0)
                                       (JsSet.to_array (selectedSymbols s))
                                       (time_period s) s))) ->
        In k (selectedSymbols s))
  /\ (forall symbols d s k,
        In k (JsMap.keys (chartData (handleAnalyze_resume (still_host 0) symbols
                                       (Responded d) s)))
        <-> In k (JsObject.keys d)).
Proof.
  apply (C2_chart_keys_within_selection (still_host 0) analysed_trace online_runtime).
  - intros k [].
  - vm_compute. repeat split; tauto.
Defined.

(** Without API URL the run is synchronous and keyed by the selection. *)
Example demo_mode_run :
  JsMap.keys (chartData (app (run (still_host 0) {| app := fresh_state; pending := [] |}
                                [SelectSuggestion "AAPL"; SelectSuggestion "^GSPC";
                                 ClickAnalyze])))
  = ["AAPL"; "^GSPC"]
  /\ pending (run (still_host 0) {| app := fresh_state; pending := [] |}
                [SelectSuggestion "AAPL"; SelectSuggestion "^GSPC"; ClickAnalyze])
     = [].
Proof. split; vm_compute; reflexivity. Qed.

(** C2, as stated, fails for an analysis served by the remote service: the
    response is stored under its own keys. Here MSFT is removed from the
    selection while the request for AAPL and MSFT is out, and the
    response brings its chart entry back. *)
Lemma C2_counterexample :
  In (FetchAnalyze "https://api.example/analyze" ["AAPL"; "MSFT"] "1w" "percentage")
     (effects (app (run (still_host 0) online_runtime removed_while_pending_trace)))
  /\ selectedSymbols (app (run (still_host 0) online_runtime removed_while_pending_trace))
     = ["AAPL"]
  /\ JsMap.keys (chartData (app (run (still_host 0) online_runtime removed_while_pending_trace)))
     = ["AAPL"; "MSFT"]
  /\ ~ chart_within_selection
         (app (run (still_host 0) online_runtime removed_while_pending_trace)).
Proof.
  split; [vm_compute; tauto | split; [reflexivity | split; [reflexivity|]]].
  intros H. specialize (H "MSFT"). vm_compute in H.
  destruct H as [H | []]; [tauto | discriminate].
Qed.

(** Once a response has stored a key that is not selected, it stays
    through a later add: only a removal of that key, a clear or another
    run takes it away. *)
Example unselected_key_survives_an_add :
  selectedSymbols
    (app (run (still_host 0) online_runtime
            (removed_while_pending_trace ++ [SelectSuggestion "TSLA"])))
  = ["AAPL"; "TSLA"]
  /\ JsMap.keys
       (chartData
          (app (run (still_host 0) online_runtime
                  (removed_while_pending_trace ++ [SelectSuggestion "TSLA"]))))
     = ["AAPL"; "MSFT"].
Proof. split; vm_compute; reflexivity. Qed.

(** *** Overlapping analysis runs *)

Section Overlap.
Variable host : Host.

Lemma nth_error_remove_nth_before {A : Type} (l : list A) :
  forall i j, i < j -> nth_error (remove_nth j l) i = nth_error l i.
Proof.
  induction l as [|x l IH]; intros i j L.
  - destruct j; reflexivity.
  - destruct j as [|j]; [lia|]. destruct i as [|i]; [reflexivity|].
    simpl. apply IH. lia.
Qed.

(** C3 (amended). When two analysis runs are waiting for their responses
    and the one issued second is answered first, the chart data shows the
    second response until the first arrives, and the first response from
    then on: the final chart data is that of the response that arrived
    last, and no response is discarded. *)
Theorem C3_last_response_wins (rt : Runtime) (i j : nat)
  (symbols1 symbols2 : list string) (d1 d2 : JsObject.t (list SeriesPoint)) :
  i < j ->
  nth_error (pending rt) i = Some (AwaitAnalyze symbols1) ->
  nth_error (pending rt) j = Some (AwaitAnalyze symbols2) ->
  chartData (app (run host rt [Settle j (Responded d2)])) = stored d2
  /\ chartData (app (run host rt [Settle j (Responded d2); Settle i (Responded d1)]))
     = stored d1.
Proof.
  intros L H1 H2. cbn [run fold_left step]. rewrite H2. cbn [app pending resume].
  rewrite nth_error_remove_nth_before, H1 by assumption. cbn [app resume].
  split; apply chartData_resume_responded.
Qed.

End Overlap.

Example overlap_trace_pending :
  pending (run (still_host 0) online_runtime overlap_trace)
  = [AwaitAnalyze ["AAPL"]; AwaitAnalyze ["AAPL"]]
  /\ refreshTimer (app (run (still_host 0) online_runtime overlap_trace)) = true
  /\ isLoading (app (run (still_host 0) online_runtime overlap_trace)) = true.
Proof. repeat split; reflexivity. Qed.

Lemma C3_witness :
  chartData (app (run (still_host 0) (run (still_host 0) online_runtime overlap_trace)
                    [Settle 1 (Responded second_response)]))
  = stored second_response
  /\ chartData (app (run (still_host 0) (run (still_host 0) online_runtime overlap_trace)
                       [Settle 1 (Responded second_response);
                        Settle 0 (Responded first_response)]))
     = stored first_response.
Proof.
  apply (C3_last_response_wins (still_host 0)
           (run (still_host 0) online_runtime overlap_trace) 0 1 ["AAPL"] ["AAPL"]
           first_response second_response).
  - lia.
  - reflexivity.
  - reflexivity.
Defined.

(** C3, as stated, fails: the request of the button is issued first, the
    request of the timer second; the second is answered first and the
    first last; the chart data at the end is that of the first request,
    not that of the request issued most recently. *)
Lemma C3_counterexample :
  pending (run (still_host 0) online_runtime overlap_trace)
  = [AwaitAnalyze ["AAPL"]; AwaitAnalyze ["AAPL"]]
  /\ chartData (app (run (still_host 0) online_runtime
                       (overlap_trace ++ [Settle 1 (Responded second_response);
                                          Settle 0 (Responded first_response)])))
     = stored first_response
  /\ stored first_response <> stored second_response.
Proof.
  split; [reflexivity | split; [reflexivity|]].
  vm_compute. intros H. inversion H.
Qed.

(** ** Settings round trip *)

Section JsonFacts.
Local Open Scope string_scope.

Lemma read_digits_uint (u : uint) (rest : string) :
  JSON.read_digits rest = (Nil, rest) ->
  JSON.read_digits (NilEmpty.string_of_uint u ++ rest) = (u, rest).
Proof.
  intros H. induction u; simpl; rewrite ?IHu; auto.
Qed.

Lemma canonical_unorm (u : uint) : unorm u = u -> JSON.canonical u = true.
Proof.
  destruct u as [|u| | | | | | | | |]; try reflexivity.
  - discriminate.
  - rewrite DecimalFacts.unorm_D0. intros H. destruct u; try reflexivity;
      exfalso; unfold unorm in H;
      match type of H with
      | match nzhead ?d with _ => _ end = _ =>
          pose proof (DecimalFacts.nzhead_nonzero d) as Hz; destruct (nzhead d) eqn:E;
          try discriminate; try (eapply Hz; rewrite <- H; reflexivity)
      end.
Qed.

Lemma canonical_nzhead (u : uint) : nzhead u = u -> u <> Nil -> JSON.canonical u = true.
Proof.
  intros H N. destruct u; try reflexivity; try contradiction.
  exfalso. apply (DecimalFacts.nzhead_nonzero (D0 u) u). exact H.
Qed.

(** The decimal form [Z.to_int] gives is normal: it is what [norm]
    returns. *)
Lemma to_int_normal (n : Z) : norm (Z.to_int n) = Z.to_int n.
Proof.
  rewrite <- (DecimalZ.of_to n) at 2. symmetry. apply DecimalZ.to_of.
Qed.

Lemma decimal_cases (n : Z) :
  (exists u, Z.to_int n = Pos u /\ JSON.canonical u = true)
  \/ (exists u, Z.to_int n = Neg u /\ JSON.canonical u = true).
Proof.
  pose proof (to_int_normal n) as H. destruct (Z.to_int n) as [u|u]; simpl in H.
  - left. exists u. split; [reflexivity|]. apply canonical_unorm. congruence.
  - right. exists u. split; [reflexivity|].
    destruct (nzhead u) eqn:E; try discriminate;
      (apply canonical_nzhead; [congruence | intros ->; discriminate]).
Qed.

(** Reading back the decimal text of a safe integer [n], followed by a
    character that ends a number. *)
Lemma parse_value_decimal (n : Z) (rest : string) :
  safe_integer n ->
  JSON.read_digits rest = (Nil, rest) ->
  JSON.continues_number rest = false ->
  JSON.skip_ws (decimal n ++ rest) = (decimal n ++ rest)%string
  /\ JSON.parse_value (decimal n ++ rest) = Some (JSON.Number n, rest).
Proof.
  intros Hs Hd Hc. apply Z.leb_le in Hs. unfold decimal.
  destruct (decimal_cases n) as [(u & E & C) | (u & E & C)]; rewrite E; simpl.
  - assert (R : JSON.parse_number (NilEmpty.string_of_uint u ++ rest)
                = Some (JSON.Number n, rest)).
    { unfold JSON.parse_number.
      replace (match NilEmpty.string_of_uint u ++ rest with
               | String "-"%char r => (true, r)
               | _ => (false, NilEmpty.string_of_uint u ++ rest)
               end) with (false, NilEmpty.string_of_uint u ++ rest)
        by (destruct u; try reflexivity; discriminate).
      rewrite (read_digits_uint u rest Hd), C, Hc. cbv zeta. cbn [andb negb].
      rewrite <- E, DecimalZ.of_to, Hs. reflexivity. }
    destruct u; try discriminate; (split; [reflexivity | exact R]).
  - split; [reflexivity|].
    assert (Z0 : (n =? 0)%Z = false) by (destruct n; simpl in E; try discriminate; reflexivity).
    unfold JSON.parse_value. cbn [JSON.strip Ascii.eqb Bool.eqb].
    unfold JSON.parse_number.
    rewrite (read_digits_uint u rest Hd), C, Hc. cbv zeta. cbn [andb negb].
    rewrite <- E, DecimalZ.of_to, Z0, Hs. reflexivity.
Qed.

Lemma JsMap_get_set_same {V : Type} (m : JsMap.t V) k v :
  JsMap.get (JsMap.set m k v) k = Some v.
Proof.
  induction m as [|[k0 v0] m IH]; simpl.
  - now rewrite String.eqb_refl.
  - destruct (String.eqb_spec k k0) as [->|N]; simpl.
    + now rewrite String.eqb_refl.
    + destruct (String.eqb_spec k k0); [contradiction | assumption].
Qed.

(** The text [JSON.stringify] writes for the settings object. *)
Lemma stringify_settings (b : bool) (n : Z) :
  JSON.stringify (settings_object b n)
  = String "{"
      (String JSON.quote
         ("autoRefresh" ++
          String JSON.quote
            (String ":"
               (JSON.stringify_value (JSON.Bool b) ++
                String ","
                  (String JSON.quote
                     ("refreshInterval" ++
                      String JSON.quote (String ":" (decimal n ++ "}")))))))).
Proof. destruct b; reflexivity. Qed.

(** One turn of [parse_members] over the flag, with more to come. *)
Lemma parse_members_flag (fuel : nat) (b : bool) (rest : string) (acc : JSON.Object) :
  JSON.parse_members (S fuel)
    (String JSON.quote
       ("autoRefresh" ++
        String JSON.quote
          (String ":" (JSON.stringify_value (JSON.Bool b) ++ String "," rest)))) acc
  = JSON.parse_members fuel rest (JsMap.set acc "autoRefresh" (JSON.Bool b)).
Proof. destruct b; reflexivity. Qed.

(** The last turn, over the interval. *)
Lemma parse_members_interval (fuel : nat) (n : Z) (acc : JSON.Object) :
  safe_integer n ->
  JSON.parse_members (S fuel)
    (String JSON.quote
       ("refreshInterval" ++ String JSON.quote (String ":" (decimal n ++ "}")))) acc
  = Some (JsMap.set acc "refreshInterval" (JSON.Number n), "").
Proof.
  intros Hs. destruct (parse_value_decimal n "}" Hs eq_refl eq_refl) as [Hws Hval].
  cbn -[JSON.parse_value decimal JsMap.set]. rewrite Hws, Hval. reflexivity.
Qed.

(** [JSON.parse] reads back what [JSON.stringify] wrote. *)
Lemma parse_stringify_settings (b : bool) (n : Z) :
  safe_integer n ->
  JSON.parse (JSON.stringify (settings_object b n))
  = JSON.ParsedObject (settings_object b n).
Proof.
  intros Hs. rewrite stringify_settings.
  match goal with
  | |- JSON.parse (String "{" ?r) = _ =>
      assert (E : JSON.parse_object (String "{" r) = Some (settings_object b n, ""))
  end.
  { unfold JSON.parse_object.
    match goal with
    | |- context [String.length ?r] =>
        assert (F : exists fuel, String.length r = S (S fuel))
          by (destruct b; simpl; eauto);
        destruct F as [fuel ->]
    end.
    change (JSON.skip_ws (String JSON.quote ?s)) with (String JSON.quote s).
    cbv beta iota.
    rewrite parse_members_flag, parse_members_interval by assumption. reflexivity. }
  unfold JSON.parse.
  change (JSON.skip_ws (String "{" ?s)) with (String "{" s).
  cbv beta iota. change (JSON.may_start_value "{") with true. cbv beta iota.
  cbn [negb]. rewrite E. reflexivity.
Qed.

End JsonFacts.

Section SettingsFacts.

Lemma settings_applySettings s : settings (applySettings s) = settings s.
Proof.
  unfold applySettings. destruct (refreshTimer s);
    match goal with |- context [if ?c then _ else _] => destruct c end; reflexivity.
Qed.

Lemma localStorage_applySettings s : localStorage (applySettings s) = localStorage s.
Proof.
  unfold applySettings. destruct (refreshTimer s);
    match goal with |- context [if ?c then _ else _] => destruct c end; reflexivity.
Qed.

Lemma settings_updateChart s : settings (updateChart s) = settings s.
Proof.
  unfold updateChart. destruct (chartInstance s); simpl; [|reflexivity].
  destruct (chart_option (chartData s) (chart_type s)). reflexivity.
Qed.

Lemma settings_saveSettings apiUrl autoRefresh refreshInterval s :
  settings (fst (saveSettings apiUrl autoRefresh refreshInterval s))
  = JsObject.assign
      (JsObject.assign (settings s) "autoRefresh" (JSON.Bool autoRefresh))
      "refreshInterval"
      (match refreshInterval with Some n => JSON.Number n | None => JSON.NaN end).
Proof.
  unfold saveSettings. destruct (truthy_string (Some apiUrl)); [reflexivity|].
  cbn [fst]. unfold saveSettings_finish, showToast. cbn [settings emit].
  now rewrite settings_applySettings.
Qed.

Lemma localStorage_saveSettings apiUrl autoRefresh refreshInterval s :
  localStorage (fst (saveSettings apiUrl autoRefresh refreshInterval s))
  = JsMap.set (JsMap.set (localStorage s) API_URL_KEY apiUrl) SETTINGS_KEY
      (JSON.stringify (settings (fst (saveSettings apiUrl autoRefresh refreshInterval s)))).
Proof.
  rewrite settings_saveSettings.
  unfold saveSettings. destruct (truthy_string (Some apiUrl)); [reflexivity|].
  cbn [fst]. unfold saveSettings_finish, showToast. cbn [localStorage emit].
  now rewrite localStorage_applySettings.
Qed.

(** A new session starts with the settings [loadSettings] reads. *)
Lemma boot_settings storage hostname origin period chartType loaded :
  loadSettings storage = Some loaded ->
  option_map (fun rt => settings (app rt)) (boot storage hostname origin period chartType)
  = Some loaded.
Proof.
  intros H. unfold boot. rewrite H.
  match goal with |- context [if ?c then _ else _] => destruct c end; cbn [option_map app].
  - cbn [settings emit]. now rewrite settings_updateChart.
  - unfold init_finish, showToast. cbn [settings emit].
    now rewrite settings_applySettings, settings_updateChart.
Qed.

Lemma loadSettings_stringify storage b n :
  safe_integer n ->
  JsMap.get storage SETTINGS_KEY = Some (JSON.stringify (settings_object b n)) ->
  loadSettings storage = Some (settings_object b n).
Proof.
  intros Hs H. unfold loadSettings. rewrite H, parse_stringify_settings by assumption.
  rewrite stringify_settings. reflexivity.
Qed.

(** C9. Saving a well-formed settings value (the auto-refresh flag and a
    refresh interval that is a safe integer) and loading in a new session
    gives back the same settings object: the same two fields with the same
    values. *)
Theorem C9_settings_round_trip (s : State) (apiUrl : string) (autoRefresh : bool)
  (refreshInterval : Z) (hostname origin period chartType : string) :
  well_formed_settings (settings s) ->
  safe_integer refreshInterval ->
  settings (fst (saveSettings apiUrl autoRefresh (Some refreshInterval) s))
  = settings_object autoRefresh refreshInterval
  /\ loadSettings
       (localStorage (fst (saveSettings apiUrl autoRefresh (Some refreshInterval) s)))
     = Some (settings (fst (saveSettings apiUrl autoRefresh (Some refreshInterval) s)))
  /\ option_map (fun rt => settings (app rt))
       (boot (localStorage (fst (saveSettings apiUrl autoRefresh (Some refreshInterval) s)))
          hostname origin period chartType)
     = Some (settings (fst (saveSettings apiUrl autoRefresh (Some refreshInterval) s))).
Proof.
  intros (b0 & n0 & E & _) Hs.
  assert (S1 : settings (fst (saveSettings apiUrl autoRefresh (Some refreshInterval) s))
               = settings_object autoRefresh refreshInterval).
  { rewrite settings_saveSettings, E. reflexivity. }
  assert (L : loadSettings
                (localStorage (fst (saveSettings apiUrl autoRefresh (Some refreshInterval) s)))
              = Some (settings_object autoRefresh refreshInterval)).
  { apply loadSettings_stringify; [assumption|].
    rewrite localStorage_saveSettings, S1. apply JsMap_get_set_same. }
  rewrite S1. split; [reflexivity | split; [assumption|]].
  now apply boot_settings.
Qed.

End SettingsFacts.

Lemma C9_witness :
  settings (fst (saveSettings "" true (Some 60%Z) fresh_state)) = settings_object true 60
  /\ loadSettings (localStorage (fst (saveSettings "" true (Some 60%Z) fresh_state)))
     = Some (settings (fst (saveSettings "" true (Some 60%Z) fresh_state)))
  /\ option_map (fun rt => settings (app rt))
       (boot (localStorage (fst (saveSettings "" true (Some 60%Z) fresh_state)))
          "gsmt.netlify.app" "https://gsmt.netlify.app" "1w" "percentage")
     = Some (settings (fst (saveSettings "" true (Some 60%Z) fresh_state))).
Proof.
  apply (C9_settings_round_trip fresh_state "" true 60
           "gsmt.netlify.app" "https://gsmt.netlify.app" "1w" "percentage").
  - exists false, 300%Z. split; [reflexivity|]. apply Z.leb_le. reflexivity.
  - apply Z.leb_le. reflexivity.
Defined.

Example saved_settings_text :
  JsMap.get (localStorage (fst (saveSettings "" true (Some 60%Z) fresh_state))) SETTINGS_KEY
  = Some (String "{" (String JSON.quote ("autoRefresh" ++ String JSON.quote (":true," ++
          String JSON.quote ("refreshInterval" ++ String JSON.quote ":60}")))))%string.
Proof. reflexivity. Qed.

(** An interval field without digits is saved as NaN, written [null], and
    read back as null: outside the well-formed values the round trip is
    lost. *)
Example nan_interval_reads_back_null :
  settings (fst (saveSettings "" true None fresh_state))
  = [("autoRefresh", JSON.Bool true); ("refreshInterval", JSON.NaN)]
  /\ loadSettings (localStorage (fst (saveSettings "" true None fresh_state)))
     = Some [("autoRefresh", JSON.Bool true); ("refreshInterval", JSON.Null)].
Proof. split; reflexivity. Qed.

(* ================================================================== *)
(** * Further properties *)

(** ** Clearing, adding and removing *)

(** X1. [handleClear] leaves the selection and the chart data empty
    whatever they held, and makes exactly these calls, in this order: the
    chips are hidden, the chart (when one was created) is given the
    placeholder option without [notMerge], the summary is hidden, an info
    toast is shown. *)
Theorem X1_clear_empties_selection_and_chart (s : State) :
  selectedSymbols (handleClear s) = []
  /\ chartData (handleClear s) = []
  /\ effects (handleClear s)
     = effects s ++ [HideChips]
       ++ (if chartInstance s then [SetOption getEmptyChartOption false] else [])
       ++ [HideSummary; ShowToast "Analysis cleared" ToastInfo].
Proof.
  unfold handleClear, showToast, updateChart, updateSelectedSymbolsDisplay.
  cbn [selectedSymbols chartData with_selectedSymbols with_chartData JsSet.size
       JsSet.empty JsMap.empty List.length Nat.eqb chartInstance emit].
  destruct (chartInstance s); cbn; rewrite <- ?app_assoc; repeat split; reflexivity.
Qed.

Lemma JsSet_delete_added (l : JsSet.t) (x : string) :
  ~ In x l -> JsSet.delete (l ++ [x]) x = l.
Proof.
  intros H. unfold JsSet.delete. rewrite filter_app. simpl.
  rewrite String.eqb_refl. simpl. rewrite app_nil_r.
  now apply JsSet_delete_absent.
Qed.

(** X2. Adding a symbol that is not selected to a selection of fewer than
    10 and removing it again gives back the selection, in its order, and
    the chart data, when the chart data had no entry for the symbol. *)
Theorem X2_add_then_remove_restores (symbol : string) (s : State) :
  ~ In symbol (selectedSymbols s) ->
  JsSet.size (selectedSymbols s) < 10 ->
  ~ In symbol (JsMap.keys (chartData s)) ->
  selectedSymbols (removeSymbol symbol (addSymbol symbol s)) = selectedSymbols s
  /\ chartData (removeSymbol symbol (addSymbol symbol s)) = chartData s.
Proof.
  intros Hsel Hsize Hchart.
  rewrite selectedSymbols_removeSymbol, chartData_removeSymbol,
    selectedSymbols_addSymbol, chartData_addSymbol.
  apply JsSet_has_false in Hsel. rewrite Hsel.
  replace (Nat.leb 10 (JsSet.size (selectedSymbols s))) with false
    by (symmetry; apply Nat.leb_gt; assumption).
  split.
  - apply JsSet_delete_added. now apply JsSet_has_false.
  - now apply JsMap_delete_absent.
Qed.

Lemma X2_witness :
  selectedSymbols (removeSymbol "TSLA" (addSymbol "TSLA" analysed_state))
  = selectedSymbols analysed_state
  /\ chartData (removeSymbol "TSLA" (addSymbol "TSLA" analysed_state))
     = chartData analysed_state.
Proof.
  apply (X2_add_then_remove_restores "TSLA" analysed_state).
  - apply JsSet_has_false. reflexivity.
  - apply Nat.leb_le. reflexivity.
  - apply JsMap_get_None. reflexivity.
Defined.

(** ** What an event leaves alone *)

Section Frames.
Variable host : Host.

(** X3. The selection changes only when a suggestion is chosen, a chip is
    removed or the clear button is pressed: an analysis run, the arrival
    of any response, a timer tick, saving the settings and changing a
    control leave it as it is. *)
Theorem X3_selection_changes_only_by_add_remove_clear (rt : Runtime) (ev : Event) :
  edits_selection ev = false ->
  selectedSymbols (app (step host rt ev)) = selectedSymbols (app rt).
Proof.
  intros H.
  destruct ev as [symbol|symbol| | | |k r|apiUrl autoRefresh refreshInterval|value|value];
    try discriminate H; cbn [step app].
  - destruct (isLoading (app rt)); [reflexivity|].
    rewrite app_suspend. apply selectedSymbols_handleAnalyze.
  - destruct (refreshTimer (app rt)); [|reflexivity].
    rewrite app_suspend. apply selectedSymbols_handleAnalyze.
  - destruct (nth_error (pending rt) k) as [[symbols| |]|]; cbn [app resume]; [| | |reflexivity].
    + apply selectedSymbols_resume.
    + unfold saveSettings_finish, showToast.
      now rewrite !selectedSymbols_emit, selectedSymbols_applySettings.
    + unfold init_finish, showToast.
      now rewrite !selectedSymbols_emit, selectedSymbols_applySettings.
  - rewrite app_suspend. apply selectedSymbols_saveSettings.
  - unfold handleChartTypeChange.
    destruct (Nat.ltb 0 (JsMap.size (chartData (with_chart_type value (app rt))))).
    + now rewrite selectedSymbols_updateChart.
    + reflexivity.
  - reflexivity.
Qed.


End Frames.

Lemma X3_witness :
  selectedSymbols (app (step (still_host 0)
                          (run (still_host 0) online_runtime overlap_trace)
                          (Settle 1 (Responded second_response))))
  = selectedSymbols (app (run (still_host 0) online_runtime overlap_trace)).
Proof.
  apply (X3_selection_changes_only_by_add_remove_clear (still_host 0)
           (run (still_host 0) online_runtime overlap_trace)
           (Settle 1 (Responded second_response))).
  reflexivity.
Defined.


(** ** The auto-refresh timer *)

Lemma live_timers_snoc (l : list Effect) (e : Effect) :
  live_timers (l ++ [e]) = count_timer (live_timers l) e.
Proof. unfold live_timers. now rewrite fold_left_app. Qed.

Lemma same_timers_refl s : same_timers s s.
Proof. split; reflexivity. Qed.

Lemma same_timers_trans s1 s2 s3 :
  same_timers s1 s2 -> same_timers s2 s3 -> same_timers s1 s3.
Proof. intros [A B] [C D]. split; congruence. Qed.

Lemma same_timers_emit e s : timer_effect e = false -> same_timers s (emit e s).
Proof.
  intros H. split; [reflexivity|]. cbn [effects emit]. rewrite live_timers_snoc.
  destruct e; try discriminate H; reflexivity.
Qed.

Lemma same_timers_timer_ok s s' : same_timers s s' -> timer_ok s -> timer_ok s'.
Proof. unfold timer_ok. intros [A B] H. now rewrite A, B. Qed.

Section TimerFacts.
Variable host : Host.

Lemma same_timers_updateChart s : same_timers s (updateChart s).
Proof.
  unfold updateChart. destruct (chartInstance s); simpl; [|apply same_timers_refl].
  destruct (chart_option (chartData s) (chart_type s)). now apply same_timers_emit.
Qed.

Lemma same_timers_updateDisplay s : same_timers s (updateSelectedSymbolsDisplay s).
Proof.
  unfold updateSelectedSymbolsDisplay.
  destruct (Nat.eqb (JsSet.size (selectedSymbols s)) 0); now apply same_timers_emit.
Qed.

Lemma same_timers_updateSummary s : same_timers s (updatePerformanceSummary s).
Proof.
  unfold updatePerformanceSummary.
  destruct (Nat.eqb (JsMap.size (chartData s)) 0); now apply same_timers_emit.
Qed.

Lemma same_timers_addSymbol symbol s : same_timers s (addSymbol symbol s).
Proof.
  unfold addSymbol, showToast.
  destruct (JsSet.has (selectedSymbols s) symbol); [now apply same_timers_emit|].
  destruct (Nat.leb 10 (JsSet.size (selectedSymbols s))); [now apply same_timers_emit|].
  eapply same_timers_trans; [|now apply same_timers_emit].
  eapply same_timers_trans; [|apply same_timers_updateDisplay].
  split; reflexivity.
Qed.

Lemma same_timers_removeSymbol symbol s : same_timers s (removeSymbol symbol s).
Proof.
  unfold removeSymbol, showToast.
  eapply same_timers_trans; [|now apply same_timers_emit].
  eapply same_timers_trans; [|apply same_timers_updateChart].
  eapply same_timers_trans; [|apply same_timers_updateDisplay].
  split; reflexivity.
Qed.

Lemma same_timers_handleClear s : same_timers s (handleClear s).
Proof.
  unfold handleClear, showToast.
  eapply same_timers_trans; [|now apply same_timers_emit].
  eapply same_timers_trans; [|now apply same_timers_emit].
  eapply same_timers_trans; [|apply same_timers_updateChart].
  eapply same_timers_trans; [|apply same_timers_updateDisplay].
  split; reflexivity.
Qed.

Lemma same_timers_setLoading b s : same_timers s (setLoading b s).
Proof.
  unfold setLoading. eapply same_timers_trans; [|now apply same_timers_emit].
  split; reflexivity.
Qed.

Lemma same_timers_demo_run symbols period s :
  same_timers s (demo_run host symbols period s).
Proof.
  unfold demo_run. destruct (generateDemoAnalysis host symbols period (world s)) as [d w].
  eapply same_timers_trans; [|apply same_timers_updateSummary].
  eapply same_timers_trans; [|apply same_timers_updateChart].
  split; reflexivity.
Qed.

Lemma same_timers_handleAnalyze s : same_timers s (fst (handleAnalyze host s)).
Proof.
  unfold handleAnalyze, showToast.
  destruct (Nat.eqb (JsSet.size (selectedSymbols s)) 0); cbn [fst];
    [now apply same_timers_emit|].
  destruct (truthy_string (apiBaseUrl (setLoading true s))); cbn [fst].
  - eapply same_timers_trans; [apply (same_timers_setLoading true)|].
    now apply same_timers_emit.
  - eapply same_timers_trans; [|apply same_timers_setLoading].
    eapply same_timers_trans; [|now apply same_timers_emit].
    eapply same_timers_trans; [|apply same_timers_demo_run].
    apply same_timers_setLoading.
Qed.

Lemma same_timers_resume symbols r s :
  same_timers s (handleAnalyze_resume host symbols r s).
Proof.
  destruct r as [d|]; unfold handleAnalyze_resume, showToast.
  - eapply same_timers_trans; [|apply same_timers_setLoading].
    eapply same_timers_trans; [|now apply same_timers_emit].
    eapply same_timers_trans; [|apply same_timers_updateSummary].
    eapply same_timers_trans; [|apply same_timers_updateChart].
    split; reflexivity.
  - eapply same_timers_trans; [|apply same_timers_setLoading].
    eapply same_timers_trans; [|apply same_timers_demo_run].
    now apply same_timers_emit.
Qed.

(** [applySettings] stops the interval it holds before it starts one. *)
Lemma applySettings_timer_ok s : timer_ok s -> timer_ok (applySettings s).
Proof.
  unfold timer_ok, applySettings. intros H.
  destruct (refreshTimer s) eqn:T.
  - cbn [settings selectedSymbols with_refreshTimer emit].
    destruct (truthy _ && _); cbn [effects refreshTimer with_refreshTimer emit];
      rewrite ?live_timers_snoc, H; reflexivity.
  - destruct (truthy _ && _); cbn [effects refreshTimer with_refreshTimer emit];
      rewrite ?live_timers_snoc, ?H, ?T; reflexivity.
Qed.

Lemma saveSettings_finish_timer_ok s : timer_ok s -> timer_ok (saveSettings_finish s).
Proof.
  intros H. unfold saveSettings_finish, showToast.
  eapply same_timers_timer_ok; [|apply applySettings_timer_ok, H].
  eapply same_timers_trans; now apply same_timers_emit.
Qed.

Lemma init_finish_timer_ok s : timer_ok s -> timer_ok (init_finish s).
Proof.
  intros H. unfold init_finish, showToast.
  eapply same_timers_timer_ok; [|apply applySettings_timer_ok, H].
  now apply same_timers_emit.
Qed.

Lemma saveSettings_timer_ok apiUrl autoRefresh refreshInterval s :
  timer_ok s -> timer_ok (fst (saveSettings apiUrl autoRefresh refreshInterval s)).
Proof.
  intros H. unfold saveSettings.
  destruct (truthy_string (Some apiUrl)); cbn [fst].
  - eapply same_timers_timer_ok; [|exact H].
    eapply same_timers_trans; [|now apply same_timers_emit]. split; reflexivity.
  - apply saveSettings_finish_timer_ok. exact H.
Qed.

Lemma step_timer_ok rt ev : timer_ok (app rt) -> timer_ok (app (step host rt ev)).
Proof.
  intros Inv.
  destruct ev as [symbol|symbol| | | |k r|apiUrl autoRefresh refreshInterval|value|value];
    cbn [step app].
  - eapply same_timers_timer_ok; [apply same_timers_addSymbol | exact Inv].
  - eapply same_timers_timer_ok; [apply same_timers_removeSymbol | exact Inv].
  - eapply same_timers_timer_ok; [apply same_timers_handleClear | exact Inv].
  - destruct (isLoading (app rt)); [assumption|]. rewrite app_suspend.
    eapply same_timers_timer_ok; [apply same_timers_handleAnalyze | exact Inv].
  - destruct (refreshTimer (app rt)) eqn:T; [|assumption]. rewrite app_suspend.
    eapply same_timers_timer_ok; [apply same_timers_handleAnalyze | exact Inv].
  - destruct (nth_error (pending rt) k) as [[symbols| |]|]; cbn [app resume]; [| | |assumption].
    + eapply same_timers_timer_ok; [apply same_timers_resume | exact Inv].
    + now apply saveSettings_finish_timer_ok.
    + now apply init_finish_timer_ok.
  - rewrite app_suspend. now apply saveSettings_timer_ok.
  - unfold handleChartTypeChange.
    destruct (Nat.ltb 0 (JsMap.size (chartData (with_chart_type value (app rt))))).
    + eapply same_timers_timer_ok; [apply same_timers_updateChart | exact Inv].
    + exact Inv.
  - exact Inv.
Qed.

Lemma run_timer_ok (evs : list Event) :
  forall rt, timer_ok (app rt) -> timer_ok (app (run host rt evs)).
Proof.
  induction evs as [|ev evs IH]; intros rt Inv; simpl; [assumption|].
  apply IH. now apply step_timer_ok.
Qed.

(** X5. At most one auto-refresh interval runs at any time. From a state
    in which the timer flag tells whether an interval runs, after every
    sequence of events the number of intervals started and not stopped is
    one when the flag is set and none otherwise: [applySettings] always
    stops the interval it holds before it starts another, and nothing
    else starts or stops one. *)
Theorem X5_at_most_one_refresh_timer (rt : Runtime) (evs : list Event) :
  timer_ok (app rt) ->
  live_timers (effects (app (run host rt evs)))
  = (if refreshTimer (app (run host rt evs)) then 1 else 0)
  /\ live_timers (effects (app (run host rt evs))) <= 1.
Proof.
  intros Inv. pose proof (run_timer_ok evs rt Inv) as H. unfold timer_ok in H.
  split; [exact H|]. rewrite H. destruct (refreshTimer _); lia.
Qed.

End TimerFacts.

Lemma X5_witness :
  live_timers (effects (app (run (still_host 0) online_runtime
                               (overlap_trace
                                ++ [SaveSettings api_example true (Some 60%Z);
                                    Settle 2 Threw]))))
  = (if refreshTimer (app (run (still_host 0) online_runtime
                             (overlap_trace
                              ++ [SaveSettings api_example true (Some 60%Z);
                                  Settle 2 Threw])))
     then 1 else 0)
  /\ live_timers (effects (app (run (still_host 0) online_runtime
                                  (overlap_trace
                                   ++ [SaveSettings api_example true (Some 60%Z);
                                       Settle 2 Threw]))))
     <= 1.
Proof.
  apply (X5_at_most_one_refresh_timer (still_host 0) online_runtime
           (overlap_trace ++ [SaveSettings api_example true (Some 60%Z); Settle 2 Threw])).
  reflexivity.
Defined.

(** Saving twice with auto-refresh on: the second save stops the first
    interval and starts its own. *)
Example resave_restarts_timer :
  filter timer_effect
    (effects (app (run (still_host 0) online_runtime
                     (overlap_trace
                      ++ [SaveSettings api_example true (Some 60%Z); Settle 2 Threw]))))
  = [ SetInterval (JsObject.Own (JSON.Number 300)); ClearInterval;
      SetInterval (JsObject.Own (JSON.Number 60)) ].
Proof. vm_compute. reflexivity. Qed.

Lemma JsMap_get_set_other {V : Type} (m : JsMap.t V) k k' v :
  k' <> k -> JsMap.get (JsMap.set m k v) k' = JsMap.get m k'.
Proof.
  intros N. induction m as [|[k0 v0] m IH]; simpl.
  - destruct (String.eqb_spec k' k); [contradiction | reflexivity].
  - destruct (String.eqb_spec k k0) as [->|N0]; simpl.
    + destruct (String.eqb_spec k' k0); [contradiction | reflexivity].
    + destruct (String.eqb_spec k' k0); [reflexivity | exact IH].
Qed.

Lemma refreshTimer_applySettings s :
  refreshTimer (applySettings s)
  = truthy (JsObject.get (settings s) "autoRefresh")
    && Nat.ltb 0 (JsSet.size (selectedSymbols s)).
Proof.
  unfold applySettings.
  destruct (refreshTimer s) eqn:T;
    cbn [settings selectedSymbols with_refreshTimer emit];
    destruct (truthy _ && _); cbn [refreshTimer with_refreshTimer emit]; congruence.
Qed.

(** The flag [saveSettings] has written is the one read back, whatever
    else the settings object held. *)
Lemma autoRefresh_after_saveSettings apiUrl autoRefresh refreshInterval s :
  JsObject.get (settings (fst (saveSettings apiUrl autoRefresh refreshInterval s)))
    "autoRefresh"
  = JsObject.Own (JSON.Bool autoRefresh).
Proof.
  rewrite settings_saveSettings. unfold JsObject.get, JsObject.assign. cbn [String.eqb Ascii.eqb Bool.eqb].
  rewrite JsMap_get_set_other by discriminate. now rewrite JsMap_get_set_same.
Qed.

Section SettingsFrames.
Variable host : Host.

Lemma settings_emit e s : settings (emit e s) = settings s.
Proof. reflexivity. Qed.

Lemma settings_setLoading b s : settings (setLoading b s) = settings s.
Proof. reflexivity. Qed.

Lemma settings_updateDisplay s :
  settings (updateSelectedSymbolsDisplay s) = settings s.
Proof.
  unfold updateSelectedSymbolsDisplay.
  destruct (Nat.eqb (JsSet.size (selectedSymbols s)) 0); reflexivity.
Qed.

Lemma settings_updateSummary s : settings (updatePerformanceSummary s) = settings s.
Proof.
  unfold updatePerformanceSummary.
  destruct (Nat.eqb (JsMap.size (chartData s)) 0); reflexivity.
Qed.

Lemma settings_addSymbol symbol s : settings (addSymbol symbol s) = settings s.
Proof.
  unfold addSymbol.
  destruct (JsSet.has (selectedSymbols s) symbol); [reflexivity|].
  destruct (Nat.leb 10 (JsSet.size (selectedSymbols s))); [reflexivity|].
  unfold showToast. now rewrite settings_emit, settings_updateDisplay.
Qed.

Lemma settings_removeSymbol symbol s : settings (removeSymbol symbol s) = settings s.
Proof.
  unfold removeSymbol, showToast.
  now rewrite settings_emit, settings_updateChart, settings_updateDisplay.
Qed.

Lemma settings_handleClear s : settings (handleClear s) = settings s.
Proof.
  unfold handleClear, showToast.
  now rewrite !settings_emit, settings_updateChart, settings_updateDisplay.
Qed.

Lemma settings_demo_run symbols period s :
  settings (demo_run host symbols period s) = settings s.
Proof.
  unfold demo_run. destruct (generateDemoAnalysis host symbols period (world s)) as [d w].
  now rewrite settings_updateSummary, settings_updateChart.
Qed.

Lemma settings_handleAnalyze s : settings (fst (handleAnalyze host s)) = settings s.
Proof.
  unfold handleAnalyze.
  destruct (Nat.eqb (JsSet.size (selectedSymbols s)) 0); [reflexivity|].
  destruct (truthy_string (apiBaseUrl (setLoading true s))); [reflexivity|].
  cbn [fst]. unfold showToast.
  now rewrite settings_setLoading, settings_emit, settings_demo_run.
Qed.

Lemma settings_resume p r s : settings (resume host p r s) = settings s.
Proof.
  destruct p as [symbols| |]; cbn [resume].
  - destruct r as [d|]; unfold handleAnalyze_resume, showToast.
    + now rewrite settings_setLoading, settings_emit, settings_updateSummary,
        settings_updateChart.
    + now rewrite settings_setLoading, settings_demo_run.
  - unfold saveSettings_finish, showToast.
    now rewrite !settings_emit, settings_applySettings.
  - unfold init_finish, showToast.
    now rewrite !settings_emit, settings_applySettings.
Qed.

(** Only a save writes the settings object. *)
Lemma settings_step (rt : Runtime) (ev : Event) :
  saves_settings ev = false ->
  settings (app (step host rt ev)) = settings (app rt).
Proof.
  intros H.
  destruct ev as [symbol|symbol| | | |k r|apiUrl autoRefresh refreshInterval|value|value];
    try discriminate H; cbn [step app].
  - apply settings_addSymbol.
  - apply settings_removeSymbol.
  - apply settings_handleClear.
  - destruct (isLoading (app rt)); [reflexivity|].
    rewrite app_suspend. apply settings_handleAnalyze.
  - destruct (refreshTimer (app rt)); [|reflexivity].
    rewrite app_suspend. apply settings_handleAnalyze.
  - destruct (nth_error (pending rt) k) as [p|]; cbn [app]; [|reflexivity].
    apply settings_resume.
  - unfold handleChartTypeChange.
    destruct (Nat.ltb 0 (JsMap.size (chartData (with_chart_type value (app rt))))).
    + now rewrite settings_updateChart.
    + reflexivity.
  - reflexivity.
Qed.

Lemma settings_run (evs : list Event) :
  Forall (fun ev => saves_settings ev = false) evs ->
  forall rt, settings (app (run host rt evs)) = settings (app rt).
Proof.
  induction 1 as [|ev evs H _ IH]; intros rt; [reflexivity|].
  cbn [run fold_left]. fold (run host (step host rt ev) evs).
  rewrite IH. now apply settings_step.
Qed.

Lemma refreshTimer_saveSettings_finish s :
  refreshTimer (saveSettings_finish s)
  = truthy (JsObject.get (settings s) "autoRefresh")
    && Nat.ltb 0 (JsSet.size (selectedSymbols s)).
Proof.
  unfold saveSettings_finish, showToast. cbn [refreshTimer emit].
  apply refreshTimer_applySettings.
Qed.

(** X6. A save ends with an auto-refresh interval running exactly when,
    at the moment it ends, the settings object has auto-refresh on and
    the selection is not empty. A save with an empty URL ends at once,
    on the check box of its own form. A save with a URL ends when its
    connection check returns; if no other save is made between the save
    and that moment, whatever else happens in between, the interval runs
    exactly when its own form had auto-refresh checked and the selection
    is not empty at that moment. (The settings object is shared: a save
    made in between writes its own check box into it.) *)
Theorem X6_save_settings_starts_timer_iff (apiUrl : string) (autoRefresh : bool)
  (refreshInterval : option Z) (rt : Runtime) (evs : list Event) (k : nat) (r : Outcome) :
  Forall (fun ev => saves_settings ev = false) evs ->
  nth_error
    (pending (run host (step host rt (SaveSettings apiUrl autoRefresh refreshInterval)) evs))
    k = Some AwaitSettings ->
  refreshTimer
    (app (step host
            (run host (step host rt (SaveSettings apiUrl autoRefresh refreshInterval)) evs)
            (Settle k r)))
  = autoRefresh
    && Nat.ltb 0
         (JsSet.size
            (selectedSymbols
               (app (run host (step host rt (SaveSettings apiUrl autoRefresh refreshInterval))
                       evs))))
  /\ refreshTimer (app (step host rt (SaveSettings "" autoRefresh refreshInterval)))
     = autoRefresh && Nat.ltb 0 (JsSet.size (selectedSymbols (app rt)))
  /\ (forall s,
        refreshTimer (saveSettings_finish s)
        = truthy (JsObject.get (settings s) "autoRefresh")
          && Nat.ltb 0 (JsSet.size (selectedSymbols s))).
Proof.
  intros Hevs Hk. split; [|split].
  - set (saved := step host rt (SaveSettings apiUrl autoRefresh refreshInterval)) in *.
    set (rt' := run host saved evs) in *.
    assert (E : settings (app rt')
                = settings (fst (saveSettings apiUrl autoRefresh refreshInterval (app rt)))).
    { unfold rt'. rewrite (settings_run evs Hevs). unfold saved. cbn [step].
      now rewrite app_suspend. }
    unfold step at 1. rewrite Hk. cbn [app resume].
    rewrite refreshTimer_saveSettings_finish, E, autoRefresh_after_saveSettings.
    reflexivity.
  - cbn [step]. rewrite app_suspend.
    pose proof (autoRefresh_after_saveSettings "" autoRefresh refreshInterval (app rt)) as G.
    rewrite settings_saveSettings in G.
    unfold saveSettings. cbn [truthy_string fst].
    rewrite refreshTimer_saveSettings_finish.
    cbn [settings selectedSymbols with_localStorage with_settings with_apiBaseUrl].
    rewrite G. reflexivity.
  - apply refreshTimer_saveSettings_finish.
Qed.

End SettingsFrames.

Lemma X6_witness :
  refreshTimer
    (app (step (still_host 0)
            (run (still_host 0)
               (step (still_host 0) {| app := analysed_state; pending := [] |}
                  (SaveSettings api_example true (Some 60%Z)))
               [RemoveChip "MSFT"; ClickAnalyze])
            (Settle 0 Threw)))
  = true
    && Nat.ltb 0
         (JsSet.size
            (selectedSymbols
               (app (run (still_host 0)
                       (step (still_host 0) {| app := analysed_state; pending := [] |}
                          (SaveSettings api_example true (Some 60%Z)))
                       [RemoveChip "MSFT"; ClickAnalyze]))))
  /\ refreshTimer (app (step (still_host 0) {| app := analysed_state; pending := [] |}
                          (SaveSettings "" true (Some 60%Z))))
     = true && Nat.ltb 0 (JsSet.size (selectedSymbols
                                        (app {| app := analysed_state; pending := [] |})))
  /\ (forall s,
        refreshTimer (saveSettings_finish s)
        = truthy (JsObject.get (settings s) "autoRefresh")
          && Nat.ltb 0 (JsSet.size (selectedSymbols s))).
Proof.
  apply (X6_save_settings_starts_timer_iff (still_host 0) api_example true (Some 60%Z)
           {| app := analysed_state; pending := [] |} [RemoveChip "MSFT"; ClickAnalyze]
           0 Threw).
  - repeat constructor.
  - reflexivity.
Defined.

(** A save made while another waits for its connection check overrides
    it: the first form had auto-refresh checked and a symbol is selected,
    yet no interval runs when the first save ends, nor when the second
    does. *)
Example later_save_overrides_waiting_save :
  refreshTimer
    (app (run (still_host 0) {| app := analysed_state; pending := [] |}
            [ SaveSettings api_example true (Some 60%Z);
              SaveSettings api_example false (Some 60%Z);
              Settle 0 Threw ])) = false
  /\ refreshTimer
       (app (run (still_host 0) {| app := analysed_state; pending := [] |}
               [ SaveSettings api_example true (Some 60%Z);
                 SaveSettings api_example false (Some 60%Z);
                 Settle 0 Threw; Settle 0 Threw ])) = false
  /\ Nat.ltb 0 (JsSet.size (selectedSymbols analysed_state)) = true.
Proof. repeat split; vm_compute; reflexivity. Qed.

Example save_with_empty_selection_stops_timer :
  refreshTimer (fst (saveSettings "" true (Some 60%Z) fresh_state)) = false
  /\ refreshTimer (fst (saveSettings "" false (Some 60%Z) analysed_state)) = false
  /\ refreshTimer (fst (saveSettings "" true (Some 60%Z) analysed_state)) = true.
Proof. repeat split; reflexivity. Qed.

(** ** The loading flag *)

Section LoadingFacts.
Variable host : Host.

Lemma isLoading_demo_run symbols period s :
  isLoading (demo_run host symbols period s) = isLoading s.
Proof.
  unfold demo_run. destruct (generateDemoAnalysis host symbols period (world s)) as [d w].
  unfold updatePerformanceSummary, updateChart, store_chart_data.
  repeat match goal with
         | |- context [if ?c then _ else _] => destruct c
         | |- context [let '(_, _) := ?p in _] => destruct p
         end; reflexivity.
Qed.

Lemma isLoading_resume symbols r s :
  isLoading (handleAnalyze_resume host symbols r s) = false.
Proof. destruct r; reflexivity. Qed.

(** X7. [handleAnalyze] turns the loading flag on when it runs and every
    way out of it turns the flag off. After the call the flag is on
    exactly when a request has been sent and is awaited (an empty
    selection leaves the flag as it was); when the request of a run ends,
    with a response or with a failure, the flag is off, also while the
    request of another run is still awaited. *)
Theorem X7_loading_flag_follows_the_request (rt : Runtime) (k : nat)
  (symbols : list string) (r : Outcome) :
  nth_error (pending rt) k = Some (AwaitAnalyze symbols) ->
  isLoading (app (step host rt (Settle k r))) = false
  /\ (forall s,
        isLoading (fst (handleAnalyze host s))
        = if Nat.eqb (JsSet.size (selectedSymbols s)) 0 then isLoading s
          else truthy_string (apiBaseUrl s))
  /\ (forall s,
        snd (handleAnalyze host s)
        = if Nat.eqb (JsSet.size (selectedSymbols s)) 0 then None
          else if truthy_string (apiBaseUrl s)
               then Some (AwaitAnalyze (JsSet.to_array (selectedSymbols s)))
               else None).
Proof.
  intros H. split; [|split].
  - cbn [step]. rewrite H. cbn [app resume]. apply isLoading_resume.
  - intros s. unfold handleAnalyze.
    destruct (Nat.eqb (JsSet.size (selectedSymbols s)) 0); [reflexivity|].
    change (apiBaseUrl (setLoading true s)) with (apiBaseUrl s).
    destruct (truthy_string (apiBaseUrl s)); reflexivity.
  - intros s. unfold handleAnalyze.
    destruct (Nat.eqb (JsSet.size (selectedSymbols s)) 0); [reflexivity|].
    change (apiBaseUrl (setLoading true s)) with (apiBaseUrl s).
    destruct (truthy_string (apiBaseUrl s)); reflexivity.
Qed.

(** X8. The bound and the distinctness of the selection hold across
    every event of the page, not only across add and remove calls: from
    a selection of at most 10 distinct symbols, any sequence of
    selections, removals, clears, analysis runs, responses, timer ticks,
    settings saves and control changes ends in such a selection. *)
Theorem X8_selection_bound_across_all_events (rt : Runtime) (evs : list Event) :
  selection_ok (app rt) ->
  JsSet.size (selectedSymbols (app (run host rt evs))) <= 10
  /\ NoDup (selectedSymbols (app (run host rt evs))).
Proof. intros H. now apply run_selection_ok. Qed.

End LoadingFacts.

Lemma X7_witness :
  isLoading (app (step (still_host 0) (run (still_host 0) online_runtime overlap_trace)
                    (Settle 0 Threw))) = false
  /\ (forall s,
        isLoading (fst (handleAnalyze (still_host 0) s))
        = if Nat.eqb (JsSet.size (selectedSymbols s)) 0 then isLoading s
          else truthy_string (apiBaseUrl s))
  /\ (forall s,
        snd (handleAnalyze (still_host 0) s)
        = if Nat.eqb (JsSet.size (selectedSymbols s)) 0 then None
          else if truthy_string (apiBaseUrl s)
               then Some (AwaitAnalyze (JsSet.to_array (selectedSymbols s)))
               else None).
Proof.
  apply (X7_loading_flag_follows_the_request (still_host 0)
           (run (still_host 0) online_runtime overlap_trace) 0 ["AAPL"] Threw).
  reflexivity.
Defined.

(** One request is still awaited and the button is enabled again. *)
Example loading_off_while_a_request_is_out :
  isLoading (app (run (still_host 0) online_runtime (overlap_trace ++ [Settle 0 Threw])))
  = false
  /\ pending (run (still_host 0) online_runtime (overlap_trace ++ [Settle 0 Threw]))
     = [AwaitAnalyze ["AAPL"]].
Proof. split; reflexivity. Qed.

Lemma X8_witness :
  JsSet.size (selectedSymbols
                (app (run (still_host 0) online_runtime
                        (overlap_trace ++ map SelectSuggestion eleven_symbols)))) <= 10
  /\ NoDup (selectedSymbols
              (app (run (still_host 0) online_runtime
                      (overlap_trace ++ map SelectSuggestion eleven_symbols)))).
Proof.
  apply (X8_selection_bound_across_all_events (still_host 0) online_runtime
           (overlap_trace ++ map SelectSuggestion eleven_symbols)).
  split; [apply Nat.leb_le; reflexivity | constructor].
Defined.

(** ** Stamps of the synthetic series *)

Lemma nth_error_daily_stamps t d n j :
  j < n ->
  nth_error (daily_stamps t d n) j = Some (t - (d - Z.of_nat j) * DAY_MS)%Z.
Proof.
  intros H. unfold daily_stamps.
  rewrite nth_error_map, nth_error_seq.
  replace (j <? n)%nat with true by (symmetry; apply Nat.ltb_lt; exact H).
  reflexivity.
Qed.

Lemma last_daily_stamps t d n :
  last (daily_stamps t d (S n)) 0%Z = (t - (d - Z.of_nat n) * DAY_MS)%Z.
Proof.
  unfold daily_stamps. rewrite seq_S, map_app. simpl. apply last_last.
Qed.

Section StampFacts.
Variable host : Host.

Lemma demo_points_daily_stamps t symbol d w :
  (forall k, Date_now host k = t) ->
  map timestamp_ms (fst (demo_points host symbol (VNumber d) w))
  = daily_stamps t d (turns d).
Proof.
  intros Hclock. destruct (demo_points_number host symbol d w) as [Hlen Hts].
  apply nth_error_ext. intros j. destruct (Nat.lt_ge_cases j (turns d)) as [L|G].
  - rewrite Hts, Hclock, nth_error_daily_stamps by assumption. reflexivity.
  - transitivity (@None Z); [|symmetry]; apply nth_error_None.
    + rewrite length_map. lia.
    + unfold daily_stamps. rewrite length_map, length_seq. exact G.
Qed.

(** X9. With a clock that reads the same time [t] throughout the call and
    a period token that is not a property name of [Object.prototype],
    every synthetic series is anchored at its start: its first point is
    stamped exactly [days] days before [t], the stamps step by one day,
    and the newest point is [days - n + 1] days before [t], where [n] is
    the number of points, min(50, days). A period longer than 50 days
    thus ends long before the current time. *)
Theorem X9_series_starts_days_before_now (t : Z) (symbols : list string)
  (period : string) (w : World) (symbol : string) (pts : list SeriesPoint) :
  (forall k, Date_now host k = t) ->
  JsObject.inherited period = false ->
  In (symbol, pts)
     (JsObject.entries (data (fst (generateDemoAnalysis host symbols period w)))) ->
  map timestamp_ms pts
  = daily_stamps t (spec_dayCount period) (Nat.min 50 (Z.to_nat (spec_dayCount period)))
  /\ hd 0%Z (map timestamp_ms pts) = (t - spec_dayCount period * DAY_MS)%Z
  /\ last (map timestamp_ms pts) 0%Z
     = (t - (spec_dayCount period
             - Z.of_nat (Nat.min 50 (Z.to_nat (spec_dayCount period))) + 1) * DAY_MS)%Z.
Proof.
  intros Hclock Hperiod Hin.
  apply generateDemoAnalysis_entries in Hin. destruct Hin as (_ & w' & ->).
  rewrite (getPeriodDays_spec period Hperiod), (demo_points_daily_stamps t) by assumption.
  rewrite turns_spec_dayCount.
  pose proof (spec_dayCount_positive period) as Hpos.
  destruct (Nat.min 50 (Z.to_nat (spec_dayCount period))) as [|n] eqn:E; [lia|].
  split; [reflexivity | split].
  - unfold daily_stamps. simpl. f_equal. lia.
  - rewrite last_daily_stamps. f_equal. lia.
Qed.

(** X10. With a clock that never runs backwards, the stamps of every
    synthetic series increase strictly, for every list of symbols and
    every period token, although the clock is read once per point. *)
Theorem X10_stamps_increase_with_monotone_clock (symbols : list string)
  (period : string) (w : World) (symbol : string) (pts : list SeriesPoint) :
  (forall a b, a <= b -> (Date_now host a <= Date_now host b)%Z) ->
  In (symbol, pts)
     (JsObject.entries (data (fst (generateDemoAnalysis host symbols period w)))) ->
  StronglySorted Z.lt (map timestamp_ms pts).
Proof.
  intros Hclock Hin.
  apply generateDemoAnalysis_entries in Hin. destruct Hin as (_ & w' & ->).
  destruct (getPeriodDays period) as [d|].
  - now apply timestamps_increase.
  - rewrite demo_points_object. constructor.
Qed.

(** X11. A period token that is the name of a property of
    [Object.prototype] makes the day count a function, the loop bound
    NaN, and every synthetic series empty, while the result still
    reports success. *)
Theorem X11_prototype_named_period_gives_empty_series (symbols : list string)
  (period : string) (w : World) :
  JsObject.inherited period = true ->
  success (fst (generateDemoAnalysis host symbols period w)) = true
  /\ forall symbol pts,
       In (symbol, pts)
          (JsObject.entries (data (fst (generateDemoAnalysis host symbols period w)))) ->
       pts = [].
Proof.
  intros H. split; [apply generateDemoAnalysis_success|].
  intros symbol pts Hin.
  apply generateDemoAnalysis_entries in Hin. destruct Hin as (_ & w' & ->).
  rewrite (getPeriodDays_inherited period H). apply demo_points_object.
Qed.

End StampFacts.

Lemma X9_witness :
  map timestamp_ms (fst (demo_points (still_host 1700000000000) "AAPL"
                           (getPeriodDays "2Y") World0))
  = daily_stamps 1700000000000 (spec_dayCount "2Y")
      (Nat.min 50 (Z.to_nat (spec_dayCount "2Y")))
  /\ hd 0%Z (map timestamp_ms (fst (demo_points (still_host 1700000000000) "AAPL"
                                     (getPeriodDays "2Y") World0)))
     = (1700000000000 - spec_dayCount "2Y" * DAY_MS)%Z
  /\ last (map timestamp_ms (fst (demo_points (still_host 1700000000000) "AAPL"
                                    (getPeriodDays "2Y") World0))) 0%Z
     = (1700000000000
        - (spec_dayCount "2Y"
           - Z.of_nat (Nat.min 50 (Z.to_nat (spec_dayCount "2Y"))) + 1) * DAY_MS)%Z.
Proof.
  apply (X9_series_starts_days_before_now (still_host 1700000000000) 1700000000000
           ["AAPL"] "2Y" World0 "AAPL").
  - intros k. reflexivity.
  - reflexivity.
  - vm_compute. left. reflexivity.
Defined.

(** For two years the newest of the 50 points is 681 days old. *)
Example two_years_end_681_days_ago :
  (1700000000000
   - (spec_dayCount "2Y" - Z.of_nat (Nat.min 50 (Z.to_nat (spec_dayCount "2Y"))) + 1)
     * DAY_MS)%Z
  = (1700000000000 - 681 * DAY_MS)%Z.
Proof. reflexivity. Qed.

Lemma X10_witness :
  StronglySorted Z.lt
    (map timestamp_ms (fst (demo_points (ticking_host 1700000000000) "AAPL"
                              (getPeriodDays "1w") World0))).
Proof.
  apply (X10_stamps_increase_with_monotone_clock (ticking_host 1700000000000)
           ["AAPL"] "1w" World0 "AAPL").
  - intros a b H. unfold ticking_host. cbn [Date_now]. lia.
  - vm_compute. left. reflexivity.
Defined.

Lemma X11_witness :
  success (fst (generateDemoAnalysis (still_host 0) ["AAPL"; "^GSPC"] "valueOf" World0))
  = true
  /\ forall symbol pts,
       In (symbol, pts)
          (JsObject.entries
             (data (fst (generateDemoAnalysis (still_host 0) ["AAPL"; "^GSPC"]
                           "valueOf" World0)))) ->
       pts = [].
Proof.
  apply (X11_prototype_named_period_gives_empty_series (still_host 0)
           ["AAPL"; "^GSPC"] "valueOf" World0).
  reflexivity.
Defined.

(** ** Colours and chart types *)

Lemma chart_series_colors chartType entries :
  chartType = "price" \/ chartType = "percentage" ->
  forall colorIndex acc,
    map color (chart_series chartType entries colorIndex acc)
    = map color acc ++ map palette_color (seq colorIndex (List.length entries)).
Proof.
  intros H. induction entries as [|[sym pts] entries IH]; intros colorIndex acc.
  - simpl. now rewrite app_nil_r.
  - cbn [chart_series List.length seq map]. rewrite IH.
    destruct H as [-> | ->]; cbn [String.eqb Ascii.eqb Bool.eqb];
      rewrite map_app, <- app_assoc; reflexivity.
Qed.

(** X12. For the chart types [price] and [percentage] the series number
    [i] (from 0, in the order of the chart data) takes the colour number
    [i mod 8] of the palette of eight: the ninth symbol is drawn in the
    colour of the first. *)
Theorem X12_series_colours_cycle_through_palette
  (chartData : JsMap.t (list SeriesPoint)) (chartType : string) :
  chartType = "price" \/ chartType = "percentage" ->
  option_map (map color) (series (generateChartOption chartData chartType))
  = Some (map palette_color (seq 0 (JsMap.size chartData)))
  /\ (forall i, palette_color (i + 8) = palette_color i).
Proof.
  intros H. split.
  - unfold generateChartOption. cbn [series option_map]. f_equal.
    unfold JsMap.entries, JsMap.size. now rewrite chart_series_colors.
  - intros i. unfold palette_color.
    replace (i + 8) with (i + 1 * 8) by lia. now rewrite Nat.Div0.mod_add.
Qed.

Lemma X12_witness :
  option_map (map color) (series (generateChartOption (chartData analysed_state) "price"))
  = Some (map palette_color (seq 0 (JsMap.size (chartData analysed_state))))
  /\ (forall i, palette_color (i + 8) = palette_color i).
Proof.
  apply (X12_series_colours_cycle_through_palette (chartData analysed_state) "price").
  left. reflexivity.
Defined.

(** X13. For a chart type that is neither [percentage] nor [price] the
    option built from chart data that is not empty has an empty list of
    series, under the title and the axis format of the price chart: the
    chart is redrawn blank. *)
Theorem X13_other_chart_type_draws_no_series
  (chartData : JsMap.t (list SeriesPoint)) (chartType : string) :
  chartType <> "percentage" ->
  chartType <> "price" ->
  series (generateChartOption chartData chartType) = Some []
  /\ text (title (generateChartOption chartData chartType)) = "Price Analysis"
  /\ axes (generateChartOption chartData chartType) = Some ("time", "value", "${value}").
Proof.
  intros H1 H2. apply String.eqb_neq in H1. apply String.eqb_neq in H2.
  unfold generateChartOption. cbn [series title text axes]. rewrite H1.
  repeat split. f_equal. now apply chart_series_other.
Qed.

Lemma X13_witness :
  series (generateChartOption (chartData analysed_state) "candlestick") = Some []
  /\ text (title (generateChartOption (chartData analysed_state) "candlestick"))
     = "Price Analysis"
  /\ axes (generateChartOption (chartData analysed_state) "candlestick")
     = Some ("time", "value", "${value}").
Proof.
  apply (X13_other_chart_type_draws_no_series (chartData analysed_state) "candlestick");
    discriminate.
Defined.

(** ** The performance summary *)

(** X14. The change shown on a performance card is never NaN: it is the
    percentage change of the last point of the series, and 0 when the
    series is empty or that value is NaN or zero. *)
Theorem X14_summary_change_is_never_nan (data : list SeriesPoint) :
  PrimFloat.is_nan (latest_change data) = false
  /\ latest_change [] = 0%float
  /\ (forall point,
        latest_change (data ++ [point])
        = if PrimFloat.is_nan (percentage_change point)
             || PrimFloat.is_zero (percentage_change point)
          then 0%float else percentage_change point).
Proof.
  assert (L : forall d point, latest_change (d ++ [point])
              = if PrimFloat.is_nan (percentage_change point)
                   || PrimFloat.is_zero (percentage_change point)
                then 0%float else percentage_change point).
  { intros d point. unfold latest_change. rewrite map_app. simpl map.
    now rewrite last_last. }
  split; [|split; [reflexivity | apply L]].
  destruct data as [|p data] using rev_ind; [reflexivity|].
  rewrite L. destruct (PrimFloat.is_nan (percentage_change p)) eqn:E; [reflexivity|].
  simpl. destruct (PrimFloat.is_zero (percentage_change p)); [reflexivity | exact E].
Qed.

(** ** Reading back what was stored *)

Section ReadBack.
Context {V : Type}.
Implicit Types (m l : JsMap.t V) (o : JsObject.t V) (k : string).

Lemma insert_by_index_perm (e : N * (string * V)) (l : list (N * (string * V))) :
  Permutation (JsObject.insert_by_index e l) (e :: l).
Proof.
  induction l as [|e' l IH]; simpl; [reflexivity|].
  destruct (fst e <=? fst e')%N; [reflexivity|].
  rewrite IH. apply perm_swap.
Qed.

(** [Object.entries] permutes the own properties. *)
Lemma JsObject_entries_perm o : Permutation (JsObject.entries o) o.
Proof.
  unfold JsObject.entries, JsObject.named_props.
  induction o as [|[k v] o IH]; simpl; [reflexivity|].
  destruct (JsObject.array_index k) as [n|]; simpl.
  - rewrite (Permutation_map snd (insert_by_index_perm (n, (k, v)) (JsObject.index_props o))).
    simpl. now constructor.
  - rewrite <- Permutation_middle. now constructor.
Qed.

Lemma JsMap_get_Some_In m k v : JsMap.get m k = Some v -> In (k, v) m.
Proof.
  induction m as [|[k0 v0] m IH]; simpl; [discriminate|].
  destruct (String.eqb_spec k k0) as [->|N].
  - intros [= ->]. now left.
  - intros H. right. now apply IH.
Qed.

Lemma JsMap_In_get m k v : NoDup (JsMap.keys m) -> In (k, v) m -> JsMap.get m k = Some v.
Proof.
  induction m as [|[k0 v0] m IH]; simpl; [intros _ []|].
  intros Hnd [H | H]; inversion Hnd as [|? ? Hn Hd]; subst.
  - inversion H; subst. now rewrite String.eqb_refl.
  - destruct (String.eqb_spec k k0) as [->|N].
    + exfalso. apply Hn. change k0 with (fst (k0, v)). now apply in_map.
    + now apply IH.
Qed.

(** With distinct keys, a read depends on the entries, not on their
    order. *)
Lemma JsMap_get_perm m l k :
  NoDup (JsMap.keys m) -> Permutation m l -> JsMap.get m k = JsMap.get l k.
Proof.
  intros Hnd P.
  assert (Hnd' : NoDup (JsMap.keys l)).
  { unfold JsMap.keys in *. eapply Permutation_NoDup; [|exact Hnd]. now apply Permutation_map. }
  destruct (JsMap.get m k) as [v|] eqn:E.
  - symmetry. apply JsMap_In_get; [assumption|].
    eapply Permutation_in; [exact P|]. now apply JsMap_get_Some_In.
  - destruct (JsMap.get l k) as [v|] eqn:E'; [|reflexivity].
    apply JsMap_get_Some_In in E'. apply (Permutation_in _ (Permutation_sym P)) in E'.
    apply (JsMap_In_get m k v Hnd) in E'. congruence.
Qed.

(** A run of [set] calls with distinct keys: each key reads its value,
    any other key reads what the map held. *)
Lemma JsMap_get_fold_set l :
  NoDup (JsMap.keys l) ->
  forall m k,
    JsMap.get (fold_left (fun a e => JsMap.set a (fst e) (snd e)) l m) k
    = match JsMap.get l k with
      | Some v => Some v
      | None => JsMap.get m k
      end.
Proof.
  induction l as [|[k0 v0] l IH]; intros Hnd m k; simpl; [reflexivity|].
  inversion Hnd as [|? ? Hn Hd]; subst. rewrite (IH Hd).
  destruct (String.eqb_spec k k0) as [->|N].
  - replace (JsMap.get l k0) with (@None V)
      by (symmetry; apply JsMap_get_None; exact Hn).
    apply JsMap_get_set_same.
  - destruct (JsMap.get l k); [reflexivity|]. now apply JsMap_get_set_other.
Qed.

End ReadBack.

Section StoredFacts.
Variable host : Host.

Lemma stored_get (d : JsObject.t (list SeriesPoint)) (k : string) :
  NoDup (map fst d) -> JsMap.get (stored d) k = JsMap.get d k.
Proof.
  intros Hnd. unfold stored.
  assert (Hnd' : NoDup (JsMap.keys (JsObject.entries d))).
  { unfold JsMap.keys. eapply Permutation_NoDup; [|exact Hnd].
    apply Permutation_map, Permutation_sym, JsObject_entries_perm. }
  rewrite (JsMap_get_fold_set _ Hnd'). simpl.
  rewrite (JsMap_get_perm (JsObject.entries d) d k Hnd' (JsObject_entries_perm d)).
  now destruct (JsMap.get d k).
Qed.

(** X15. When a remote response is stored, the chart data reads back,
    for every symbol, exactly the series the response holds for it, and
    nothing for a symbol the response does not name: whatever the chart
    data held before is gone. (The keys of a decoded JSON object are
    distinct.) *)
Theorem X15_response_is_read_back_from_chart_data (symbols : list string)
  (d : JsObject.t (list SeriesPoint)) (s : State) (k : string) :
  NoDup (map fst d) ->
  JsMap.get (chartData (handleAnalyze_resume host symbols (Responded d) s)) k
  = JsMap.get d k.
Proof.
  intros Hnd. rewrite chartData_resume_responded. now apply stored_get.
Qed.

End StoredFacts.

Lemma X15_witness :
  JsMap.get (chartData (handleAnalyze_resume (still_host 0) ["AAPL"]
                          (Responded first_response) analysed_state)) "MSFT"
  = JsMap.get first_response "MSFT".
Proof.
  apply (X15_response_is_read_back_from_chart_data (still_host 0) ["AAPL"]
           first_response analysed_state "MSFT").
  repeat constructor. intros [].
Defined.

(** ** Settings and the API URL across sessions *)

Lemma spread_keys (a b : JSON.Object) (k : string) :
  In k (JsMap.keys (spread a b)) <-> In k (JsObject.keys b) \/ In k (JsMap.keys a).
Proof.
  unfold spread. rewrite JsMap_fold_set_keys. unfold JsObject.keys. tauto.
Qed.

(** X16. Whatever the storage holds, the settings [loadSettings] returns
    have both fields, [autoRefresh] and [refreshInterval]: a missing or
    empty item and a text that cannot start a JSON value give the
    defaults, and a stored object is laid over the defaults. *)
Theorem X16_loaded_settings_have_both_fields (storage : JsMap.t string)
  (loaded : JSON.Object) :
  loadSettings storage = Some loaded ->
  In "autoRefresh" (JsMap.keys loaded) /\ In "refreshInterval" (JsMap.keys loaded).
Proof.
  unfold loadSettings.
  assert (D : In "autoRefresh" (JsMap.keys defaultSettings)
              /\ In "refreshInterval" (JsMap.keys defaultSettings))
    by (simpl; tauto).
  destruct (JsMap.get storage SETTINGS_KEY) as [saved|]; [|intros [= <-]; exact D].
  destruct (truthy_string (Some saved)); [|intros [= <-]; exact D].
  destruct (JSON.parse saved) as [v|o| |]; try (intros [= <-]; exact D).
  intros [= <-]. split; apply spread_keys; right; apply D.
Qed.

Lemma X16_witness :
  In "autoRefresh" (JsMap.keys (spread defaultSettings [("autoRefresh", JSON.Bool true)]))
  /\ In "refreshInterval"
       (JsMap.keys (spread defaultSettings [("autoRefresh", JSON.Bool true)])).
Proof.
  apply (X16_loaded_settings_have_both_fields
           [(SETTINGS_KEY, flag_only_text)]
           (spread defaultSettings [("autoRefresh", JSON.Bool true)])).
  reflexivity.
Defined.

(** A stored object with one field keeps the default of the other. *)
Example partial_settings_keep_default_interval :
  loadSettings [(SETTINGS_KEY, flag_only_text)]
  = Some [("autoRefresh", JSON.Bool true); ("refreshInterval", JSON.Number 300)].
Proof. reflexivity. Qed.

(** Corrupt text falls back to the defaults. *)
Example corrupt_settings_give_defaults :
  loadSettings [(SETTINGS_KEY, "<html>")] = Some defaultSettings
  /\ loadSettings [(SETTINGS_KEY, "")] = Some defaultSettings
  /\ loadSettings [] = Some defaultSettings.
Proof. repeat split; reflexivity. Qed.







(** Saved empty on a Netlify host: the next session has no API URL. *)
Example empty_url_is_not_read_back :
  option_map (fun rt => apiBaseUrl (app rt))
    (boot (localStorage (fst (saveSettings "" true (Some 60%Z) online_runtime.(app))))
       "gsmt.netlify.app" "https://gsmt.netlify.app" "1w" "percentage")
  = Some None
  /\ apiBaseUrl (fst (saveSettings "" true (Some 60%Z) online_runtime.(app))) = Some "".
Proof. split; reflexivity. Qed.

(** X18. [detectApiUrl] returns null, which starts the page in demo mode,
    exactly when no URL (or an empty one) is stored and the host name is
    neither localhost nor 127.0.0.1 and contains netlify. *)
Theorem X18_no_api_url_only_on_netlify (storage : JsMap.t string)
  (hostname origin : string) :
  detectApiUrl storage hostname origin = None
  <-> truthy_string (JsMap.get storage API_URL_KEY) = false
      /\ String.eqb hostname "localhost" = false
      /\ String.eqb hostname "127.0.0.1" = false
      /\ includes hostname "netlify" = true.
Proof.
  unfold detectApiUrl.
  destruct (JsMap.get storage API_URL_KEY) as [[|c r]|]; cbn [truthy_string];
    destruct (String.eqb hostname "localhost"), (String.eqb hostname "127.0.0.1"),
      (includes hostname "netlify"); cbn [orb];
    split; try discriminate; try tauto; intros (A & B & C & D); discriminate.
Qed.

(** ** The symbol catalogue *)

Lemma prefix_spec (sub t : string) :
  String.prefix sub t = true <-> exists post, t = (sub ++ post)%string.
Proof.
  revert t. induction sub as [|d sub IH]; intros t.
  - split; [intros _; now exists t | intros _; destruct t; reflexivity].
  - destruct t as [|e t]; simpl.
    + split; [discriminate | intros (post & E); discriminate].
    + destruct (Ascii.ascii_dec d e) as [->|N].
      * rewrite IH. split; intros (post & E); exists post; [now rewrite E | now injection E].
      * split; [discriminate | intros (post & E); injection E as E1 E2; congruence].
Qed.

(** [s.includes(sub)] holds exactly when [sub] stands somewhere in [s]. *)
Lemma includes_spec (s sub : string) :
  includes s sub = true <-> exists pre post, s = (pre ++ sub ++ post)%string.
Proof.
  induction s as [|c s IH]; cbn [includes].
  - rewrite orb_false_r, prefix_spec. split.
    + intros (post & E). now exists EmptyString, post.
    + intros (pre & post & E). destruct pre; [now exists post | discriminate].
  - rewrite orb_true_iff, prefix_spec, IH. split.
    + intros [(post & E) | (pre & post & ->)].
      * now exists EmptyString, post.
      * now exists (String c pre), post.
    + intros (pre & post & E). destruct pre as [|d pre].
      * left. now exists post.
      * right. simpl in E. injection E as -> ->. now exists pre, post.
Qed.

Section SearchFacts.
Variable toLowerCase : string -> string.

Lemma search_loop_spec (entries : list (string * Catalog.SymbolInfo)) (queryLower : string) :
  forall results,
    List.length results < 8 ->
    Catalog.search_loop toLowerCase entries queryLower results
    = firstn 8 (results ++ map Catalog.suggestion
                             (filter (Catalog.matches toLowerCase queryLower) entries)).
Proof.
  induction entries as [|e entries IH]; intros results H; cbn [Catalog.search_loop filter].
  - cbn [map]. rewrite app_nil_r. symmetry. apply firstn_all2. lia.
  - destruct (Catalog.matches toLowerCase queryLower e); [|now apply IH].
    cbn [map].
    replace (results ++ Catalog.suggestion e :: map Catalog.suggestion
                          (filter (Catalog.matches toLowerCase queryLower) entries))
      with ((results ++ [Catalog.suggestion e])
            ++ map Catalog.suggestion
                 (filter (Catalog.matches toLowerCase queryLower) entries))
      by (rewrite <- app_assoc; reflexivity).
    destruct (Nat.leb 8 (List.length (results ++ [Catalog.suggestion e]))) eqn:L.
    + apply Nat.leb_le in L. rewrite firstn_app.
      assert (E : List.length (results ++ [Catalog.suggestion e]) = 8).
      { rewrite length_app in L |- *. cbn [List.length] in L |- *. lia. }
      rewrite E, Nat.sub_diag, firstn_O, app_nil_r. symmetry. apply firstn_all2. lia.
    + apply Nat.leb_gt in L. now apply IH.
Qed.

Lemma searchSymbolsLocally_spec (query : string) (db : Catalog.t) :
  Catalog.searchSymbolsLocally toLowerCase query db
  = firstn 8 (map Catalog.suggestion
                (filter (Catalog.matches toLowerCase (toLowerCase query))
                   (JsMap.entries db))).
Proof.
  unfold Catalog.searchSymbolsLocally. rewrite search_loop_spec by (simpl; lia).
  reflexivity.
Qed.

(** X19. [searchSymbolsLocally] returns the first eight entries of the
    catalogue, in catalogue order, whose symbol or name contains the
    query without regard to case: its loop with the [break] computes the
    first eight of the matching entries, so it never returns more than
    eight suggestions. *)
Theorem X19_local_search_is_first_eight_matches (query : string) (db : Catalog.t) :
  Catalog.searchSymbolsLocally toLowerCase query db
  = firstn 8 (map Catalog.suggestion
                (filter (Catalog.matches toLowerCase (toLowerCase query))
                   (JsMap.entries db)))
  /\ List.length (Catalog.searchSymbolsLocally toLowerCase query db) <= 8.
Proof.
  pose proof (searchSymbolsLocally_spec query db) as E.
  split; [exact E|]. rewrite E. apply firstn_le_length.
Qed.

(** X20. Every suggestion of the local search stands for an entry of the
    catalogue and contains the lower-cased query in its lower-cased
    symbol or name; and when fewer than eight suggestions come back, no
    matching entry of the catalogue has been left out. *)
Theorem X20_local_search_sound_and_complete (query : string) (db : Catalog.t) :
  (forall r, In r (Catalog.searchSymbolsLocally toLowerCase query db) ->
     (exists info, In (Catalog.symbol r, info) db
                   /\ r = Catalog.suggestion (Catalog.symbol r, info))
     /\ ((exists pre post,
            toLowerCase (Catalog.symbol r) = (pre ++ toLowerCase query ++ post)%string)
         \/ (exists pre post,
               toLowerCase (Catalog.name r) = (pre ++ toLowerCase query ++ post)%string)))
  /\ (List.length (Catalog.searchSymbolsLocally toLowerCase query db) < 8 ->
      forall e, In e db ->
        Catalog.matches toLowerCase (toLowerCase query) e = true ->
        In (Catalog.suggestion e) (Catalog.searchSymbolsLocally toLowerCase query db)).
Proof.
  pose proof (searchSymbolsLocally_spec query db) as E. split.
  - intros r Hr. rewrite E in Hr.
    assert (Hin : In r (map Catalog.suggestion
                          (filter (Catalog.matches toLowerCase (toLowerCase query))
                             (JsMap.entries db)))).
    { revert Hr. generalize 8. intros n.
      generalize (map Catalog.suggestion
                    (filter (Catalog.matches toLowerCase (toLowerCase query))
                       (JsMap.entries db))).
      intros l. revert n. induction l as [|x l IHl]; intros [|n]; simpl; try tauto.
      intros [H | H]; [now left | right; now apply (IHl n)]. }
    apply in_map_iff in Hin. destruct Hin as ([k info] & <- & He).
    apply filter_In in He. destruct He as [He Hm]. split.
    + exists info. split; [exact He | reflexivity].
    + unfold Catalog.matches in Hm. apply orb_true_iff in Hm.
      destruct Hm as [Hm | Hm]; apply includes_spec in Hm; [left | right]; exact Hm.
  - intros Hlen e He Hm. rewrite E in Hlen |- *.
    rewrite firstn_all2.
    + apply in_map. apply filter_In. now split.
    + destruct (Nat.le_gt_cases
                  (List.length (map Catalog.suggestion
                                  (filter (Catalog.matches toLowerCase (toLowerCase query))
                                     (JsMap.entries db)))) 8) as [L|G]; [exact L|].
      exfalso. rewrite firstn_length_le in Hlen by lia. lia.
Qed.

End SearchFacts.

(** ** Loading the catalogue *)

Lemma JsMap_set_same_value {V : Type} (m : JsMap.t V) k v :
  JsMap.get m k = Some v -> JsMap.set m k v = m.
Proof.
  induction m as [|[k0 v0] m IH]; simpl; [discriminate|].
  destruct (String.eqb_spec k k0) as [->|N].
  - now intros [= ->].
  - intros H. now rewrite IH.
Qed.

Lemma JsMap_get_fold_other {V : Type} (l : list (string * V)) :
  forall m k, ~ In k (map fst l) ->
    JsMap.get (fold_left (fun a e => JsMap.set a (fst e) (snd e)) l m) k = JsMap.get m k.
Proof.
  induction l as [|[k0 v0] l IH]; intros m k H; simpl; [reflexivity|].
  simpl in H. rewrite IH by tauto. apply JsMap_get_set_other. intros ->. tauto.
Qed.

Lemma JsMap_get_fold_last {V : Type} (l : list (string * V)) :
  forall m k, In k (map fst l) ->
    exists v, In (k, v) l
              /\ JsMap.get (fold_left (fun a e => JsMap.set a (fst e) (snd e)) l m) k
                 = Some v.
Proof.
  induction l as [|[k0 v0] l IH]; intros m k H; simpl in *; [contradiction|].
  destruct (in_dec string_dec k (map fst l)) as [I|N].
  - destruct (IH (JsMap.set m k0 v0) k I) as (v & Hv & G). exists v. split; [now right|exact G].
  - destruct H as [->|H]; [|contradiction].
    exists v0. split; [now left|].
    rewrite JsMap_get_fold_other by exact N. apply JsMap_get_set_same.
Qed.

Lemma fold_left_set_map {V I : Type} (key : I -> string) (val : I -> V) (l : list I) :
  forall m,
    fold_left (fun a i => JsMap.set a (key i) (val i)) l m
    = fold_left (fun a e => JsMap.set a (fst e) (snd e)) (map (fun i => (key i, val i)) l) m.
Proof.
  induction l as [|i l IH]; intros m; simpl; [reflexivity|apply IH].
Qed.

(** What one category stores, as pairs of key and value. *)
Lemma load_category_pairs (db : Catalog.t) (e : string * list Catalog.SymbolInfo) :
  Catalog.load_category db e
  = fold_left (fun a p => JsMap.set a (fst p) (snd p))
      (category_pairs e) db.
Proof.
  unfold Catalog.load_category, category_pairs. apply fold_left_set_map.
Qed.

Lemma load_categories_pairs (es : list (string * list Catalog.SymbolInfo)) :
  forall db,
    fold_left Catalog.load_category es db
    = fold_left (fun a p => JsMap.set a (fst p) (snd p))
        (flat_map category_pairs es) db.
Proof.
  induction es as [|e es IH]; intros db; simpl; [reflexivity|].
  rewrite fold_left_app, <- load_category_pairs. apply IH.
Qed.

Lemma loadFallbackSymbols_pairs (db : Catalog.t) :
  Catalog.loadFallbackSymbols db
  = fold_left (fun a p => JsMap.set a (fst p) (snd p))
      (map (fun info => (Catalog.symbol info, info)) Catalog.fallbackSymbols) db.
Proof.
  unfold Catalog.loadFallbackSymbols. apply fold_left_set_map.
Qed.

Lemma loadFallbackSymbols_get (db : Catalog.t) (info : Catalog.SymbolInfo) :
  In info Catalog.fallbackSymbols ->
  JsMap.get (Catalog.loadFallbackSymbols db) (Catalog.symbol info) = Some info.
Proof.
  intros H. rewrite loadFallbackSymbols_pairs, JsMap_get_fold_set.
  - simpl in H.
    repeat (destruct H as [<-|H]; [reflexivity|]). contradiction.
  - unfold JsMap.keys. simpl.
    repeat (constructor; [simpl; intros H'; repeat (destruct H' as [H'|H']; [discriminate H'|]);
                          contradiction|]).
    constructor.
Qed.

Lemma loadFallbackSymbols_keys (db : Catalog.t) (k : string) :
  In k (JsMap.keys (Catalog.loadFallbackSymbols db))
  <-> In k (map Catalog.symbol Catalog.fallbackSymbols) \/ In k (JsMap.keys db).
Proof.
  rewrite loadFallbackSymbols_pairs, JsMap_fold_set_keys, map_map. reflexivity.
Qed.

(** X21. [loadFallbackSymbols] makes each of its six samples readable
    under its symbol, leaves the entry of every other symbol as it was,
    removes no key, and running it a second time changes nothing. *)
Theorem X21_fallback_symbols_are_stored_once (db : Catalog.t) :
  (forall info, In info Catalog.fallbackSymbols ->
     JsMap.get (Catalog.loadFallbackSymbols db) (Catalog.symbol info) = Some info)
  /\ (forall k, ~ In k (map Catalog.symbol Catalog.fallbackSymbols) ->
        JsMap.get (Catalog.loadFallbackSymbols db) k = JsMap.get db k)
  /\ (forall k, In k (JsMap.keys db) ->
        In k (JsMap.keys (Catalog.loadFallbackSymbols db)))
  /\ Catalog.loadFallbackSymbols (Catalog.loadFallbackSymbols db)
     = Catalog.loadFallbackSymbols db.
Proof.
  split; [|split; [|split]].
  - apply loadFallbackSymbols_get.
  - intros k H. rewrite loadFallbackSymbols_pairs. apply JsMap_get_fold_other.
    now rewrite map_map.
  - intros k H. apply loadFallbackSymbols_keys. now right.
  - set (db' := Catalog.loadFallbackSymbols db).
    assert (G : forall info, In info Catalog.fallbackSymbols ->
                  JsMap.get db' (Catalog.symbol info) = Some info)
      by apply loadFallbackSymbols_get.
    unfold Catalog.loadFallbackSymbols at 1.
    revert G. generalize Catalog.fallbackSymbols as l. generalize db' as m.
    intros m l. induction l as [|info l IH]; intros G; simpl; [reflexivity|].
    rewrite JsMap_set_same_value by (apply G; now left).
    apply IH. intros i Hi. apply G. now right.
Qed.

(** X22. Whatever the API URL and however the request ends,
    [loadSymbolsDatabase] removes no symbol from the catalogue. *)
Theorem X22_loading_the_catalogue_removes_nothing
  (apiBaseUrl : option string) (r : Catalog.Outcome) (db : Catalog.t) (k : string)
  (H : In k (JsMap.keys db)) :
  In k (JsMap.keys (Catalog.loadSymbolsDatabase apiBaseUrl r db)).
Proof.
  unfold Catalog.loadSymbolsDatabase.
  destruct (truthy_string apiBaseUrl); [destruct r as [categories|]|].
  - rewrite load_categories_pairs. apply JsMap_fold_set_keys. now right.
  - apply loadFallbackSymbols_keys. now right.
  - apply loadFallbackSymbols_keys. now right.
Qed.

Lemma X22_witness :
  In "MSFT"%string
    (JsMap.keys (Catalog.loadSymbolsDatabase (Some "http://localhost:8000"%string)
                   Catalog.Threw one_entry)).
Proof.
  apply (X22_loading_the_catalogue_removes_nothing
           (Some "http://localhost:8000"%string) Catalog.Threw one_entry
           "MSFT"%string).
  simpl. now left.
Defined.

(** X23. Without an API URL, or when the request for the symbol lists
    fails, each of the six sample symbols can be looked up in the
    catalogue afterwards. *)
Theorem X23_failed_load_gives_the_samples
  (apiBaseUrl : option string) (r : Catalog.Outcome) (db : Catalog.t)
  (info : Catalog.SymbolInfo)
  (H : truthy_string apiBaseUrl = false \/ r = Catalog.Threw)
  (Hin : In info Catalog.fallbackSymbols) :
  JsMap.get (Catalog.loadSymbolsDatabase apiBaseUrl r db) (Catalog.symbol info)
  = Some info.
Proof.
  unfold Catalog.loadSymbolsDatabase.
  destruct (truthy_string apiBaseUrl) eqn:T.
  - destruct H as [H | ->]; [discriminate|]. now apply loadFallbackSymbols_get.
  - now apply loadFallbackSymbols_get.
Qed.

Lemma X23_witness :
  JsMap.get (Catalog.loadSymbolsDatabase None Catalog.Threw one_entry)
    "AAPL"%string
  = Some {| Catalog.symbol := "AAPL"; Catalog.name := "Apple Inc.";
            Catalog.market := "US"; Catalog.category := "Technology" |}.
Proof.
  apply (X23_failed_load_gives_the_samples None Catalog.Threw one_entry
           {| Catalog.symbol := "AAPL"; Catalog.name := "Apple Inc.";
              Catalog.market := "US"; Catalog.category := "Technology" |}).
  - left. reflexivity.
  - simpl. tauto.
Defined.

(** X24. When the request for the symbol lists succeeds, every symbol
    named in a list of the response is stored in the catalogue with the
    fields of one of the objects naming it, and with the key of the list
    that object stands in as its category. *)
Theorem X24_listed_symbols_are_stored_with_their_category
  (url : string) (categories : JsObject.t (list Catalog.SymbolInfo)) (db : Catalog.t)
  (c : string) (l : list Catalog.SymbolInfo) (info : Catalog.SymbolInfo)
  (Hurl : truthy_string (Some url) = true)
  (Hc : In (c, l) categories) (Hi : In info l) :
  exists c' l' info',
    In (c', l') categories /\ In info' l'
    /\ Catalog.symbol info' = Catalog.symbol info
    /\ JsMap.get (Catalog.loadSymbolsDatabase (Some url) (Catalog.Responded categories) db)
         (Catalog.symbol info)
       = Some (Catalog.with_category c' info').
Proof.
  unfold Catalog.loadSymbolsDatabase. rewrite Hurl, load_categories_pairs.
  destruct (JsMap_get_fold_last
              (flat_map category_pairs (JsObject.entries categories)) db
              (Catalog.symbol info)) as (v & Hv & G).
  - apply in_map_iff. exists (Catalog.symbol info, Catalog.with_category c info).
    split; [reflexivity|]. apply in_flat_map. exists (c, l). split.
    + now apply JsObject_entries_In.
    + unfold category_pairs. apply in_map_iff. now exists info.
  - apply in_flat_map in Hv. destruct Hv as ([c' l'] & He & Hp).
    unfold category_pairs in Hp. apply in_map_iff in Hp.
    destruct Hp as (info' & [= Hk Hval] & Hi'). simpl in Hk, Hval.
    exists c', l', info'. repeat split.
    + now apply JsObject_entries_In.
    + exact Hi'.
    + exact Hk.
    + now rewrite G, Hval.
Qed.

Lemma X24_witness :
  exists c' l' info',
    In (c', l') two_lists /\ In info' l'
    /\ Catalog.symbol info' = "AAPL"%string
    /\ JsMap.get (Catalog.loadSymbolsDatabase (Some "http://localhost:8000"%string)
                    (Catalog.Responded two_lists) one_entry) "AAPL"%string
       = Some (Catalog.with_category c' info').
Proof.
  apply (X24_listed_symbols_are_stored_with_their_category
           "http://localhost:8000"%string two_lists one_entry
           "Technology"%string
           [ {| Catalog.symbol := "AAPL"; Catalog.name := "Apple Inc.";
                Catalog.market := "US"; Catalog.category := "" |} ]
           {| Catalog.symbol := "AAPL"; Catalog.name := "Apple Inc.";
              Catalog.market := "US"; Catalog.category := "" |}).
  - reflexivity.
  - simpl. tauto.
  - simpl. tauto.
Defined.

(** A symbol named in two lists ends with the category of the later
    list. *)
Example symbol_in_two_lists_takes_the_later_category :
  option_map Catalog.category
    (JsMap.get (Catalog.loadSymbolsDatabase (Some "http://localhost:8000"%string)
                  (Catalog.Responded two_lists) one_entry) "AAPL"%string)
  = Some "Favourites"%string.
Proof. reflexivity. Qed.

Section SearchRequest.
Variable toLowerCase : string -> string.

(** X25. [handleSymbolSearch] hides the suggestions exactly when the
    trimmed query is empty, and otherwise shows at most eight
    suggestions. For a query that is not empty it shows the first eight
    results of the remote search when an API URL is set and the request
    came back ok with a list that is not empty, and the results of the
    local search in every other case: no API URL, a failed request, a
    response that is not ok, or an empty list. *)
Theorem X25_search_shows_at_most_eight
  (query : string) (apiBaseUrl : option string) (r : Catalog.SearchOutcome)
  (db : Catalog.t) :
  (Catalog.handleSymbolSearch toLowerCase query apiBaseUrl r db = None
   <-> query = ""%string)
  /\ (forall l, Catalog.handleSymbolSearch toLowerCase query apiBaseUrl r db = Some l ->
        List.length l <= 8)
  /\ (forall results,
        query <> ""%string ->
        truthy_string apiBaseUrl = true ->
        r = Catalog.SearchResponded true results ->
        results <> [] ->
        Catalog.handleSymbolSearch toLowerCase query apiBaseUrl r db
        = Some (firstn 8 results))
  /\ (query <> ""%string ->
      truthy_string apiBaseUrl = false
      \/ r = Catalog.SearchThrew
      \/ (exists results, r = Catalog.SearchResponded false results)
      \/ r = Catalog.SearchResponded true [] ->
      Catalog.handleSymbolSearch toLowerCase query apiBaseUrl r db
      = Some (Catalog.searchSymbolsLocally toLowerCase query db)).
Proof.
  assert (Local : List.length (Catalog.searchSymbolsLocally toLowerCase query db) <= 8).
  { rewrite searchSymbolsLocally_spec. apply firstn_le_length. }
  assert (Q : query <> ""%string -> Nat.ltb (String.length query) 1 = false).
  { destruct query; [congruence | reflexivity]. }
  split; [|split; [|split]].
  - unfold Catalog.handleSymbolSearch.
    destruct query as [|a q]; cbn [String.length Nat.ltb Nat.leb].
    + split; reflexivity.
    + split; [|discriminate].
      destruct (Nat.eqb _ 0); discriminate.
  - unfold Catalog.handleSymbolSearch.
    intros l. destruct (Nat.ltb (String.length query) 1); [discriminate|].
    destruct (truthy_string apiBaseUrl) eqn:T;
      [destruct r as [[|] results|]|]; cbn [List.length Nat.eqb];
      try (intros [= <-]; exact Local).
    pose proof (firstn_le_length 8 results) as Remote.
    set (shown := firstn 8 results) in *.
    destruct (Nat.eqb (List.length shown) 0); intros [= <-]; assumption.
  - intros results HQ T -> Hne. unfold Catalog.handleSymbolSearch.
    rewrite (Q HQ), T. destruct results as [|x results]; [congruence|].
    reflexivity.
  - intros HQ H. unfold Catalog.handleSymbolSearch. rewrite (Q HQ).
    destruct (truthy_string apiBaseUrl) eqn:T; [|reflexivity].
    destruct H as [H | [-> | [[results ->] | ->]]];
      [discriminate | reflexivity | reflexivity | reflexivity].
Qed.

End SearchRequest.

(** The results of the remote search are shown when there are some. *)
Example remote_results_are_shown :
  Catalog.handleSymbolSearch ascii_toLowerCase "a" (Some api_example)
    (Catalog.SearchResponded true Catalog.fallbackSymbols) ten_entries
  = Some Catalog.fallbackSymbols.
Proof. reflexivity. Qed.

(** With the remote search unusable, the first eight of ten matching
    entries are shown, in the order of the catalogue. *)
Example local_search_stops_at_eight :
  option_map (map Catalog.symbol)
    (Catalog.handleSymbolSearch ascii_toLowerCase "a" None Catalog.SearchThrew ten_entries)
  = Some [ "AA"; "AB"; "AC"; "AD"; "AE"; "AF"; "AG"; "AH" ]%string.
Proof. reflexivity. Qed.

(** ** Debounce *)

Section DebounceFacts.
Context {A : Type}.

Lemma run_snoc (s : Debounce.State A) evs ev :
  Debounce.run s (evs ++ [ev]) = Debounce.step (Debounce.run s evs) ev.
Proof. unfold Debounce.run. now rewrite fold_left_app. Qed.

Lemma calls_snoc (evs : list (Debounce.Event A)) ev :
  calls (evs ++ [ev])
  = (calls evs ++ match ev with Debounce.Call args => [args] | Debounce.Fire _ => [] end).
Proof. unfold calls. rewrite flat_map_app. simpl. now rewrite app_nil_r. Qed.

Lemma clearTimeout_one_timer (s : Debounce.State A) :
  one_timer s -> Debounce.clearTimeout (Debounce.timeout s) (Debounce.timers s) = [].
Proof.
  intros [E | (id & args & E & T)]; rewrite E.
  - destruct (Debounce.timeout s); reflexivity.
  - rewrite T. simpl. now rewrite Nat.eqb_refl.
Qed.

Lemma timers_executedFunction (args : A) (s : Debounce.State A) :
  one_timer s ->
  Debounce.timers (Debounce.executedFunction args s) = [(Debounce.next_id s, args)].
Proof.
  intros H. unfold Debounce.executedFunction. cbn [Debounce.timers].
  now rewrite clearTimeout_one_timer.
Qed.

Lemma fire_one_timer (id : nat) (s : Debounce.State A) :
  one_timer s ->
  Debounce.fire id s = s
  \/ exists args, Debounce.timers s = [(id, args)]
                  /\ Debounce.timers (Debounce.fire id s) = []
                  /\ Debounce.invoked (Debounce.fire id s) = Debounce.invoked s ++ [args].
Proof.
  intros [E | (id' & args & E & T)]; unfold Debounce.fire; rewrite E; cbn [find fst].
  - now left.
  - destruct (Nat.eqb_spec id' id) as [->|N]; [|now left].
    right. exists args. cbn [filter fst Debounce.timers Debounce.invoked].
    rewrite Nat.eqb_refl. cbn [negb]. repeat split.
    destruct (Debounce.timeout s); reflexivity.
Qed.

Lemma step_one_timer (s : Debounce.State A) ev :
  one_timer s -> one_timer (Debounce.step s ev).
Proof.
  intros H. destruct ev as [args|id]; cbn [Debounce.step].
  - right. exists (Debounce.next_id s), args. split.
    + now apply timers_executedFunction.
    + reflexivity.
  - destruct (fire_one_timer id s H) as [-> | (args & _ & E & _)]; [exact H|].
    now left.
Qed.

Lemma run_one_timer (evs : list (Debounce.Event A)) (s : Debounce.State A) :
  one_timer s -> one_timer (Debounce.run s evs).
Proof.
  revert s. induction evs as [|ev evs IH]; intros s H; [exact H|].
  apply IH. now apply step_one_timer.
Qed.

Lemma initial_one_timer : one_timer (@Debounce.initial A).
Proof. now left. Qed.

Lemma subsequence_refl (l : list A) : subsequence l l.
Proof. induction l; constructor; assumption. Qed.

Lemma subsequence_snoc (l l' : list A) (x : A) :
  subsequence l l' -> subsequence (l ++ [x]) (l' ++ [x]).
Proof.
  induction 1; simpl.
  - apply subsequence_take, subsequence_nil.
  - now apply subsequence_skip.
  - now apply subsequence_take.
Qed.

Lemma subsequence_app_l (l1 l2 l' : list A) :
  subsequence (l1 ++ l2) l' -> subsequence l1 l'.
Proof.
  intros H. remember (l1 ++ l2) as l eqn:E. revert l1 E.
  induction H as [|x l l' H IH|x l l' H IH]; intros l1 E.
  - symmetry in E. apply app_eq_nil in E. destruct E as [-> _]. constructor.
  - apply subsequence_skip. now apply IH.
  - destruct l1 as [|y l1]; simpl in E.
    + clear IH. apply subsequence_skip.
      clear E. induction H; constructor; assumption.
    + injection E as <- E. apply subsequence_take. now apply IH.
Qed.

(** X26. At any moment the debounced function has at most one timer
    running; [timeout] holds the id of that timer, and the timer carries
    the arguments of the most recent call. *)
Theorem X26_debounce_keeps_one_timer_for_the_last_call
  (evs : list (Debounce.Event A)) :
  List.length (Debounce.timers (Debounce.run Debounce.initial evs)) <= 1
  /\ forall id args,
       In (id, args) (Debounce.timers (Debounce.run Debounce.initial evs)) ->
       Debounce.timeout (Debounce.run Debounce.initial evs) = Some id
       /\ forall d, last (calls evs) d = args.
Proof.
  pose proof (run_one_timer evs _ initial_one_timer) as H. split.
  - destruct H as [E | (id & args & E & _)]; rewrite E; simpl; lia.
  - induction evs as [|ev evs IH] using rev_ind; [intros ? ? []|].
    intros id args. rewrite run_snoc, calls_snoc.
    pose proof (run_one_timer evs _ initial_one_timer) as H0.
    destruct ev as [a|i]; cbn [Debounce.step].
    + rewrite timers_executedFunction by exact H0.
      intros [[= <- <-]|[]]. split; [reflexivity|].
      intros d. apply last_last.
    + rewrite app_nil_r.
      destruct (fire_one_timer i _ H0) as [-> | (a & _ & E & _)].
      * apply IH. exact H0.
      * rewrite E. intros [].
Qed.

(** X27. The debounced function invokes [func] only with arguments it was
    called with, in the order of the calls and at most once for each
    call; a call whose timer is still running has not been invoked. *)
Theorem X27_debounce_invokes_a_subsequence_of_the_calls
  (evs : list (Debounce.Event A)) :
  subsequence
    (Debounce.invoked (Debounce.run Debounce.initial evs)
     ++ map snd (Debounce.timers (Debounce.run Debounce.initial evs)))
    (calls evs).
Proof.
  induction evs as [|ev evs IH] using rev_ind; [constructor|].
  rewrite run_snoc, calls_snoc.
  pose proof (run_one_timer evs _ initial_one_timer) as H0.
  destruct ev as [a|i]; cbn [Debounce.step].
  - rewrite timers_executedFunction by exact H0.
    cbn [Debounce.executedFunction Debounce.invoked map snd].
    apply subsequence_snoc. now apply subsequence_app_l in IH.
  - rewrite app_nil_r.
    destruct (fire_one_timer i _ H0) as [-> | (a & E0 & E & I)]; [exact IH|].
    rewrite E, I. rewrite E0 in IH. cbn [map snd] in IH |- *.
    now rewrite app_nil_r.
Qed.

(** X28. A burst of calls followed by the firing of the timer invokes
    [func] once, with the arguments of the last call of the burst: the
    earlier calls of the burst are dropped. *)
Theorem X28_debounce_burst_invokes_last_call_once
  (evs : list (Debounce.Event A)) (burst : list A) (args : A) :
  let before := Debounce.run Debounce.initial evs in
  let s := Debounce.run before (map Debounce.Call (burst ++ [args])) in
  exists id,
    Debounce.timeout s = Some id
    /\ Debounce.timers s = [(id, args)]
    /\ Debounce.invoked (Debounce.fire id s) = Debounce.invoked before ++ [args]
    /\ Debounce.timers (Debounce.fire id s) = [].
Proof.
  intros before s.
  assert (Hb : one_timer before) by apply run_one_timer, initial_one_timer.
  assert (Inv : forall l s0, Debounce.invoked (Debounce.run s0 (map Debounce.Call l))
                             = Debounce.invoked (A := A) s0).
  { unfold Debounce.run.
    induction l as [|a l IHl]; intros s0; [reflexivity|].
    cbn [map fold_left]. now rewrite IHl. }
  subst s. rewrite map_app. cbn [map]. rewrite run_snoc. cbn [Debounce.step].
  set (s1 := Debounce.run before (map Debounce.Call burst)).
  assert (H1 : one_timer s1) by now apply run_one_timer.
  exists (Debounce.next_id s1).
  pose proof (timers_executedFunction args s1 H1) as T.
  assert (H2 : one_timer (Debounce.executedFunction args s1))
    by apply (step_one_timer s1 (Debounce.Call args) H1).
  split; [reflexivity|]. split; [exact T|].
  destruct (fire_one_timer (Debounce.next_id s1) _ H2) as [F | (a & E0 & E & I)].
  - exfalso. unfold Debounce.fire in F. rewrite T in F. cbn [find fst] in F.
    rewrite Nat.eqb_refl in F.
    apply (f_equal (fun x => List.length (Debounce.invoked x))) in F.
    cbn [Debounce.invoked Debounce.executedFunction] in F.
    rewrite length_app in F. simpl in F. lia.
  - rewrite T in E0. injection E0 as <-.
    split; [|exact E]. rewrite I. cbn [Debounce.executedFunction Debounce.invoked].
    unfold s1. now rewrite Inv.
Qed.

End DebounceFacts.

(** Three keystrokes, then the timer of the third fires: one search, for
    the last text. The timers of the first two never run. *)
Example three_keystrokes_one_search :
  Debounce.invoked
    (Debounce.run Debounce.initial
       [ Debounce.Call "A"%string; Debounce.Call "AA"%string; Debounce.Call "AAP"%string;
         Debounce.Fire 1; Debounce.Fire 2; Debounce.Fire 3 ])
  = [ "AAP"%string ].
Proof. reflexivity. Qed.
